(** * opencode-mcp: the HTTP bridge of [cmd/mcpserver/main.go]

    A shallow embedding of the MCP server that wraps [opencode-cli]: the
    session registry, the command runner, the line-oriented event stream
    handling of [handleToolsCallSSE] and the request router of [main].

    Conventions.
    - A Go [string] is a Rocq [string] (a sequence of bytes).
    - A Go [int] is a [Z]; no arithmetic of the program gets near 2^63.
    - A value of type [any] obtained from [encoding/json] is a [json].
    - The handlers write to an [http.ResponseWriter] and start processes;
      both are recorded, in program order, in a list of [effect]s.
    - What the operating system and Go's standard library decide (the file
      system, the clock, the random source, what a started process prints,
      how a JSON text decodes) is read from a [world] and a [GoLib]; the
      theorems hold for every world and every library. *)

From Stdlib Require Import ZArith NArith Lia List Ascii String Bool Sorted.
From Stdlib.Strings Require Import Byte.
From stdpp Require Import base option list gmap strings pretty.
Import ListNotations.

Local Open Scope string_scope.
Local Open Scope list_scope.
Local Open Scope Z_scope.

Set Default Proof Using "Type".

(** ** Byte strings *)

Module Str.

Definition nl : string := String "010"%char EmptyString.
Definition cr : ascii := "013"%char.
Definition dquote : ascii := "034"%char.

(** [len(s)] *)
Definition len (s : string) : Z := Z.of_nat (String.length s).

(** [strings.HasPrefix] *)
Definition HasPrefix (s p : string) : bool := String.prefix p s.

(** [strings.Contains]: [sub] occurs in [s]. *)
Fixpoint Contains (s sub : string) : bool :=
  String.prefix sub s ||
  match s with
  | EmptyString => false
  | String _ r => Contains r sub
  end.

(** [strings.Join] *)
Fixpoint Join (elems : list string) (sep : string) : string :=
  match elems with
  | [] => EmptyString
  | [e] => e
  | e :: r => e +:+ sep +:+ Join r sep
  end.

(** [strings.Split(s, sep)] for the one-byte separator the program uses.
    [cur] holds, reversed, the bytes of the piece being read. *)
Fixpoint split_go (sep : ascii) (cur : string) (s : string) : list string :=
  match s with
  | EmptyString => [String.rev cur]
  | String c r =>
      if Ascii.eqb c sep then String.rev cur :: split_go sep EmptyString r
      else split_go sep (String c cur) r
  end.

Definition SplitLines (s : string) : list string :=
  split_go "010"%char EmptyString s.

(** The [%d] verb of [fmt] on an [int]. *)
Definition itoa (n : Z) : string := pretty n.

(** [s[:n]] for [0 <= n <= len(s)]. *)
Definition prefix_n (n : Z) (s : string) : string :=
  String.substring 0 (Z.to_nat n) s.

(** [s[len(s)-n:]] for [0 <= n <= len(s)]. *)
Definition suffix_n (n : Z) (s : string) : string :=
  String.substring (String.length s - Z.to_nat n) (Z.to_nat n) s.

(** Replaces every apostrophe by a double quote: JSON texts are written
    with apostrophes in the examples below. *)
Fixpoint dq (s : string) : string :=
  match s with
  | EmptyString => EmptyString
  | String c r => String (if Ascii.eqb c "'"%char then dquote else c) (dq r)
  end.

End Str.

(** ** [encoding/hex] and the session registry *)

(** [hex.EncodeToString]: two digits of [hextable] per byte, high nibble
    first. *)
Definition hextable : string := "0123456789abcdef".

Definition hexdigit (n : N) : ascii :=
  match String.get (N.to_nat n) hextable with
  | Some c => c
  | None => "0"%char
  end.

Fixpoint EncodeToString (src : list byte) : string :=
  match src with
  | [] => EmptyString
  | v :: r =>
      String (hexdigit (N.shiftr (Byte.to_N v) 4))
        (String (hexdigit (N.land (Byte.to_N v) 15)) (EncodeToString r))
  end.

(** [rand.Read(b)]: the bytes the random source delivers overwrite [b] from
    its start; [b] keeps its length whatever the source delivers. *)
Definition randRead (entropy : list byte) (b : list byte) : list byte :=
  take (length b) (entropy ++ drop (length entropy) b).

(** [generateSessionID]: [b := make([]byte, 16)], [rand.Read(b)],
    [hex.EncodeToString(b)]. *)
Definition generateSessionID (entropy : list byte) : string :=
  let b := repeat x00 16 in
  let b := randRead entropy b in
  EncodeToString b.

Record session := Session {
  session_id : string;        (* id *)
  session_createdAt : Z;      (* createdAt, nanoseconds *)
}.

(** [sessionStore]: the map guarded by [mu]; every operation below runs
    under the lock, so it is one atomic step on the map. *)
Record sessionStore := SessionStore {
  sessions : gmap string session;
}.

Definition newSessionStore : sessionStore := SessionStore ∅.

(** [sessionStore.create], given what [rand.Read] and [time.Now]
    deliver. *)
Definition create (s : sessionStore) (entropy : list byte) (now : Z)
  : session * sessionStore :=
  let id := generateSessionID entropy in
  let sess := Session id now in
  (sess, SessionStore (<[id := sess]> (sessions s))).

(** [sessionStore.get]: [None] is the nil pointer. *)
Definition get (s : sessionStore) (id : string) : option session :=
  sessions s !! id.

(** ** Values of [encoding/json] *)

(** What [json.Unmarshal] stores in an [any]: [nil], [bool], [float64] (kept
    as the literal read), [string], [[]any] and [map[string]any]. *)
#[local] Unset Elimination Schemes.
Inductive json :=
| JNull
| JBool (b : bool)
| JNum (lit : string)
| JStr (s : string)
| JArr (elems : list json)
| JObj (fields : list (string * json)).
#[local] Set Elimination Schemes.

(** [m[k]] with the comma-ok result, on the fields of a map. *)
Fixpoint jlookup (k : string) (fields : list (string * json)) : option json :=
  match fields with
  | [] => None
  | (k', v) :: r => if String.eqb k' k then Some v else jlookup k r
  end.

(** [m[k] = v] *)
Fixpoint jset (k : string) (v : json) (fields : list (string * json))
  : list (string * json) :=
  match fields with
  | [] => [(k, v)]
  | (k', v') :: r =>
      if String.eqb k' k then (k, v) :: r else (k', v') :: jset k v r
  end.

(** [event[k]] on a decoded line; the nil map (the line [null]) has no
    key. *)
Definition jindex (event : json) (k : string) : option json :=
  match event with
  | JObj fields => jlookup k fields
  | _ => None
  end.

(** [s, _ := x.(string)] *)
Definition jstring (x : option json) : string :=
  match x with
  | Some (JStr s) => s
  | _ => EmptyString
  end.

(** ** Protocol records *)

(** [json.RawMessage]: the bytes of one JSON value, empty when the field
    was absent. *)
Definition RawMessage := string.

Record serverConfig := ServerConfig {
  Addr : string;
  Target : string;
  DefaultTimeout : Z;
  DefaultModel : string;
}.

Record mcpRequest := McpRequest {
  req_JSONRPC : string;
  req_Method : string;
  req_Params : RawMessage;
  req_ID : json;
  req_Cwd : string;
}.

Record mcpError := McpError {
  err_Code : Z;
  err_Message : string;
}.

Record mcpTool := McpTool {
  tool_Name : string;
  tool_Description : string;
  tool_InputSchema : json;
}.

Record toolCallParams := ToolCallParams {
  params_Name : string;
  params_Arguments : RawMessage;
}.

Record toolContent := ToolContent {
  content_Type : string;
  content_Text : string;
}.

Record toolCallResult := ToolCallResult {
  Content : list toolContent;
  IsError : bool;
}.

Record execArgs := ExecArgs {
  exec_Args : list string;
  exec_Cwd : string;
  exec_Stdin : string;
}.

(** The anonymous struct [runArgs] of the two [tools/call] handlers. *)
Record runArgs := RunArgs {
  run_Message : string;
  run_Cwd : string;
  run_Model : string;
  run_Session : string;
  run_Continue : bool;
  run_Files : list string;
}.

(** The [Result any] of an [mcpResponse]. *)
Inductive result :=
| ResultValue (v : json)               (* the map of handleInitialize *)
| ResultTools (tools : list mcpTool)   (* toolsListResult *)
| ResultCall (r : toolCallResult).

Record mcpResponse := McpResponse {
  resp_JSONRPC : string;
  resp_ID : json;
  resp_Result : option result;
  resp_Error : option mcpError;
}.

(** Tool names *)
Definition toolExec := "opencode_exec".
Definition toolRun := "opencode_run".
Definition toolModels := "opencode_models".
Definition toolSessionList := "opencode_session_list".
Definition toolAgentList := "opencode_agent_list".

(** ** What a handler does *)

(** A notification envelope [{jsonrpc, method, params}] of the SSE
    stream. *)
Inductive notification :=
| Progress (progressToken : json) (progress : Z) (message : string)
    (* sendProgress: notifications/progress *)
| Message (eventType : string) (data : json)
    (* notifications/message with params {type, data} *)
| RawLine (data : string).
    (* notifications/progress with params {data: line} *)

(** The JSON of one [data:] frame. *)
Inductive payload :=
| Notification (n : notification)
| Response (r : mcpResponse).

Record command := Command {
  cmd_Path : string;
  cmd_Args : list string;
  cmd_Stdin : string;
  cmd_Dir : string;
}.

Inductive effect :=
| SetHeader (key value : string)       (* w.Header().Set *)
| WriteHeader (status : Z)             (* w.WriteHeader *)
| HttpError (msg : string) (code : Z)  (* http.Error *)
| WriteJSON (r : mcpResponse)          (* json.NewEncoder(w).Encode(resp) *)
| WriteFrame (p : payload)             (* Fprintf(w, data: %s\n\n), Flush *)
| Start (c : command)                  (* a process is started *)
| Wait (c : command).                  (* the wait for it has returned *)

(** ** The world a request runs in *)

(** [os.Stat(cwd)] followed by [info.IsDir()]. *)
Inductive statResult :=
| StatError (msg : string)
| StatFile
| StatDir.

(** How a started process ends. *)
Inductive termination :=
| Exited (status : Z)          (* exit status, 0 to 255 *)
| Signaled                     (* killed, by the deadline of the context too *)
| WaitFailed (msg : string).   (* Wait failed for another reason *)

(** What a command does once started: [p_startErr] is the error of
    [cmd.Start], [p_stdout] and [p_stderr] the bytes it writes before its
    streams close. *)
Record process := Process {
  p_startErr : option string;
  p_stdout : string;
  p_stderr : string;
  p_exit : termination;
}.

Record world := World {
  w_now : Z;                              (* time.Now, in nanoseconds *)
  w_rand : list byte;                     (* what crypto/rand delivers *)
  w_stat : string -> statResult;
  w_exec : command -> process;
  w_stdoutPipeErr : option string;        (* error of cmd.StdoutPipe *)
  w_stderrPipeErr : option string;        (* error of cmd.StderrPipe *)
  w_flusher : bool;                       (* w implements http.Flusher *)
  w_stderrCopied : nat;                   (* bytes in stderrBuf when it is read *)
}.

(** The error of [cmd.Wait] (and of [cmd.Output] after a start). *)
Inductive execError :=
| ExitError (ExitCode : Z) (Stderr : string)
| OtherError (msg : string).

Definition waitErr (p : process) (Stderr : string) : option execError :=
  match p_exit p with
  | Exited status =>
      if Z.eqb status 0 then None else Some (ExitError status Stderr)
  | Signaled => Some (ExitError (-1) Stderr)
  | WaitFailed msg => Some (OtherError msg)
  end.

(** What [cmd.Output] keeps of standard error for [ExitError.Stderr]: all of
    it up to 64 KiB, else the first and the last 32 KiB around a note. *)
Definition savedStderr (s : string) : string :=
  let N := 32768 in
  if Str.len s <=? 2 * N then s
  else Str.prefix_n N s +:+ Str.nl +:+ "... omitting "
       +:+ Str.itoa (Str.len s - 2 * N) +:+ " bytes ..." +:+ Str.nl
       +:+ Str.suffix_n N s.

(** [cmd.Output()] *)
Definition Output (p : process) : string * option execError :=
  match p_startErr p with
  | Some msg => (EmptyString, Some (OtherError msg))
  | None => (p_stdout p, waitErr p (savedStderr (p_stderr p)))
  end.

(** The functions of Go's standard library whose result the program only
    branches on or passes along. *)
Class GoLib := {
  (** [json.Unmarshal([]byte(line), &event)], [event] a [map[string]any]:
      [Some (JObj _)] for an object, [Some JNull] for [null] (the map stays
      nil), [None] for an error. *)
  unmarshalMap : string -> option json;
  (** Empty input is an error of [json.Unmarshal]. *)
  unmarshalMap_empty : unmarshalMap EmptyString = None;
  (** [json.NewDecoder(r.Body).Decode(&req)] *)
  decodeRequest : string -> option mcpRequest;
  (** [json.Unmarshal] into the three argument structs. *)
  unmarshalParams : RawMessage -> option toolCallParams;
  unmarshalExecArgs : RawMessage -> option execArgs;
  unmarshalRunArgs : RawMessage -> option runArgs;
  (** [strings.TrimSpace] and [strings.Fields] *)
  TrimSpace : string -> string;
  Fields : string -> list string;
}.

(** The process-wide model cache ([availableModels], [modelCacheTime]). *)
Record modelCache := ModelCache {
  availableModels : list string;
  modelCacheTime : Z;
}.

Definition modelCacheTTL : Z := 5 * 60 * 1000000000.

Record server := Server {
  srv_sessions : sessionStore;
  srv_models : modelCache;
}.

(** A piece of a handler: it reads and updates the server state, appends to
    the trace, and either goes on with a value or has returned from the
    handler ([None]). *)
Definition M (A : Type) : Type := server -> server * list effect * option A.

Definition ret {A} (a : A) : M A := fun s => (s, [], Some a).

Definition bind {A B} (m : M A) (k : A -> M B) : M B := fun s =>
  match m s with
  | (s1, t1, None) => (s1, t1, None)
  | (s1, t1, Some a) =>
      match k a s1 with
      | (s2, t2, r) => (s2, t1 ++ t2, r)
      end
  end.

Definition emit (es : list effect) : M unit := fun s => (s, es, Some tt).
Definition return_ {A} : M A := fun s => (s, [], None).
Definition gets {A} (f : server -> A) : M A := fun s => (s, [], Some (f s)).
Definition modify (f : server -> server) : M unit :=
  fun s => (f s, [], Some tt).

#[global] Instance M_ret : MRet M := @ret.
#[global] Instance M_bind : MBind M := fun A B k m => bind m k.

(** The trace and the final state of a handler. *)
Definition run {A} (m : M A) (s : server) : server * list effect :=
  let '(s', t, _) := m s in (s', t).
Definition trace {A} (m : M A) (s : server) : list effect := (run m s).2.

Local Notation "a =s b" := (String.eqb a b) (at level 70, no associativity).

(** ** [bufio.Scanner] as [handleToolsCallSSE] sets it up *)

(** [scanner.Buffer(make([]byte, 1024*1024), 1024*1024)] *)
Definition maxTokenSize : Z := 1024 * 1024.

(** The successive values of [scanner.Text()] while [scanner.Scan()] is
    true, with the default split function [bufio.ScanLines]: the stream is
    cut at each newline, one trailing carriage return is dropped from a
    line, a last line without newline is delivered when it is not empty, and
    the scanner stops for good at a line that does not fit the buffer.
    [cur] holds, reversed, the bytes of the line being read. *)
Definition scanToken (cur : string) : string :=
  match cur with
  | String c r => if Ascii.eqb c Str.cr then String.rev r else String.rev cur
  | EmptyString => EmptyString
  end.

Fixpoint scan_go (cur : string) (s : string) : list string :=
  match s with
  | EmptyString =>
      match cur with
      | EmptyString => []
      | _ => if Str.len cur <? maxTokenSize then [scanToken cur] else []
      end
  | String c r =>
      if Ascii.eqb c "010"%char then
        if Str.len cur <? maxTokenSize
        then scanToken cur :: scan_go EmptyString r
        else []
      else scan_go (String c cur) r
  end.

Definition scanLines (stdout : string) : list string :=
  scan_go EmptyString stdout.

(** ** The program *)

Definition preferredModels : list string :=
  [ "github-copilot/gpt-5.2-codex";
    "github-copilot/gpt-5.1-codex";
    "opencode/gpt-5.2-codex";
    "opencode/gpt-5.1-codex";
    "github-copilot/gpt-4o";
    "github-copilot/claude-sonnet-4.5" ].

(** [for _, preferred := range ... { for _, available := range models {
    if test(available, preferred) { return available } } }] *)
Fixpoint firstPreferred (test : string -> string -> bool)
    (preferred models : list string) : option string :=
  match preferred with
  | [] => None
  | p :: ps =>
      match List.find (fun available => test available p) models with
      | Some available => Some available
      | None => firstPreferred test ps models
      end
  end.

(** [extractEventData] *)
Definition extractEventData (event : json) : json :=
  let eventType := jstring (jindex event "type") in
  match jindex event "part" with
  | Some (JObj part) =>
      if eventType =s "text" then
        match jlookup "text" part with
        | Some (JStr text) => JStr text
        | _ => event
        end
      else if eventType =s "tool_use" then
        let toolName := jstring (jlookup "tool" part) in
        match jlookup "state" part with
        | Some (JObj state) =>
            let status := jstring (jlookup "status" state) in
            let result := [("tool", JStr toolName); ("status", JStr status)] in
            let result :=
              match jlookup "input" state with
              | Some (JObj input) => jset "input" (JObj input) result
              | _ => result
              end in
            let result :=
              match jlookup "output" state with
              | Some output => jset "output" output result
              | None => result
              end in
            let result :=
              match jlookup "error" state with
              | Some (JStr errMsg) =>
                  if errMsg =s "" then result
                  else jset "error" (JStr errMsg) result
              | _ => result
              end in
            JObj result
        | _ => JObj [("tool", JStr toolName); ("status", JStr "unknown")]
        end
      else if eventType =s "step_start" then
        let reason := jstring (jlookup "reason" part) in
        JObj [("type", JStr "step_start"); ("reason", JStr reason)]
      else if eventType =s "step_finish" then
        let reason := jstring (jlookup "reason" part) in
        JObj [("type", JStr "step_finish"); ("reason", JStr reason)]
      else event
  | _ => event
  end.

(** What [handleToolsCallSSE] collects while it streams. (The map
    [eventTypeCounts] only feeds the log and is left out.) *)
Record collector := Collector {
  textCollector : string;
  toolOutputs : list string;
  eventCount : Z;
}.

Definition newCollector : collector := Collector EmptyString [] 0.

(** The final text of [handleToolsCallSSE], from what was collected, the
    captured standard error and the exit code. *)
Definition composeResult (st : collector) (stderrStr : string) (exitCode : Z)
  : string :=
  let resultText := textCollector st in
  let resultText :=
    if 0 <? Z.of_nat (length (toolOutputs st)) then
      (if negb (resultText =s EmptyString)
       then resultText +:+ Str.nl +:+ Str.nl +:+ "--- Tool Outputs ---" +:+ Str.nl
       else "--- Tool Outputs ---" +:+ Str.nl)
      +:+ Str.Join (toolOutputs st) (Str.nl +:+ Str.nl)
    else resultText in
  let resultText :=
    if negb (stderrStr =s EmptyString) then
      (if negb (resultText =s EmptyString)
       then resultText +:+ Str.nl +:+ Str.nl
       else resultText)
      +:+ "[stderr]" +:+ Str.nl +:+ stderrStr
    else resultText in
  if negb (exitCode =? 0)
  then resultText +:+ Str.nl +:+ "[exit code: " +:+ Str.itoa exitCode +:+ "]"
  else resultText.

(** An HTTP request as the handler of [/mcp] reads it. *)
Record httpRequest := HttpRequest {
  http_Method : string;
  http_Header : gmap string string;
  http_Body : string;
}.

(** [r.Header.Get(key)], the header names in their canonical form. *)
Definition HeaderGet (r : httpRequest) (key : string) : string :=
  default EmptyString (http_Header r !! key).

(** The tools of [handleToolsList] with their input schemas. *)
Definition schemaString (description : string) : json :=
  JObj [("type", JStr "string"); ("description", JStr description)].
Definition schemaStrings (description : string) : json :=
  JObj [ ("type", JStr "array");
         ("items", JObj [("type", JStr "string")]);
         ("description", JStr description) ].
Definition schemaEmpty : json :=
  JObj [("type", JStr "object"); ("properties", JObj [])].

Definition toolCatalog : list mcpTool :=
  [ McpTool toolExec
      "Run any opencode-cli command with custom arguments. Use this for advanced operations."
      (JObj [ ("type", JStr "object");
              ("properties", JObj
                 [ ("args", schemaStrings
                      "Command arguments (e.g., ['run', '--model', 'gpt-4', 'Hello'])");
                   ("cwd", schemaString "Working directory for the command");
                   ("stdin", schemaString "Standard input to pass to the command") ]);
              ("required", JArr [JStr "args"]) ]);
    McpTool toolRun
      "Run AI code assistant with a message. This is the main tool for code editing, analysis, and generation."
      (JObj [ ("type", JStr "object");
              ("properties", JObj
                 [ ("message", schemaString
                      "The message/prompt to send to the AI assistant");
                   ("cwd", schemaString "Project directory to work in");
                   ("model", schemaString
                      "Model to use (e.g., 'github-copilot/claude-sonnet-4')");
                   ("session", schemaString
                      "Session ID to continue a previous conversation");
                   ("continue", JObj [ ("type", JStr "boolean");
                                       ("description", JStr "Continue the last session") ]);
                   ("files", schemaStrings
                      "File paths to attach to the message for context (relative to cwd or absolute)") ]);
              ("required", JArr [JStr "message"]) ]);
    McpTool toolModels "List all available AI models" schemaEmpty;
    McpTool toolSessionList "List all saved sessions" schemaEmpty;
    McpTool toolAgentList "List all available agents" schemaEmpty ].

Section Program.

Context `{GoLib}.
Variable W : world.
Variable cfg : serverConfig.

(** [validateCwd]: [None] is the nil error. *)
Definition validateCwd (cwd : string) : option string :=
  if cwd =s EmptyString then None
  else match w_stat W cwd with
       | StatError msg => Some ("invalid cwd: " +:+ msg)
       | StatFile => Some "invalid cwd: not a directory"
       | StatDir => None
       end.

(** [writeMCPError] *)
Definition writeMCPError (id : json) (code : Z) (message : string) : M unit :=
  emit [ SetHeader "Content-Type" "application/json";
         WriteJSON (McpResponse "2.0" id None (Some (McpError code message))) ].

(** [cmd.Output()] of a fresh command, with the process it starts and
    waits for. *)
Definition cmdOutput (cmd : command) : M (string * option execError) :=
  let p := w_exec W cmd in
  emit (match p_startErr p with
        | None => [Start cmd; Wait cmd]
        | Some _ => []
        end);;
  mret (Output p).

(** [runCommand]: stdout, stderr, exit code and the message of the
    error ([None] for nil). *)
Definition runCommand (target : string) (args : list string)
    (stdin cwd : string) : M (string * string * Z * option string) :=
  '(stdout, err) ← cmdOutput (Command target args stdin cwd);
  match err with
  | None => mret (stdout, EmptyString, 0, None)
  | Some (ExitError ExitCode Stderr) =>
      mret (stdout, Stderr, ExitCode,
            Some ("command failed: " +:+ TrimSpace Stderr))
  | Some (OtherError msg) => mret (EmptyString, EmptyString, -1, Some msg)
  end.

(** [len(availableModels) > 0 && time.Since(modelCacheTime) < modelCacheTTL] *)
Definition cacheFresh (c : modelCache) : bool :=
  (0 <? Z.of_nat (length (availableModels c)))
  && (w_now W - modelCacheTime c <? modelCacheTTL).

(** The loop of [fetchAvailableModels] over the lines of the output. *)
Definition parseModels (output : string) : list string :=
  flat_map
    (fun line =>
       let line := TrimSpace line in
       if negb (line =s EmptyString) && negb (Str.HasPrefix line "#")
          && negb (Str.HasPrefix line "Available")
       then match Fields line with
            | part0 :: _ => [part0]
            | [] => []
            end
       else [])
    (Str.SplitLines output).

(** [fetchAvailableModels]: the cache is read under the read lock and
    checked again under the write lock. *)
Definition fetchAvailableModels (target : string) : M (list string) :=
  c ← gets srv_models;
  if cacheFresh c then mret (availableModels c) else
  c ← gets srv_models;
  if cacheFresh c then mret (availableModels c) else
  '(output, err) ← cmdOutput (Command target ["models"] EmptyString EmptyString);
  match err with
  | Some _ => mret []
  | None =>
      let models := parseModels output in
      (if 0 <? Z.of_nat (length models)
       then modify (fun s => Server (srv_sessions s) (ModelCache models (w_now W)))
       else mret tt);;
      mret models
  end.

(** [getDefaultModel] *)
Definition getDefaultModel : M string :=
  models ← fetchAvailableModels (Target cfg);
  mret
    match firstPreferred String.eqb preferredModels models with
    | Some available => available
    | None =>
    match firstPreferred Str.Contains preferredModels models with
    | Some available => available
    | None =>
    match List.find (fun available =>
                       Str.HasPrefix available "github-copilot/"
                       || Str.HasPrefix available "opencode/") models with
    | Some available => available
    | None =>
    match models with
    | m0 :: _ => m0
    | [] => EmptyString
    end end end end.

(** The argument vector of [opencode_run]. *)
Definition runCmdArgs (model : string) (a : runArgs) : list string :=
  ["run"; "--format"; "json"]
  ++ (if negb (model =s EmptyString) then ["--model"; model] else [])
  ++ (if negb (run_Session a =s EmptyString)
      then ["--session"; run_Session a] else [])
  ++ (if run_Continue a then ["--continue"] else [])
  ++ flat_map (fun file => ["--file"; file]) (run_Files a)
  ++ [run_Message a].

(** [sendProgress] *)
Definition sendProgress (id : json) (progress : Z) (message : string)
  : notification := Progress id progress message.

(** One turn of the loop [for scanner.Scan()] of [handleToolsCallSSE]:
    the new collector and the notifications written, in order. *)
Definition onLine (toolName : string) (id : json) (st : collector)
    (line : string) : collector * list notification :=
  let raw :=
    let n := eventCount st + 1 in
    (Collector (textCollector st +:+ line +:+ Str.nl) (toolOutputs st) n,
     [RawLine line]) in
  if line =s EmptyString then (st, [])
  else if toolName =s toolRun then
    match unmarshalMap line with
    | Some event =>
        let eventType := jstring (jindex event "type") in
        let eventData := extractEventData event in
        let n := eventCount st + 1 in
        let '(st', progress) :=
          if eventType =s "text" then
            match eventData with
            | JStr text =>
                let collected := textCollector st +:+ text in
                (Collector collected (toolOutputs st) n,
                 [sendProgress id n collected])
            | _ => (Collector (textCollector st) (toolOutputs st) n, [])
            end
          else if eventType =s "tool_use" then
            match eventData with
            | JObj m =>
                let tool := jstring (jlookup "tool" m) in
                let status := jstring (jlookup "status" m) in
                if status =s "completed" then
                  let outputs :=
                    if negb (tool =s EmptyString) then
                      match jlookup "output" m with
                      | Some (JStr output) =>
                          if negb (output =s EmptyString)
                          then toolOutputs st
                               ++ ["[Tool: " +:+ tool +:+ "]" +:+ Str.nl +:+ output]
                          else toolOutputs st
                      | _ => toolOutputs st
                      end
                    else toolOutputs st in
                  (Collector (textCollector st) outputs n,
                   [sendProgress id n ("Tool " +:+ tool +:+ " completed")])
                else (Collector (textCollector st) (toolOutputs st) n, [])
            | _ => (Collector (textCollector st) (toolOutputs st) n, [])
            end
          else if (eventType =s "step_start") || (eventType =s "step_finish") then
            match eventData with
            | JObj m =>
                let reason := jstring (jlookup "reason" m) in
                let msg :=
                  if negb (reason =s EmptyString)
                  then eventType +:+ ": " +:+ reason else eventType in
                (Collector (textCollector st) (toolOutputs st) n,
                 [sendProgress id n msg])
            | _ => (Collector (textCollector st) (toolOutputs st) n, [])
            end
          else (Collector (textCollector st) (toolOutputs st) n, []) in
        (st', progress ++ [Message eventType eventData])
    | None => raw
    end
  else raw.

(** The whole loop, over the lines the scanner delivers. *)
Fixpoint streamLoop (toolName : string) (id : json) (st : collector)
    (lines : list string) : collector * list notification :=
  match lines with
  | [] => (st, [])
  | line :: rest =>
      let '(st1, out1) := onLine toolName id st line in
      let '(st2, out2) := streamLoop toolName id st1 rest in
      (st2, out1 ++ out2)
  end.

(** The [switch params.Name] of [handleToolsCallSSE]: the argument
    vector, the working directory and the standard input. *)
Definition sseCommand (req : mcpRequest) (params : toolCallParams)
  : M (list string * string * string) :=
  let name := params_Name params in
  if name =s toolExec then
    match unmarshalExecArgs (params_Arguments params) with
    | None =>
        writeMCPError (req_ID req) (-32602) "invalid arguments";; return_
    | Some args =>
        if Z.of_nat (length (exec_Args args)) =? 0 then
          writeMCPError (req_ID req) (-32602) "missing args";; return_
        else mret (exec_Args args, exec_Cwd args, exec_Stdin args)
    end
  else if name =s toolRun then
    match unmarshalRunArgs (params_Arguments params) with
    | None =>
        writeMCPError (req_ID req) (-32602) "invalid arguments";; return_
    | Some a =>
        if run_Message a =s EmptyString then
          writeMCPError (req_ID req) (-32602) "missing message";; return_
        else
          model ← (if run_Model a =s EmptyString then getDefaultModel
                   else mret (run_Model a));
          mret (runCmdArgs model a, run_Cwd a, EmptyString)
    end
  else if name =s toolModels then
    mret (["models"], EmptyString, EmptyString)
  else if name =s toolSessionList then
    mret (["session"; "list"], EmptyString, EmptyString)
  else if name =s toolAgentList then
    mret (["agent"; "list"], EmptyString, EmptyString)
  else
    writeMCPError (req_ID req) (-32602) ("unknown tool: " +:+ name);;
    return_.

(** [exitCode] after [cmd.Wait()]: the code of an [ExitError], else 0. *)
Definition waitExitCode (p : process) : Z :=
  match waitErr p EmptyString with
  | Some (ExitError ExitCode _) => ExitCode
  | _ => 0
  end.

(** The terminal frame of [handleToolsCallSSE]. *)
Definition finalResponse (id : json) (resultText : string) (exitCode : Z)
  : mcpResponse :=
  McpResponse "2.0" id
    (Some (ResultCall (ToolCallResult [ToolContent "text" resultText]
                                      (negb (exitCode =? 0)))))
    None.

(** [handleToolsCallSSE] in its three stages. First the request is
    checked: the parameters are decoded, the command is built and the
    working directory validated. *)
Definition sseValidate (req : mcpRequest) : M (string * command) :=
  match unmarshalParams (req_Params req) with
  | None =>
      writeMCPError (req_ID req) (-32602) "invalid params";; return_
  | Some params =>
      '(cmdArgs, cwd, stdin) ← sseCommand req params;
      let cwd := if cwd =s EmptyString then req_Cwd req else cwd in
      match validateCwd cwd with
      | Some msg => writeMCPError (req_ID req) (-32602) msg;; return_
      | None =>
          mret (params_Name params, Command (Target cfg) cmdArgs stdin cwd)
      end
  end.

(** Then the process is started ([cmd.StdoutPipe], [cmd.StderrPipe],
    [cmd.Start]) and the response is set up for streaming. *)
Definition sseLaunch (id : json) (cmd : command) : M process :=
  match w_stdoutPipeErr W with
  | Some msg => writeMCPError id (-32000) msg;; return_
  | None =>
  match w_stderrPipeErr W with
  | Some msg => writeMCPError id (-32000) msg;; return_
  | None =>
  let p := w_exec W cmd in
  match p_startErr p with
  | Some msg => writeMCPError id (-32000) msg;; return_
  | None =>
      emit [ Start cmd;
             SetHeader "Content-Type" "text/event-stream";
             SetHeader "Cache-Control" "no-cache";
             SetHeader "Connection" "keep-alive";
             SetHeader "X-Accel-Buffering" "no" ];;
      if negb (w_flusher W) then
        writeMCPError id (-32000) "streaming unsupported";; return_
      else mret p
  end end end.

(** [stderrBuf.String()] where [handleToolsCallSSE] reads it. The
    goroutine [io.Copy(&stderrBuf, stderrPipe)] runs beside the handler
    and nothing waits for it: [cmd.Wait] closes the pipe once the process
    has exited, and the buffer is read right after. It then holds the
    bytes of standard error copied so far, [w_stderrCopied] of them: any
    prefix of what the process wrote, all of it at best. *)
Definition stderrBuf (p : process) : string :=
  String.substring 0 (w_stderrCopied W) (p_stderr p).

(** Last the output is streamed line by line, the process is waited for
    and the result is written. *)
Definition sseStream (toolName : string) (id : json) (cmd : command)
    (p : process) : M unit :=
  let '(st, out) := streamLoop toolName id newCollector (scanLines (p_stdout p)) in
  emit (map (fun n => WriteFrame (Notification n)) out);;
  emit [Wait cmd];;
  let exitCode := waitExitCode p in
  let stderrStr := stderrBuf p in
  let resultText := composeResult st stderrStr exitCode in
  emit [WriteFrame (Response (finalResponse id resultText exitCode))].

Definition handleToolsCallSSE (req : mcpRequest) : M unit :=
  '(toolName, cmd) ← sseValidate req;
  p ← sseLaunch (req_ID req) cmd;
  sseStream toolName (req_ID req) cmd p.

(** [parseJSONEventStream] *)
Definition parseEventLine (line : string) : list string :=
  let line := TrimSpace line in
  if line =s EmptyString then []
  else match unmarshalMap line with
  | None => []
  | Some event =>
      let eventType := jstring (jindex event "type") in
      match jindex event "part" with
      | Some (JObj part) =>
          if eventType =s "text" then
            match jlookup "text" part with
            | Some (JStr text) => if negb (text =s EmptyString) then [text] else []
            | _ => []
            end
          else if eventType =s "step_start" then
            match jlookup "reason" part with
            | Some (JStr reason) =>
                if negb (reason =s EmptyString)
                then [Str.nl +:+ "[Step started: " +:+ reason +:+ "]" +:+ Str.nl]
                else []
            | _ => []
            end
          else if eventType =s "step_finish" then
            match jlookup "reason" part with
            | Some (JStr reason) =>
                if negb (reason =s EmptyString)
                then ["[Step finished: " +:+ reason +:+ "]" +:+ Str.nl]
                else []
            | _ => []
            end
          else if eventType =s "tool_use" then
            let toolName := jstring (jlookup "tool" part) in
            match jlookup "state" part with
            | Some (JObj state) =>
                let status := jstring (jlookup "status" state) in
                if status =s "in_progress" then
                  ["[Tool: " +:+ toolName +:+ "] running..." +:+ Str.nl]
                else if status =s "completed" then
                  match jlookup "output" state with
                  | Some (JStr output) =>
                      if negb (output =s EmptyString)
                      then ["[Tool: " +:+ toolName +:+ "]" +:+ Str.nl
                            +:+ output +:+ Str.nl]
                      else []
                  | _ => []
                  end
                else if status =s "error" then
                  let errMsg := jstring (jlookup "error" state) in
                  let errMsg :=
                    if errMsg =s EmptyString then "unknown error" else errMsg in
                  ["[Tool: " +:+ toolName +:+ "] error: " +:+ errMsg +:+ Str.nl]
                else []
            | _ => []
            end
          else []
      | _ => []
      end
  end.

Definition parseJSONEventStream (jsonLines : string) : string :=
  Str.Join (flat_map parseEventLine (Str.SplitLines jsonLines)) EmptyString.

(** The [switch params.Name] of [handleToolsCall]: what [runCommand]
    returned. *)
Definition callCommand (req : mcpRequest) (params : toolCallParams)
  : M (string * string * Z * option string) :=
  let name := params_Name params in
  let target := Target cfg in
  if name =s toolExec then
    match unmarshalExecArgs (params_Arguments params) with
    | None =>
        writeMCPError (req_ID req) (-32602) "invalid arguments";; return_
    | Some args =>
        if Z.of_nat (length (exec_Args args)) =? 0 then
          writeMCPError (req_ID req) (-32602) "missing args";; return_
        else
          let cwd :=
            if exec_Cwd args =s EmptyString then req_Cwd req
            else exec_Cwd args in
          match validateCwd cwd with
          | Some msg => writeMCPError (req_ID req) (-32602) msg;; return_
          | None => runCommand target (exec_Args args) (exec_Stdin args) cwd
          end
    end
  else if name =s toolRun then
    match unmarshalRunArgs (params_Arguments params) with
    | None =>
        writeMCPError (req_ID req) (-32602) "invalid arguments";; return_
    | Some a =>
        if run_Message a =s EmptyString then
          writeMCPError (req_ID req) (-32602) "missing message";; return_
        else
          let cwd :=
            if run_Cwd a =s EmptyString then req_Cwd req else run_Cwd a in
          match validateCwd cwd with
          | Some msg => writeMCPError (req_ID req) (-32602) msg;; return_
          | None =>
              model ← (if run_Model a =s EmptyString then getDefaultModel
                       else mret (run_Model a));
              runCommand target (runCmdArgs model a) EmptyString cwd
          end
    end
  else if name =s toolModels then
    runCommand target ["models"] EmptyString EmptyString
  else if name =s toolSessionList then
    runCommand target ["session"; "list"] EmptyString EmptyString
  else if name =s toolAgentList then
    runCommand target ["agent"; "list"] EmptyString EmptyString
  else
    writeMCPError (req_ID req) (-32602) ("unknown tool: " +:+ name);;
    return_.

(** The result text of [handleToolsCall]. *)
Definition aggregateResult (name stdout stderr : string) (exitCode : Z)
    (err : option string) : string :=
  let resultText := stdout in
  let resultText :=
    if (name =s toolRun) && negb (stdout =s EmptyString) then
      let parsed := parseJSONEventStream stdout in
      if negb (parsed =s EmptyString) then parsed else resultText
    else resultText in
  let resultText :=
    if negb (stderr =s EmptyString)
    then resultText +:+ Str.nl +:+ "[stderr]" +:+ Str.nl +:+ stderr
    else resultText in
  match err with
  | Some _ => resultText +:+ Str.nl +:+ "[exit code: " +:+ Str.itoa exitCode +:+ "]"
  | None => resultText
  end.

(** [handleToolsCall], the handler that answers with one JSON body. *)
Definition handleToolsCall (req : mcpRequest) : M unit :=
  match unmarshalParams (req_Params req) with
  | None => writeMCPError (req_ID req) (-32602) "invalid params";; return_
  | Some params =>
      '(stdout, stderr, exitCode, err) ← callCommand req params;
      let resultText :=
        aggregateResult (params_Name params) stdout stderr exitCode err in
      let result :=
        ToolCallResult [ToolContent "text" resultText]
          (match err with Some _ => negb (exitCode =? 0) | None => false end) in
      emit [ SetHeader "Content-Type" "application/json";
             WriteJSON (McpResponse "2.0" (req_ID req)
                          (Some (ResultCall result)) None) ]
  end.

(** [handleInitialize] *)
Definition handleInitialize (req : mcpRequest) : M unit :=
  emit [ SetHeader "Content-Type" "application/json";
         WriteJSON (McpResponse "2.0" (req_ID req)
           (Some (ResultValue (JObj
              [ ("protocolVersion", JStr "2024-11-05");
                ("capabilities", JObj [("tools", JObj [])]);
                ("serverInfo", JObj [ ("name", JStr "opencode-mcp");
                                      ("version", JStr "0.1.0") ]) ])))
           None) ].

(** [handleToolsList] *)
Definition handleToolsList (req : mcpRequest) : M unit :=
  emit [ SetHeader "Content-Type" "application/json";
         WriteJSON (McpResponse "2.0" (req_ID req)
                      (Some (ResultTools toolCatalog)) None) ].

(** The handler of [/mcp] in [main]. *)
Definition mcpHandler (r : httpRequest) : M unit :=
  if http_Method r =s "OPTIONS" then
    emit [ SetHeader "Allow" "POST, OPTIONS";
           SetHeader "Accept" "application/json";
           WriteHeader 204 ]
  else if negb (http_Method r =s "POST") then
    emit [HttpError "method not allowed" 405]
  else
    match decodeRequest (http_Body r) with
    | None => writeMCPError JNull (-32700) "invalid JSON"
    | Some req =>
        if req_Method req =s EmptyString then
          writeMCPError (req_ID req) (-32600) "missing method"
        else
          let sessionID := HeaderGet r "Mcp-Session-Id" in
          sess ←
            (if req_Method req =s "initialize" then
               st ← gets srv_sessions;
               let '(sess, st') := create st (w_rand W) (w_now W) in
               modify (fun s => Server st' (srv_models s));;
               emit [SetHeader "Mcp-Session-Id" (session_id sess)];;
               handleInitialize req;;
               return_
             else if req_Method req =s "notifications/initialized" then
               emit [WriteHeader 204];;
               return_
             else if negb (sessionID =s EmptyString) then
               st ← gets srv_sessions;
               mret (get st sessionID)
             else mret None);
          match sess with
          | Some sess => emit [SetHeader "Mcp-Session-Id" (session_id sess)]
          | None => mret tt
          end;;
          if req_Method req =s "tools/list" then handleToolsList req
          else if req_Method req =s "tools/call" then handleToolsCallSSE req
          else writeMCPError (req_ID req) (-32601)
                 ("method not found: " +:+ req_Method req)
    end.

End Program.

Arguments cmdOutput : simpl never.
Arguments runCommand : simpl never.
Arguments fetchAvailableModels : simpl never.
Arguments getDefaultModel : simpl never.
Arguments sseValidate : simpl never.
Arguments sseLaunch : simpl never.
Arguments sseStream : simpl never.
Arguments handleToolsCallSSE : simpl never.
Arguments handleToolsCall : simpl never.

(** ** The endpoint [/exec] and the helper of the log *)

(** [truncateForLog]. The slice [s[:maxLen]] is only reached when
    [len(s) > maxLen]; with a negative [maxLen] it panics ([None]). *)
Definition truncateForLog (s : string) (maxLen : Z) : option string :=
  if Str.len s <=? maxLen then Some s
  else if maxLen <? 0 then None
  else Some (Str.prefix_n maxLen s +:+ "...").

Record execResponse := ExecResponse {
  exec_OK : bool;           (* ok *)
  exec_Stdout : string;     (* stdout *)
  exec_Stderr : string;     (* stderr *)
  exec_ExitCode : Z;        (* exitCode *)
  exec_Error : string;      (* error *)
}.

Section Exec.

Context `{GoLib}.
Variable W : world.
Variable cfg : serverConfig.

(** [json.NewDecoder(r.Body).Decode(&req)] for an [execArgs]; [None] is
    an error. *)
Variable decodeExecArgs : string -> option execArgs.

(** The handler of [/exec] in [main]. It goes on with the value it
    encodes as the response body. *)
Definition execHandler (r : httpRequest) : M execResponse :=
  if negb (http_Method r =s "POST") then
    emit [HttpError "method not allowed" 405];; return_
  else
    match decodeExecArgs (http_Body r) with
    | None => emit [HttpError "invalid JSON" 400];; return_
    | Some req =>
        if Z.of_nat (length (exec_Args req)) =? 0 then
          emit [HttpError "missing args" 400];; return_
        else
          match validateCwd W (exec_Cwd req) with
          | Some msg => emit [HttpError msg 400];; return_
          | None =>
              '(stdout, stderr, exitCode, err) ←
                runCommand W (Target cfg) (exec_Args req) (exec_Stdin req)
                           (exec_Cwd req);
              let resp :=
                ExecResponse (match err with None => true | Some _ => false end)
                             stdout stderr exitCode EmptyString in
              let resp :=
                match err with
                | Some msg =>
                    ExecResponse (exec_OK resp) (exec_Stdout resp)
                                 (exec_Stderr resp) (exec_ExitCode resp) msg
                | None => resp
                end in
              emit [SetHeader "Content-Type" "application/json"];;
              mret resp
          end
    end.

End Exec.

Arguments execHandler : simpl never.

(** ** A decoder for the examples

    An instance of [GoLib] to evaluate the program on concrete requests and
    output lines: a reader of JSON texts (RFC 8259) and the struct decoders
    on top of it. It departs from [encoding/json] in corners that no example
    uses: member names are matched exactly (Go also accepts another letter
    case), an escaped surrogate is refused, and [TrimSpace] and [Fields]
    know the six ASCII white space bytes only. *)

Module JSON.

Definition isWS (c : ascii) : bool :=
  Ascii.eqb c " "%char || Ascii.eqb c "009"%char
  || Ascii.eqb c "010"%char || Ascii.eqb c "013"%char.

Fixpoint skipWS (s : string) : string :=
  match s with
  | String c r => if isWS c then skipWS r else s
  | EmptyString => s
  end.

Definition isDigit (c : ascii) : bool :=
  let n := N_of_ascii c in ((48 <=? n) && (n <=? 57))%N.

Definition hexval (c : ascii) : option N :=
  let n := N_of_ascii c in
  if ((48 <=? n) && (n <=? 57))%N then Some (n - 48)%N
  else if ((97 <=? n) && (n <=? 102))%N then Some (n - 87)%N
  else if ((65 <=? n) && (n <=? 70))%N then Some (n - 55)%N
  else None.

(** The UTF-8 bytes of a code point of the basic plane. *)
Definition utf8 (n : N) : option string :=
  let b (x : N) := ascii_of_N x in
  if (n <? 128)%N then Some (String (b n) EmptyString)
  else if (n <? 2048)%N then
    Some (String (b (192 + N.shiftr n 6)%N)
           (String (b (128 + N.land n 63)%N) EmptyString))
  else if ((55296 <=? n) && (n <=? 57343))%N then None
  else
    Some (String (b (224 + N.shiftr n 12)%N)
           (String (b (128 + N.land (N.shiftr n 6) 63)%N)
             (String (b (128 + N.land n 63)%N) EmptyString))).

(** The rest of a string literal, after its opening quote: the decoded
    bytes (reversed in [acc]) and what follows the closing quote. *)
Fixpoint stringBody (acc : string) (s : string) : option (string * string) :=
  match s with
  | EmptyString => None
  | String c r =>
      if Ascii.eqb c Str.dquote then Some (String.rev acc, r)
      else if Ascii.eqb c "\"%char then
        match r with
        | String e r' =>
            let simple (x : ascii) := stringBody (String x acc) r' in
            if Ascii.eqb e Str.dquote then simple Str.dquote
            else if Ascii.eqb e "\"%char then simple "\"%char
            else if Ascii.eqb e "/"%char then simple "/"%char
            else if Ascii.eqb e "b"%char then simple "008"%char
            else if Ascii.eqb e "f"%char then simple "012"%char
            else if Ascii.eqb e "n"%char then simple "010"%char
            else if Ascii.eqb e "r"%char then simple "013"%char
            else if Ascii.eqb e "t"%char then simple "009"%char
            else if Ascii.eqb e "u"%char then
              match r' with
              | String h1 (String h2 (String h3 (String h4 r''))) =>
                  match hexval h1, hexval h2, hexval h3, hexval h4 with
                  | Some a, Some b, Some c', Some d =>
                      match utf8 (((a * 16 + b) * 16 + c') * 16 + d)%N with
                      | Some bytes => stringBody (String.rev bytes +:+ acc) r''
                      | None => None
                      end
                  | _, _, _, _ => None
                  end
              | _ => None
              end
            else None
        | EmptyString => None
        end
      else if (N_of_ascii c <? 32)%N then None
      else stringBody (String c acc) r
  end.

(** The digits at the start of [s]. *)
Fixpoint digits (s : string) : string * string :=
  match s with
  | String c r =>
      if isDigit c then let '(d, rest) := digits r in (String c d, rest)
      else (EmptyString, s)
  | EmptyString => (EmptyString, s)
  end.

(** A number literal at the start of [s]. *)
Definition number (s : string) : option (string * string) :=
  let '(sign, s1) :=
    match s with
    | String "-"%char r => ("-", r)
    | _ => (EmptyString, s)
    end in
  let '(int, s2) := digits s1 in
  match int with
  | EmptyString => None
  | String "0"%char (String _ _) => None
  | _ =>
      let frac :=
        match s2 with
        | String "."%char r =>
            let '(d, s3) := digits r in
            match d with
            | EmptyString => None
            | _ => Some ("." +:+ d, s3)
            end
        | _ => Some (EmptyString, s2)
        end in
      match frac with
      | None => None
      | Some (f, s3) =>
          let exp :=
            match s3 with
            | String e r =>
                if Ascii.eqb e "e"%char || Ascii.eqb e "E"%char then
                  let '(sg, r1) :=
                    match r with
                    | String "+"%char r' => ("+", r')
                    | String "-"%char r' => ("-", r')
                    | _ => (EmptyString, r)
                    end in
                  let '(d, s4) := digits r1 in
                  match d with
                  | EmptyString => None
                  | _ => Some (String e sg +:+ d, s4)
                  end
                else Some (EmptyString, s3)
            | EmptyString => Some (EmptyString, s3)
            end in
          match exp with
          | None => None
          | Some (x, s4) => Some (sign +:+ int +:+ f +:+ x, s4)
          end
      end
  end.

Definition literal (word : string) (v : json) (s : string)
  : option (json * string) :=
  if String.prefix word s
  then Some (v, String.substring (String.length word)
                  (String.length s - String.length word) s)
  else None.

(** One JSON value at the start of [s] (no white space before it), and
    the text after it. [elems] and [members] read what follows an
    opening bracket or brace once a first item is known to come. *)
Fixpoint value (fuel : nat) (s : string) : option (json * string) :=
  match fuel with
  | O => None
  | S fuel =>
      match s with
      | EmptyString => None
      | String c r =>
          if Ascii.eqb c Str.dquote then
            match stringBody EmptyString r with
            | Some (str, rest) => Some (JStr str, rest)
            | None => None
            end
          else if Ascii.eqb c "["%char then
            match skipWS r with
            | String "]"%char rest => Some (JArr [], rest)
            | r' => elems fuel [] r'
            end
          else if Ascii.eqb c "{"%char then
            match skipWS r with
            | String "}"%char rest => Some (JObj [], rest)
            | r' => members fuel [] r'
            end
          else if Ascii.eqb c "t"%char then literal "true" (JBool true) s
          else if Ascii.eqb c "f"%char then literal "false" (JBool false) s
          else if Ascii.eqb c "n"%char then literal "null" JNull s
          else match number s with
               | Some (lit, rest) => Some (JNum lit, rest)
               | None => None
               end
      end
  end
with elems (fuel : nat) (acc : list json) (s : string)
  : option (json * string) :=
  match fuel with
  | O => None
  | S fuel =>
      match value fuel s with
      | Some (v, rest) =>
          match skipWS rest with
          | String ","%char rest' => elems fuel (v :: acc) (skipWS rest')
          | String "]"%char rest' => Some (JArr (List.rev (v :: acc)), rest')
          | _ => None
          end
      | None => None
      end
  end
with members (fuel : nat) (acc : list (string * json)) (s : string)
  : option (json * string) :=
  match fuel with
  | O => None
  | S fuel =>
      match s with
      | String q r =>
          if Ascii.eqb q Str.dquote then
            match stringBody EmptyString r with
            | Some (key, rest) =>
                match skipWS rest with
                | String ":"%char rest1 =>
                    match value fuel (skipWS rest1) with
                    | Some (v, rest2) =>
                        match skipWS rest2 with
                        | String ","%char rest3 =>
                            members fuel (jset key v acc) (skipWS rest3)
                        | String "}"%char rest3 =>
                            Some (JObj (jset key v acc), rest3)
                        | _ => None
                        end
                    | None => None
                    end
                | _ => None
                end
            | None => None
            end
          else None
      | EmptyString => None
      end
  end.

Definition fuelFor (s : string) : nat := S (String.length s).

(** [json.Unmarshal] into an [any]: the whole text is one value. *)
Definition parse (s : string) : option json :=
  match value (fuelFor s) (skipWS s) with
  | Some (v, rest) =>
      match skipWS rest with
      | EmptyString => Some v
      | _ => None
      end
  | None => None
  end.

(** The first value of a stream, as [Decoder.Decode] reads it. *)
Definition parseFirst (s : string) : option json :=
  match value (fuelFor s) (skipWS s) with
  | Some (v, _) => Some v
  | None => None
  end.

(** The members of the object whose opening brace and white space have
    been read, each with the text of its value: what a struct decoder
    stores in a [json.RawMessage] field. *)
Fixpoint rawMembers (fuel : nat) (acc : list (string * string)) (s : string)
  : option (list (string * string)) :=
  match fuel with
  | O => None
  | S fuel =>
      match s with
      | String q r =>
          if Ascii.eqb q Str.dquote then
            match stringBody EmptyString r with
            | Some (key, rest) =>
                match skipWS rest with
                | String ":"%char rest1 =>
                    let s1 := skipWS rest1 in
                    match value (fuelFor s1) s1 with
                    | Some (_, rest2) =>
                        let raw :=
                          String.substring 0
                            (String.length s1 - String.length rest2) s1 in
                        match skipWS rest2 with
                        | String ","%char rest3 =>
                            rawMembers fuel ((key, raw) :: acc) (skipWS rest3)
                        | String "}"%char _ => Some ((key, raw) :: acc)
                        | _ => None
                        end
                    | None => None
                    end
                | _ => None
                end
            | None => None
            end
          else None
      | EmptyString => None
      end
  end.

(** The members a struct decoder sees in a JSON text [v] read from [s]:
    those of an object (a later member of the same name first), none for
    [null], an error for any other value. *)
Definition structMembers (v : json) (s : string)
  : option (list (string * string)) :=
  match v with
  | JNull => Some []
  | JObj [] => Some []
  | JObj _ =>
      match skipWS s with
      | String "{"%char r => rawMembers (fuelFor s) [] (skipWS r)
      | _ => None
      end
  | _ => None
  end.

Fixpoint rawField (k : string) (ms : list (string * string)) : option string :=
  match ms with
  | [] => None
  | (k', raw) :: r => if String.eqb k' k then Some raw else rawField k r
  end.

(** A [string] field: absent or [null] leaves the zero value. *)
Definition fieldString (k : string) (ms : list (string * string))
  : option string :=
  match rawField k ms with
  | None => Some EmptyString
  | Some raw =>
      match parse raw with
      | Some (JStr x) => Some x
      | Some JNull => Some EmptyString
      | _ => None
      end
  end.

Definition fieldBool (k : string) (ms : list (string * string)) : option bool :=
  match rawField k ms with
  | None => Some false
  | Some raw =>
      match parse raw with
      | Some (JBool x) => Some x
      | Some JNull => Some false
      | _ => None
      end
  end.

Fixpoint strings (l : list json) : option (list string) :=
  match l with
  | [] => Some []
  | JStr x :: r =>
      match strings r with Some xs => Some (x :: xs) | None => None end
  | JNull :: r =>
      match strings r with Some xs => Some (EmptyString :: xs) | None => None end
  | _ => None
  end.

Definition fieldStrings (k : string) (ms : list (string * string))
  : option (list string) :=
  match rawField k ms with
  | None => Some []
  | Some raw =>
      match parse raw with
      | Some (JArr l) => strings l
      | Some JNull => Some []
      | _ => None
      end
  end.

Definition fieldAny (k : string) (ms : list (string * string)) : option json :=
  match rawField k ms with
  | None => Some JNull
  | Some raw => parse raw
  end.

Definition fieldRaw (k : string) (ms : list (string * string)) : RawMessage :=
  default EmptyString (rawField k ms).

Definition isSpace (c : ascii) : bool :=
  let n := N_of_ascii c in ((n =? 32) || ((9 <=? n) && (n <=? 13)))%N.

Fixpoint trimLeft (s : string) : string :=
  match s with
  | String c r => if isSpace c then trimLeft r else s
  | EmptyString => s
  end.

Definition trimSpace (s : string) : string :=
  String.rev (trimLeft (String.rev (trimLeft s))).

(** [cur] holds, reversed, the bytes of the field being read. *)
Fixpoint fields_go (cur : string) (s : string) : list string :=
  let flush := match cur with EmptyString => [] | _ => [String.rev cur] end in
  match s with
  | EmptyString => flush
  | String c r =>
      if isSpace c then flush ++ fields_go EmptyString r
      else fields_go (String c cur) r
  end.

Definition eventMap (line : string) : option json :=
  match parse line with
  | Some (JObj fields) => Some (JObj fields)
  | Some JNull => Some JNull
  | _ => None
  end.

Definition lib : GoLib := {|
  unmarshalMap := eventMap;
  unmarshalMap_empty := eq_refl : eventMap EmptyString = None;
  decodeRequest body :=
    v ← parseFirst body;
    ms ← structMembers v body;
    jsonrpc ← fieldString "jsonrpc" ms;
    method ← fieldString "method" ms;
    id ← fieldAny "id" ms;
    cwd ← fieldString "cwd" ms;
    Some (McpRequest jsonrpc method (fieldRaw "params" ms) id cwd);
  unmarshalParams raw :=
    v ← parse raw;
    ms ← structMembers v raw;
    name ← fieldString "name" ms;
    Some (ToolCallParams name (fieldRaw "arguments" ms));
  unmarshalExecArgs raw :=
    v ← parse raw;
    ms ← structMembers v raw;
    args ← fieldStrings "args" ms;
    cwd ← fieldString "cwd" ms;
    stdin ← fieldString "stdin" ms;
    Some (ExecArgs args cwd stdin);
  unmarshalRunArgs raw :=
    v ← parse raw;
    ms ← structMembers v raw;
    message ← fieldString "message" ms;
    cwd ← fieldString "cwd" ms;
    model ← fieldString "model" ms;
    session ← fieldString "session" ms;
    continue ← fieldBool "continue" ms;
    files ← fieldStrings "files" ms;
    Some (RunArgs message cwd model session continue files);
  TrimSpace := trimSpace;
  Fields := fields_go EmptyString;
|}.

End JSON.

(** ** Notions the statements use *)

(** A lowercase hexadecimal digit. *)
Definition isLowerHex (c : ascii) : bool :=
  let n := N_of_ascii c in
  (((48 <=? n) && (n <=? 57)) || ((97 <=? n) && (n <=? 102)))%N.

Fixpoint allLowerHex (s : string) : bool :=
  match s with
  | EmptyString => true
  | String c r => isLowerHex c && allLowerHex r
  end.

(** 32 characters, each a lowercase hexadecimal digit. *)
Definition wellFormedID (id : string) : bool :=
  Nat.eqb (String.length id) 32 && allLowerHex id.

(** The registry after a history of calls of [create], oldest first, each
    with what the random source and the clock delivered to it. *)
Definition registryAfter (calls : list (list byte * Z)) : sessionStore :=
  fold_left (fun s call => (create s call.1 call.2).2) calls newSessionStore.

(** The identifiers [create] generated in a history. *)
Definition generatedIDs (calls : list (list byte * Z)) : list string :=
  map (fun call => generateSessionID call.1) calls.

(** The JSON-RPC responses a trace writes, as a plain JSON body or as the
    payload of an SSE frame. *)
Definition responseOf (e : effect) : option mcpResponse :=
  match e with
  | WriteJSON r => Some r
  | WriteFrame (Response r) => Some r
  | _ => None
  end.

Definition responses (t : list effect) : list mcpResponse :=
  omap responseOf t.

(** The codes of the error responses of a trace. *)
Definition errorCodes (t : list effect) : list Z :=
  omap (fun r => err_Code <$> resp_Error r) (responses t).

(** The SSE frames that carry a result envelope. *)
Definition resultFrames (t : list effect) : list mcpResponse :=
  omap (fun e => match e with
                 | WriteFrame (Response r) => Some r
                 | _ => None
                 end) t.

(** The processes a trace starts. *)
Definition started (t : list effect) : list command :=
  omap (fun e => match e with Start c => Some c | _ => None end) t.

(** A method name the router has no case for. *)
Definition unknownMethod (method : string) : bool :=
  negb (method =s EmptyString) && negb (method =s "initialize")
  && negb (method =s "notifications/initialized")
  && negb (method =s "tools/list") && negb (method =s "tools/call").

(** The header the router sets when the request names a stored session. *)
Definition sessionEcho (r : httpRequest) (s : server) : list effect :=
  if HeaderGet r "Mcp-Session-Id" =s EmptyString then []
  else match get (srv_sessions s) (HeaderGet r "Mcp-Session-Id") with
       | Some sess => [SetHeader "Mcp-Session-Id" (session_id sess)]
       | None => []
       end.

(** A request with another [Accept] header. *)
Definition withAccept (accept : string) (r : httpRequest) : httpRequest :=
  HttpRequest (http_Method r) (<["Accept" := accept]> (http_Header r))
              (http_Body r).

(** The two response modes, read off a trace: frames of an event stream,
    or one JSON body and no frame. *)
Definition streams (t : list effect) : bool :=
  existsb (fun e => match e with WriteFrame _ => true | _ => false end) t.

Definition answersJSON (t : list effect) : bool :=
  existsb (fun e => match e with WriteJSON _ => true | _ => false end) t
  && negb (streams t).

(** Mode selection by the [Accept] header, as the specification words it:
    the event-stream media type selects the stream, anything else one
    aggregated JSON body. *)
Definition modeFollowsAccept (r : httpRequest) (t : list effect) : bool :=
  if Str.Contains (HeaderGet r "Accept") "text/event-stream"
  then streams t else answersJSON t.

(** ** Domain events

    The vocabulary of the specification for what one line of standard
    output becomes: a text fragment, a tool invocation with its status, a
    step boundary, an unrecognized object, or the raw line when it is not
    parsed. *)
Inductive domainEvent :=
| EvText (content : string)
| EvToolUse (toolName status : string) (output : option json)
| EvStep (phase reason : string)
| EvUnrecognized (eventType : string) (data : json)
| EvRaw (line : string).

(** The event of a decoded object, by its [type] and the data
    [extractEventData] gives for it. *)
Definition classify (event : json) : domainEvent :=
  let eventType := jstring (jindex event "type") in
  let eventData := extractEventData event in
  if eventType =s "text" then
    match eventData with
    | JStr text => EvText text
    | _ => EvUnrecognized eventType eventData
    end
  else if eventType =s "tool_use" then
    match eventData with
    | JObj m =>
        EvToolUse (jstring (jlookup "tool" m)) (jstring (jlookup "status" m))
                  (jlookup "output" m)
    | _ => EvUnrecognized eventType eventData
    end
  else if (eventType =s "step_start") || (eventType =s "step_finish") then
    match eventData with
    | JObj m => EvStep eventType (jstring (jlookup "reason" m))
    | _ => EvUnrecognized eventType eventData
    end
  else EvUnrecognized eventType eventData.

(** What a text fragment or a raw line adds to the aggregated text. *)
Definition textOf (ev : domainEvent) : string :=
  match ev with
  | EvText content => content
  | EvRaw line => line +:+ Str.nl
  | _ => EmptyString
  end.

(** What a text fragment alone adds: the aggregated text as the
    specification describes it. *)
Definition textOnlyOf (ev : domainEvent) : string :=
  match ev with
  | EvText content => content
  | _ => EmptyString
  end.

(** The block of a tool that completed with a name and a non-empty string
    output. *)
Definition blockOf (ev : domainEvent) : list string :=
  match ev with
  | EvToolUse toolName status (Some (JStr output)) =>
      if (status =s "completed") && negb (toolName =s EmptyString)
         && negb (output =s EmptyString)
      then ["[Tool: " +:+ toolName +:+ "]" +:+ Str.nl +:+ output]
      else []
  | _ => []
  end.

Definition concatMap (f : domainEvent -> string) (evs : list domainEvent)
  : string :=
  fold_right (fun ev acc => f ev +:+ acc) EmptyString evs.

Definition aggregatedText : list domainEvent -> string := concatMap textOf.
Definition textEventsOnly : list domainEvent -> string := concatMap textOnlyOf.
Definition toolBlocks (evs : list domainEvent) : list string :=
  flat_map blockOf evs.

(** The composed result: the sections that are not empty, a blank line
    between two of them, then the exit code marker. *)
Definition toolSection (blocks : list string) : string :=
  match blocks with
  | [] => EmptyString
  | _ => "--- Tool Outputs ---" +:+ Str.nl +:+ Str.Join blocks (Str.nl +:+ Str.nl)
  end.

Definition stderrSection (stderrText : string) : string :=
  if stderrText =s EmptyString then EmptyString
  else "[stderr]" +:+ Str.nl +:+ stderrText.

Definition exitMarker (exitCode : Z) : string :=
  if exitCode =? 0 then EmptyString
  else Str.nl +:+ "[exit code: " +:+ Str.itoa exitCode +:+ "]".

Definition joinSections (sections : list string) : string :=
  Str.Join (List.filter (fun sec => negb (sec =s EmptyString)) sections)
           (Str.nl +:+ Str.nl).

Definition composed (text : string) (blocks : list string)
    (stderrText : string) (exitCode : Z) : string :=
  joinSections [text; toolSection blocks; stderrSection stderrText]
  +:+ exitMarker exitCode.

(** The notifications that relay lines of standard output, the progress
    summaries of [sendProgress] left aside. *)
Definition relayed (out : list notification) : list notification :=
  List.filter (fun n => match n with Progress _ _ _ => false | _ => true end) out.

Section Events.

Context `{GoLib}.

(** The event of one line the scanner delivers to the loop for the tool
    [toolName]; an empty line gives none. *)
Definition eventOf (toolName line : string) : option domainEvent :=
  if line =s EmptyString then None
  else if toolName =s toolRun then
    match unmarshalMap line with
    | Some event => Some (classify event)
    | None => Some (EvRaw line)
    end
  else Some (EvRaw line).

Definition events (toolName : string) (lines : list string)
  : list domainEvent := omap (eventOf toolName) lines.

(** The notification that relays one line: the message of the decoded
    object for [opencode_run], the raw line otherwise; none for an empty
    line. *)
Definition relayOf (toolName line : string) : option notification :=
  if line =s EmptyString then None
  else if toolName =s toolRun then
    match unmarshalMap line with
    | Some event =>
        Some (Message (jstring (jindex event "type")) (extractEventData event))
    | None => Some (RawLine line)
    end
  else Some (RawLine line).

End Events.

(** Whether a validated command gets to stream: both pipes and the start
    succeed and the response writer can flush. *)
Definition launches (W : world) (cmd : command) : bool :=
  match w_stdoutPipeErr W, w_stderrPipeErr W, p_startErr (w_exec W cmd) with
  | None, None, None => w_flusher W
  | _, _, _ => false
  end.

(** The command of [fetchAvailableModels]. *)
Definition modelsCommand (cfg : serverConfig) : command :=
  Command (Target cfg) ["models"] EmptyString EmptyString.

(** What [getDefaultModel] leaves in the trace: nothing, or the start of
    the model listing and the wait for it. *)
Definition fetchTrace (cfg : serverConfig) (t : list effect) : Prop :=
  t = [] \/ t = [Start (modelsCommand cfg); Wait (modelsCommand cfg)].

(** The headers [handleToolsCallSSE] sets once the process is started. *)
Definition sseHeaders : list effect :=
  [ SetHeader "Content-Type" "text/event-stream";
    SetHeader "Cache-Control" "no-cache";
    SetHeader "Connection" "keep-alive";
    SetHeader "X-Accel-Buffering" "no" ].

(** A JSON-RPC error body as [writeMCPError] writes it. *)
Definition errorBody (id : json) (code : Z) (message : string) : list effect :=
  [ SetHeader "Content-Type" "application/json";
    WriteJSON (McpResponse "2.0" id None (Some (McpError code message))) ].

(** What closes the exchange with the client: a status line without
    body, an [http.Error], a JSON body, or the frame with the result
    envelope. *)
Definition isAnswer (e : effect) : bool :=
  match e with
  | WriteHeader _ | HttpError _ _ | WriteJSON _ | WriteFrame (Response _) => true
  | _ => false
  end.

(** The processes a trace waits for. *)
Definition waited (t : list effect) : list command :=
  omap (fun e => match e with Wait c => Some c | _ => None end) t.

(** The progress numbers of the notifications that carry one. *)
Definition progressValues (out : list notification) : list Z :=
  omap (fun n => match n with Progress _ p _ => Some p | _ => None end) out.

(** The names [tools/list] advertises. *)
Definition toolNames : list string := map tool_Name toolCatalog.

(** The server after a sequence of requests to [/mcp], each served in the
    world it arrives in. *)
Definition serve `{GoLib} (cfg : serverConfig) (s : server)
    (reqs : list (world * httpRequest)) : server :=
  fold_left (fun s q => (run (mcpHandler q.1 cfg q.2) s).1) reqs s.

(** A request the router answers as [initialize]. *)
Definition isInitialize `{GoLib} (r : httpRequest) : bool :=
  (http_Method r =s "POST")
  && match decodeRequest (http_Body r) with
     | Some req => req_Method req =s "initialize"
     | None => false
     end.

(** What the random source and the clock deliver to the [initialize]
    requests of a sequence, in order. *)
Definition initializations `{GoLib} (reqs : list (world * httpRequest))
  : list (list byte * Z) :=
  map (fun q => (w_rand q.1, w_now q.1))
      (List.filter (fun q => isInitialize q.2) reqs).

(** A request the router hands to a method handler other than the two of
    the handshake. *)
Definition afterHandshake (method : string) : bool :=
  negb (method =s EmptyString) && negb (method =s "initialize")
  && negb (method =s "notifications/initialized").

(** The answers of a trace, in order. *)
Definition answersOf (t : list effect) : list effect := List.filter isAnswer t.

(** A response header being set. *)
Definition isHeader (e : effect) : bool :=
  match e with SetHeader _ _ => true | _ => false end.

(** A trace that ends with its one answer. *)
Definition answeredLast (t : list effect) : Prop :=
  exists pre e, t = pre ++ [e] /\ isAnswer e = true /\ answersOf pre = [].

(** The registry keeps, under an identifier, a session of that
    identifier. *)
Definition keyed (id : string) (s : server) : Prop :=
  exists sess, get (srv_sessions s) id = Some sess /\ session_id sess = id.

(** A process that starts and exits with status 0. *)
Definition succeeds (p : process) : bool :=
  match p_startErr p, p_exit p with
  | None, Exited status => status =? 0
  | _, _ => false
  end.

(** Lines, each followed by a newline. *)
Definition unlines (lines : list string) : string :=
  fold_right (fun line rest => line +:+ Str.nl +:+ rest) EmptyString lines.

Fixpoint noNewline (s : string) : bool :=
  match s with
  | EmptyString => true
  | String c r => negb (Ascii.eqb c "010"%char) && noNewline r
  end.

(** A line the scanner delivers as it is: without newline, shorter than
    the buffer and not ending in a carriage return. *)
Definition plainLine (line : string) : bool :=
  noNewline line && (Str.len line <? maxTokenSize)
  && match String.rev line with
     | String c _ => negb (Ascii.eqb c Str.cr)
     | EmptyString => true
     end.

Definition nonEmpty (line : string) : bool := negb (line =s EmptyString).

(** The notifications a trace writes, in order. *)
Definition notified (t : list effect) : list notification :=
  omap (fun e => match e with
                 | WriteFrame (Notification n) => Some n
                 | _ => None
                 end) t.

(** The envelope of a JSON-RPC response to the request [id]: version
    2.0, the identifier of the request, and exactly one of result and
    error. *)
Definition envelope (id : json) (resp : mcpResponse) : Prop :=
  resp_JSONRPC resp = "2.0" /\ resp_ID resp = id
  /\ (resp_Result resp = None <-> resp_Error resp <> None).

(** The identifier the router reads from the body of a request; [nil]
    when the body does not decode. *)
Definition requestID `{GoLib} (r : httpRequest) : json :=
  match decodeRequest (http_Body r) with
  | Some req => req_ID req
  | None => JNull
  end.

(** The trace without the header [Mcp-Session-Id]. *)
Definition isSessionHeader (e : effect) : bool :=
  match e with
  | SetHeader k _ => k =s "Mcp-Session-Id"
  | _ => false
  end.

Definition sansSession (t : list effect) : list effect :=
  List.filter (fun e => negb (isSessionHeader e)) t.

(** Reading back what [EncodeToString] writes: the value of a lowercase
    hexadecimal digit, then the bytes of a string of such digits. *)
Definition unhex (c : ascii) : option N :=
  let n := N_of_ascii c in
  if ((48 <=? n) && (n <=? 57))%N then Some (n - 48)%N
  else if ((97 <=? n) && (n <=? 102))%N then Some (n - 87)%N
  else None.

Fixpoint hexDecode (s : string) : option (list byte) :=
  match s with
  | EmptyString => Some []
  | String a (String b r) =>
      match unhex a, unhex b, hexDecode r with
      | Some h, Some l, Some rest =>
          match Byte.of_N (16 * h + l) with
          | Some v => Some (v :: rest)
          | None => None
          end
      | _, _, _ => None
      end
  | _ => None
  end.

(** The text of a line that decodes to a text event whose part holds a
    string. *)
Definition textOfLine `{GoLib} (line : string) : option string :=
  match unmarshalMap line with
  | Some (JObj fields) =>
      if jstring (jlookup "type" fields) =s "text" then
        match jlookup "part" fields with
        | Some (JObj part) =>
            match jlookup "text" part with
            | Some (JStr text) => Some text
            | _ => None
            end
        | _ => None
        end
      else None
  | _ => None
  end.

(** What [cmd.Output] leaves in the trace: the start of the process and
    the wait for it, or nothing when it cannot be started. *)
Definition ran (W : world) (cmd : command) : list effect :=
  match p_startErr (w_exec W cmd) with
  | None => [Start cmd; Wait cmd]
  | Some _ => []
  end.

(** ** Inputs of the examples *)

Module Ex.

Definition cfg : serverConfig :=
  ServerConfig ":9876" "opencode-cli" 120000000000 EmptyString.

(** A server just started: no session, no cached model. *)
Definition fresh : server := Server newSessionStore (ModelCache [] 0).

Definition noSuchFile (path : string) : statResult :=
  StatError ("stat " +:+ path +:+ ": no such file or directory").

(** A world whose every command behaves as [p]; only [/tmp] exists, and
    the copy of standard error is complete when the buffer is read. *)
Definition worldOf (p : process) : world :=
  World 1000 [x01; xab; xff]
    (fun path => if path =s "/tmp" then StatDir else noSuchFile path)
    (fun _ => p) None None true (String.length (p_stderr p)).

(** The same world, but the process has exited and [cmd.Wait] has
    closed the pipe before the copy of standard error got to run. *)
Definition racing (p : process) : world :=
  World 1000 [x01; xab; xff]
    (fun path => if path =s "/tmp" then StatDir else noSuchFile path)
    (fun _ => p) None None true 0.

Definition post (accept body : string) : httpRequest :=
  HttpRequest "POST" {[ "Accept" := accept ]} (Str.dq body).

(** POST bodies, with apostrophes for double quotes. *)
Definition noMethod := "{'jsonrpc':'2.0','id':1}".
Definition unknown := "{'jsonrpc':'2.0','method':'unknown/method','id':1}".
Definition callModels :=
  "{'jsonrpc':'2.0','method':'tools/call','id':1,'params':{'name':'opencode_models'}}".

(** A stub that lists two models and exits with status 0. *)
Definition lister : process :=
  Process None ("modelA" +:+ Str.nl +:+ "modelB" +:+ Str.nl) EmptyString (Exited 0).

(** A stub that prints one line on each stream and exits with 0. *)
Definition chatty : process :=
  Process None ("done" +:+ Str.nl) ("warning: deprecated" +:+ Str.nl) (Exited 0).

(** Lines of the event stream of [opencode-cli run --format json]. *)
Definition textA := Str.dq "{'type':'text','part':{'text':'A'}}".
Definition textC := Str.dq "{'type':'text','part':{'text':'C'}}".
Definition toolB :=
  Str.dq "{'type':'tool_use','part':{'tool':'x','state':{'status':'completed','output':'B'}}}".

Definition linesOf (lines : list string) : string :=
  fold_right (fun line rest => line +:+ Str.nl +:+ rest) EmptyString lines.

(** A text, a completed tool, a text; exit status 0. *)
Definition talker : process :=
  Process None (linesOf [textA; toolB; textC]) EmptyString (Exited 0).

(** A line that is not JSON between two text events; exit status 0. *)
Definition garbled : process :=
  Process None (linesOf [textA; "oops"; textC]) EmptyString (Exited 0).

(** Exit status 2 after writing boom to standard error. *)
Definition failing : process :=
  Process None (linesOf [textA]) "boom" (Exited 2).

(** The executable cannot be started. *)
Definition missing : process :=
  Process (Some "exec: opencode-cli: executable file not found in $PATH")
          EmptyString EmptyString (Exited 0).

(** [tools/call] requests as the router hands them to the handlers. *)
Definition call (params cwd : string) : mcpRequest :=
  McpRequest "2.0" "tools/call" (Str.dq params) (JNum "1") cwd.

Definition runHi : mcpRequest :=
  call "{'name':'opencode_run','arguments':{'message':'hi','model':'m'}}"
       EmptyString.
Definition runHiCommand : command :=
  Command "opencode-cli" ["run"; "--format"; "json"; "--model"; "m"; "hi"]
          EmptyString EmptyString.

Definition listModels : mcpRequest :=
  call "{'name':'opencode_models'}" EmptyString.
Definition listModelsCommand : command :=
  Command "opencode-cli" ["models"] EmptyString EmptyString.

(** [opencode_run] without a model, in a directory that does not exist. *)
Definition runNowhere : mcpRequest :=
  call "{'name':'opencode_run','arguments':{'message':'hi','cwd':'/does/not/exist'}}"
       EmptyString.
Definition callRunNowhere :=
  "{'jsonrpc':'2.0','method':'tools/call','id':1,'params':{'name':'opencode_run','arguments':{'message':'hi','cwd':'/does/not/exist'}}}".

(** The handshake and a later request that names the session. *)
Definition initialize := "{'jsonrpc':'2.0','method':'initialize','id':1}".
Definition listTools := "{'jsonrpc':'2.0','method':'tools/list','id':2}".
Definition withSession (id body : string) : httpRequest :=
  HttpRequest "POST" {[ "Mcp-Session-Id" := id ]} (Str.dq body).

(** A server whose cached models are older than [modelCacheTTL] in the
    world [laterWorld]. *)
Definition stale : server :=
  Server newSessionStore (ModelCache ["old/model"] 0).
Definition laterWorld (p : process) : world :=
  World (modelCacheTTL + 1) [x01; xab; xff]
    (fun path => if path =s "/tmp" then StatDir else noSuchFile path)
    (fun _ => p) None None true (String.length (p_stderr p)).

(** The event of [toolB], decoded. *)
Definition toolBPart : list (string * json) :=
  [ ("tool", JStr "x");
    ("state", JObj [("status", JStr "completed"); ("output", JStr "B")]) ].
Definition toolBEvent : json :=
  JObj [("type", JStr "tool_use"); ("part", JObj toolBPart)].

(** A line of 1 MiB without newline. *)
Fixpoint doubled (n : nat) (s : string) : string :=
  match n with
  | O => s
  | S n => doubled n (s +:+ s)
  end.
Definition megabyte : string := doubled 20 "a".

(** 1 MiB that is not JSON between two text events; exit status 0. *)
Definition oversized : process :=
  Process None (linesOf [textA; megabyte; textC]) EmptyString (Exited 0).

(** Two draws of the random source. *)
Definition draw1 : list byte := [x01; xab; xff].
Definition draw2 : list byte := [x02; xab; xff].

End Ex.

(** * Theorems *)

(** ** Session identifiers and the registry *)

Lemma EncodeToString_length src :
  String.length (EncodeToString src) = (2 * length src)%nat.
Proof. induction src as [|v r IH]; simpl; [done | rewrite IH; lia]. Qed.

Lemma hexdigits_of_byte v :
  isLowerHex (hexdigit (N.shiftr (Byte.to_N v) 4)) = true
  /\ isLowerHex (hexdigit (N.land (Byte.to_N v) 15)) = true.
Proof. destruct v; split; vm_compute; reflexivity. Qed.

Lemma EncodeToString_hex src : allLowerHex (EncodeToString src) = true.
Proof.
  induction src as [|v r IH]; simpl; [done |].
  destruct (hexdigits_of_byte v) as [-> ->]. exact IH.
Qed.

Lemma randRead_length entropy b : length (randRead entropy b) = length b.
Proof.
  unfold randRead. rewrite length_take, length_app, length_drop. lia.
Qed.

Lemma generateSessionID_wellFormed entropy :
  wellFormedID (generateSessionID entropy) = true.
Proof.
  unfold wellFormedID, generateSessionID.
  rewrite EncodeToString_length, randRead_length, EncodeToString_hex.
  reflexivity.
Qed.

Lemma registryAfter_snoc calls entropy now :
  registryAfter (calls ++ [(entropy, now)])
  = (create (registryAfter calls) entropy now).2.
Proof. unfold registryAfter. by rewrite fold_left_app. Qed.

(** Every session of a registry is stored under its own identifier, and
    that identifier was generated by a call of [create]. *)
Lemma registry_keys calls id sess :
  get (registryAfter calls) id = Some sess ->
  session_id sess = id /\ id ∈ generatedIDs calls.
Proof.
  revert id sess.
  induction calls as [|[entropy now] calls IH] using rev_ind; intros id sess.
  - unfold get, registryAfter; simpl. by rewrite lookup_empty.
  - rewrite registryAfter_snoc. unfold get, create, generatedIDs; simpl.
    rewrite map_app; simpl.
    destruct (decide (generateSessionID entropy = id)) as [<-|Hne].
    + rewrite lookup_insert_eq. intros [= <-]. split; [done |].
      apply elem_of_app. right. by apply list_elem_of_singleton.
    + rewrite lookup_insert_ne by done. intros Hget.
      destruct (IH id sess Hget) as [? ?]. split; [done |].
      apply elem_of_app. by left.
Qed.

Lemma generatedIDs_wellFormed calls id :
  id ∈ generatedIDs calls -> wellFormedID id = true.
Proof.
  unfold generatedIDs. intros ([entropy now] & -> & _)%list_elem_of_fmap.
  apply generateSessionID_wellFormed.
Qed.

(** C10. Every identifier [generateSessionID] produces is 32 characters
    long and made of lowercase hexadecimal digits only, whatever the
    random source delivers; hence so is the identifier of every session
    stored in the registry after any history of calls of [create], and it
    is the key the session is stored under. *)
Theorem session_ids_hex32 :
  (forall entropy, wellFormedID (generateSessionID entropy) = true)
  /\ (forall calls id sess,
        get (registryAfter calls) id = Some sess ->
        session_id sess = id /\ wellFormedID (session_id sess) = true).
Proof.
  split; [apply generateSessionID_wellFormed |].
  intros calls id sess Hget.
  destruct (registry_keys calls id sess Hget) as [Hid Hgen].
  split; [done |]. rewrite Hid. by eapply generatedIDs_wellFormed.
Qed.

Lemma session_ids_hex32_witness :
  wellFormedID (generateSessionID [x01; xab; xff]) = true
  /\ session_id (Session "01abff00000000000000000000000000" 7)
     = "01abff00000000000000000000000000"
  /\ wellFormedID (session_id (Session "01abff00000000000000000000000000" 7))
     = true.
Proof.
  destruct session_ids_hex32 as [Hgen Hreg]. split; [apply Hgen |].
  apply (Hreg [([x01; xab; xff], 7)]). vm_compute. reflexivity.
Defined.

Lemma hexDecode_byte v r :
  hexDecode (String (hexdigit (N.shiftr (Byte.to_N v) 4))
               (String (hexdigit (N.land (Byte.to_N v) 15)) r))
  = match hexDecode r with
    | Some rest => Some (v :: rest)
    | None => None
    end.
Proof. destruct v; simpl; by destruct (hexDecode r). Qed.

Lemma hexDecode_EncodeToString src : hexDecode (EncodeToString src) = Some src.
Proof.
  induction src as [|v src IH]; [done |].
  cbn [EncodeToString]. by rewrite hexDecode_byte, IH.
Qed.

Lemma generateSessionID_inj entropy1 entropy2 :
  generateSessionID entropy1 = generateSessionID entropy2 ->
  randRead entropy1 (repeat x00 16) = randRead entropy2 (repeat x00 16).
Proof.
  unfold generateSessionID. intros Heq. apply (f_equal hexDecode) in Heq.
  rewrite !hexDecode_EncodeToString in Heq. by injection Heq.
Qed.

(** C8. After [create], [get] with the identifier of the created session
    returns that session. The identifier is generated at the call: it is
    the hexadecimal writing of the 16 bytes the random source delivers to
    that call, [create] inserts the session under it and touches no other
    entry. Whenever these bytes differ from the bytes of every earlier
    call, the identifier is new to the registry. And [get] returns nil for
    every identifier that no call of [create] generated. *)
Theorem session_roundtrip :
  (forall s entropy now,
      let '(sess, s') := create s entropy now in
      get s' (session_id sess) = Some sess
      /\ session_id sess = generateSessionID entropy
      /\ hexDecode (session_id sess) = Some (randRead entropy (repeat x00 16))
      /\ sessions s' = <[session_id sess := sess]> (sessions s))
  /\ (forall calls entropy now,
        (forall call, call ∈ calls ->
           randRead call.1 (repeat x00 16)
           <> randRead entropy (repeat x00 16)) ->
        let '(sess, s') := create (registryAfter calls) entropy now in
        get (registryAfter calls) (session_id sess) = None
        /\ forall id, id <> session_id sess ->
             get s' id = get (registryAfter calls) id)
  /\ (forall calls id,
        id ∉ generatedIDs calls -> get (registryAfter calls) id = None).
Proof.
  assert (Habsent : forall calls id,
            id ∉ generatedIDs calls -> get (registryAfter calls) id = None).
  { intros calls id Hnot.
    destruct (get (registryAfter calls) id) as [sess|] eqn:Hget; [|done].
    destruct (registry_keys calls id sess Hget) as [_ Hgen]. by destruct Hnot. }
  split; [| split; [| exact Habsent]].
  - intros s entropy now. unfold create, get; simpl.
    rewrite lookup_insert_eq. repeat split.
    unfold generateSessionID. apply hexDecode_EncodeToString.
  - intros calls entropy now Hnew. unfold create, get; simpl. split.
    + apply Habsent. unfold generatedIDs.
      intros ([entropy' now'] & Heq & Hin)%list_elem_of_fmap.
      apply (Hnew _ Hin). simpl in *. symmetry. by apply generateSessionID_inj.
    + intros id Hne. by rewrite lookup_insert_ne.
Qed.

Lemma session_roundtrip_witness :
  get (registryAfter [([x01; xab; xff], 7)]) "nonexistent" = None.
Proof.
  destruct session_roundtrip as [_ [_ Hget]]. apply Hget.
  unfold generatedIDs; simpl. intros Hin%list_elem_of_singleton.
  discriminate Hin.
Defined.

(** ** Handlers: evaluation *)

Ltac mrun :=
  unfold trace, run, mbind, mret, M_bind, M_ret, bind, ret, emit, return_,
    gets, modify, writeMCPError; cbn.

Lemma responses_sessionEcho r s : responses (sessionEcho r s) = [].
Proof.
  unfold sessionEcho. destruct (_ =s _); [done |].
  by destruct (get _ _).
Qed.

Section Router.

Context `{GoLib}.
Variable W : world.
Variable cfg : serverConfig.

(** C9. When the process [runCommand] starts exits with status 0, the
    standard error string it returns is empty, with exit code 0 and a nil
    error, whatever the process wrote to standard error; and a non-empty
    standard error string is returned only together with an error and a
    non-zero exit code, and then it is what [cmd.Output] saved in the
    [ExitError]. *)
Theorem runCommand_stderr target args stdin cwd s :
  let p := w_exec W (Command target args stdin cwd) in
  let out := (runCommand W target args stdin cwd s).2 in
  (p_startErr p = None -> p_exit p = Exited 0 ->
     out = Some (p_stdout p, EmptyString, 0, None))
  /\ (forall stdout stderr exitCode err,
        out = Some (stdout, stderr, exitCode, err) ->
        stderr <> EmptyString ->
        err <> None /\ exitCode <> 0
        /\ stderr = savedStderr (p_stderr p)).
Proof.
  intros p out. subst out. unfold runCommand, cmdOutput, Output, waitErr.
  fold p. split.
  - intros -> ->. by mrun.
  - intros stdout stderr exitCode err.
    destruct (p_startErr p); [mrun; intros [= <- <- <- <-]; done |].
    destruct (p_exit p) as [status| |msg]; mrun.
    + destruct (Z.eqb_spec status 0); mrun; intros [= <- <- <- <-]; done.
    + intros [= <- <- <- <-]. done.
    + intros [= <- <- <- <-]. done.
Qed.

(** C7. A POST body that decodes to a request without method is answered
    by the one error response with code -32600, a body that names a
    method the router does not know by the one error response with code
    -32601; the two codes differ. *)
Theorem missing_and_unknown_method r1 r2 req1 req2 s1 s2 :
  http_Method r1 = "POST" -> decodeRequest (http_Body r1) = Some req1 ->
  req_Method req1 = EmptyString ->
  http_Method r2 = "POST" -> decodeRequest (http_Body r2) = Some req2 ->
  unknownMethod (req_Method req2) = true ->
  let t1 := trace (mcpHandler W cfg r1) s1 in
  let t2 := trace (mcpHandler W cfg r2) s2 in
  responses t1
    = [McpResponse "2.0" (req_ID req1) None
         (Some (McpError (-32600) "missing method"))]
  /\ responses t2
    = [McpResponse "2.0" (req_ID req2) None
         (Some (McpError (-32601) ("method not found: " +:+ req_Method req2)))]
  /\ exists c1 c2,
      errorCodes t1 = [c1] /\ errorCodes t2 = [c2] /\ c1 <> c2.
Proof.
  intros Hp1 Hd1 Hm1 Hp2 Hd2 Hu. cbv zeta.
  assert (E1 : trace (mcpHandler W cfg r1) s1
               = [ SetHeader "Content-Type" "application/json";
                   WriteJSON (McpResponse "2.0" (req_ID req1) None
                     (Some (McpError (-32600) "missing method"))) ]).
  { unfold mcpHandler. rewrite Hp1, Hd1, Hm1. reflexivity. }
  assert (E2 : trace (mcpHandler W cfg r2) s2
             = sessionEcho r2 s2
               ++ [ SetHeader "Content-Type" "application/json";
                    WriteJSON (McpResponse "2.0" (req_ID req2) None
                      (Some (McpError (-32601)
                         ("method not found: " +:+ req_Method req2)))) ]).
  { unfold mcpHandler, sessionEcho. rewrite Hp2, Hd2. simpl.
    unfold unknownMethod in Hu.
    repeat (apply andb_prop in Hu as [Hu ?]).
    repeat match goal with
           | H : negb ?b = true |- _ =>
               apply negb_true_iff in H; rewrite H
           end.
    destruct (HeaderGet r2 "Mcp-Session-Id" =s EmptyString); mrun; [done |].
    by destruct (get (srv_sessions s2) (HeaderGet r2 "Mcp-Session-Id")). }
  rewrite E1, E2.
  unfold errorCodes, responses. rewrite omap_app.
  fold (responses (sessionEcho r2 s2)). rewrite responses_sessionEcho. simpl.
  repeat split. exists (-32600), (-32601). done.
Qed.

Lemma HeaderGet_withAccept accept r key :
  key <> "Accept" -> HeaderGet (withAccept accept r) key = HeaderGet r key.
Proof.
  intros Hne. unfold HeaderGet, withAccept; simpl.
  by rewrite lookup_insert_ne.
Qed.

Lemma mcpHandler_tools_call r req s :
  http_Method r = "POST" -> decodeRequest (http_Body r) = Some req ->
  req_Method req = "tools/call" ->
  run (mcpHandler W cfg r) s
  = ((run (handleToolsCallSSE W cfg req) s).1,
     sessionEcho r s ++ (run (handleToolsCallSSE W cfg req) s).2).
Proof.
  intros Hp Hd Hm. unfold mcpHandler, sessionEcho. rewrite Hp, Hd, Hm. simpl.
  destruct (HeaderGet r "Mcp-Session-Id" =s EmptyString); mrun.
  - by destruct (handleToolsCallSSE W cfg req s) as [[s' t] o].
  - destruct (get (srv_sessions s) (HeaderGet r "Mcp-Session-Id")); mrun;
      by destruct (handleToolsCallSSE W cfg req s) as [[s' t] o].
Qed.

(** C2, as amended. A [tools/call] request to [/mcp] is always handed to
    [handleToolsCallSSE], after the session header if the request names a
    stored session: the [Accept] header is not consulted, and replacing
    it by any other value leaves the response and the state unchanged. *)
Theorem tools_call_always_sse r req s :
  http_Method r = "POST" -> decodeRequest (http_Body r) = Some req ->
  req_Method req = "tools/call" ->
  run (mcpHandler W cfg r) s
  = ((run (handleToolsCallSSE W cfg req) s).1,
     sessionEcho r s ++ (run (handleToolsCallSSE W cfg req) s).2)
  /\ forall accept,
      run (mcpHandler W cfg (withAccept accept r)) s
      = run (mcpHandler W cfg r) s.
Proof.
  intros Hp Hd Hm. split; [by apply mcpHandler_tools_call |].
  intros accept.
  rewrite (mcpHandler_tools_call r req s Hp Hd Hm).
  rewrite (mcpHandler_tools_call (withAccept accept r) req s Hp Hd Hm).
  unfold sessionEcho. by rewrite HeaderGet_withAccept.
Qed.

End Router.

(** ** The loop over standard output *)

Lemma append_assoc (a b c : string) : (a +:+ b) +:+ c = a +:+ b +:+ c.
Proof.
  induction a as [|x a IH]; [done |].
  change (String x ((a +:+ b) +:+ c) = String x (a +:+ b +:+ c)).
  by rewrite IH.
Qed.

Lemma append_nil_r (a : string) : a +:+ EmptyString = a.
Proof.
  induction a as [|x a IH]; [done |].
  change (String x (a +:+ EmptyString) = String x a). by rewrite IH.
Qed.

Lemma append_nonempty (a b : string) :
  a <> EmptyString -> (a +:+ b =s EmptyString) = false.
Proof. destruct a; [done | reflexivity]. Qed.

Lemma relayed_app out1 out2 : relayed (out1 ++ out2) = relayed out1 ++ relayed out2.
Proof. unfold relayed. apply List.filter_app. Qed.

(** Case analysis on the tests and the matches of the goal, a scrutinee
    that holds none itself first. *)
Ltac atomic_scrutinee x :=
  lazymatch x with
  | context [if _ then _ else _] => fail
  | context [match _ with _ => _ end] => fail
  | _ => idtac
  end.

Ltac split_cases :=
  repeat (simpl;
          match goal with
          | |- context [if ?b then _ else _] =>
              atomic_scrutinee b; destruct b eqn:?
          | |- context [match ?x with _ => _ end] =>
              atomic_scrutinee x; destruct x eqn:?
          end).

(** What the scanner delivers of a stream of plain lines. *)

Lemma rev_app_rev_app l a b :
  String.rev_app (String.rev_app l a) b = String.rev_app a (l +:+ b).
Proof.
  revert a b. induction l as [|c l IH]; intros a b; [done |].
  change (String c l +:+ b) with (String c (l +:+ b)). simpl. by rewrite IH.
Qed.

Lemma rev_rev l : String.rev (String.rev l) = l.
Proof. unfold String.rev. by rewrite rev_app_rev_app, append_nil_r. Qed.

Lemma length_rev_app l a :
  String.length (String.rev_app l a) = (String.length l + String.length a)%nat.
Proof.
  revert a. induction l as [|c l IH]; intros a; [done |].
  simpl. rewrite IH. simpl. lia.
Qed.

Lemma scan_go_line cur l rest :
  noNewline l = true ->
  scan_go cur (l +:+ String "010" rest)
  = if Str.len (String.rev_app l cur) <? maxTokenSize
    then scanToken (String.rev_app l cur) :: scan_go EmptyString rest
    else [].
Proof.
  revert cur. induction l as [|c l IH]; intros cur Hl; [done |].
  simpl in Hl. apply andb_prop in Hl as [Hc Hl]. apply negb_true_iff in Hc.
  change (String c l +:+ String "010" rest)
    with (String c (l +:+ String "010" rest)).
  simpl. rewrite Hc. by apply IH.
Qed.

Lemma scanToken_plain l : plainLine l = true -> scanToken (String.rev l) = l.
Proof.
  unfold plainLine, scanToken. intros [_ Hcr]%andb_prop.
  pose proof (rev_rev l) as Hrev.
  destruct (String.rev l) as [|c r]; [done |].
  apply negb_true_iff in Hcr. by rewrite Hcr.
Qed.

Lemma unlines_cons l ls : unlines (l :: ls) = l +:+ String "010" (unlines ls).
Proof. done. Qed.

Lemma scanLines_unlines ls :
  forallb plainLine ls = true -> scanLines (unlines ls) = ls.
Proof.
  unfold scanLines. induction ls as [|l ls IH]; [done |].
  intros [Hl Hls]%andb_prop. rewrite unlines_cons.
  pose proof Hl as Hplain. unfold plainLine in Hl.
  apply andb_prop in Hl as [[Hnl Hlen]%andb_prop _].
  rewrite scan_go_line by done. fold (String.rev l).
  assert (Hrev : Str.len (String.rev l) = Str.len l).
  { unfold Str.len, String.rev. rewrite length_rev_app. simpl. lia. }
  by rewrite Hrev, Hlen, scanToken_plain, IH.
Qed.

Section Streaming.

Context `{GoLib}.

(** One turn of the loop adds to the collector what the event of the line
    contributes, and writes nothing for an empty line. *)
Lemma onLine_event toolName id st line :
  match eventOf toolName line with
  | None => onLine toolName id st line = (st, [])
  | Some ev =>
      textCollector (onLine toolName id st line).1
        = textCollector st +:+ textOf ev
      /\ toolOutputs (onLine toolName id st line).1
        = toolOutputs st ++ blockOf ev
      /\ eventCount (onLine toolName id st line).1 = eventCount st + 1
  end.
Proof.
  unfold eventOf, onLine, classify.
  destruct (line =s EmptyString); [done |].
  destruct (toolName =s toolRun); [| by rewrite app_nil_r].
  destruct (unmarshalMap line) as [event|]; [| by rewrite app_nil_r].
  destruct st as [text outs n]. simpl.
  split_cases; rewrite ?append_nil_r, ?app_nil_r; done.
Qed.

(** The notification that relays a line. *)
Lemma onLine_relayed toolName id st line :
  relayed (onLine toolName id st line).2
  = if line =s EmptyString then []
    else if toolName =s toolRun then
      match unmarshalMap line with
      | Some event =>
          [Message (jstring (jindex event "type")) (extractEventData event)]
      | None => [RawLine line]
      end
    else [RawLine line].
Proof.
  unfold onLine.
  destruct (line =s EmptyString); [done |].
  destruct (toolName =s toolRun); [| done].
  destruct (unmarshalMap line) as [event|]; [| done].
  split_cases; done.
Qed.

Lemma streamLoop_cons toolName id st line rest :
  streamLoop toolName id st (line :: rest)
  = ((streamLoop toolName id (onLine toolName id st line).1 rest).1,
     (onLine toolName id st line).2
     ++ (streamLoop toolName id (onLine toolName id st line).1 rest).2).
Proof.
  simpl. destruct (onLine toolName id st line) as [st1 out1]. simpl.
  by destruct (streamLoop toolName id st1 rest) as [st2 out2].
Qed.

(** The loop collects the text and the tool blocks of the events, in the
    order of the lines, and counts the events. *)
Lemma streamLoop_events toolName id st lines :
  let st' := (streamLoop toolName id st lines).1 in
  textCollector st'
    = textCollector st +:+ aggregatedText (events toolName lines)
  /\ toolOutputs st' = toolOutputs st ++ toolBlocks (events toolName lines)
  /\ eventCount st'
    = eventCount st + Z.of_nat (length (events toolName lines)).
Proof.
  revert st. induction lines as [|line rest IH]; intros st.
  - simpl. rewrite append_nil_r, app_nil_r. repeat split; lia.
  - cbv zeta. rewrite streamLoop_cons. simpl fst.
    destruct (IH (onLine toolName id st line).1) as (IH1 & IH2 & IH3).
    rewrite IH1, IH2, IH3.
    pose proof (onLine_event toolName id st line) as Hev.
    unfold events; simpl. fold (events toolName rest).
    destruct (eventOf toolName line) as [ev|].
    + destruct Hev as (-> & -> & ->). simpl.
      unfold aggregatedText, toolBlocks; simpl.
      rewrite append_assoc, <- app_assoc. repeat split; try done.
      change (list_omap _ _ (eventOf toolName) rest) with (events toolName rest).
      lia.
    + rewrite Hev. done.
Qed.

(** The composed text of the handler is the composition of the
    sections. *)
Lemma composeResult_composed st stderrText exitCode :
  composeResult st stderrText exitCode
  = composed (textCollector st) (toolOutputs st) stderrText exitCode.
Proof.
  unfold composeResult, composed, joinSections, toolSection, stderrSection,
    exitMarker.
  destruct st as [text outs n]; simpl.
  destruct outs as [|o outs]; simpl;
    destruct (String.eqb_spec text EmptyString) as [->|Ht]; simpl;
    destruct (String.eqb_spec stderrText EmptyString) as [->|He]; simpl;
    destruct (exitCode =? 0); simpl;
    rewrite ?append_nil_r, ?append_assoc; simpl; try done;
    rewrite append_nonempty by done; simpl; by rewrite ?append_assoc.
Qed.

(** The notifications that relay the lines follow the order of the
    lines, one per line that is not empty. *)
Theorem relay_order toolName id st lines :
  relayed (streamLoop toolName id st lines).2 = omap (relayOf toolName) lines.
Proof.
  revert st. induction lines as [|line rest IH]; intros st; [done |].
  rewrite streamLoop_cons. simpl snd.
  rewrite relayed_app, IH, onLine_relayed. unfold relayOf. simpl.
  destruct (line =s EmptyString); [done |].
  destruct (toolName =s toolRun); [| done].
  by destruct (unmarshalMap line).
Qed.


End Streaming.

(** ** [handleToolsCallSSE] *)

Section Handler.

Context `{GoLib}.
Variable W : world.
Variable cfg : serverConfig.

Lemma responses_fetchTrace t : fetchTrace cfg t -> responses t = [].
Proof. by intros [-> | ->]. Qed.

Lemma resultFrames_fetchTrace t : fetchTrace cfg t -> resultFrames t = [].
Proof. by intros [-> | ->]. Qed.

Lemma cmdOutput_run cmd s :
  cmdOutput W cmd s
  = (s,
     match p_startErr (w_exec W cmd) with
     | None => [Start cmd; Wait cmd]
     | Some _ => []
     end,
     Some (Output (w_exec W cmd))).
Proof. unfold cmdOutput. mrun. by rewrite app_nil_r. Qed.

Lemma fetchAvailableModels_run s :
  exists s' t models,
    fetchAvailableModels W (Target cfg) s = (s', t, Some models)
    /\ fetchTrace cfg t.
Proof.
  unfold fetchAvailableModels, fetchTrace, modelsCommand. mrun.
  destruct (cacheFresh W (srv_models s)) eqn:E; [by eauto 6 |].
  cbn. rewrite E, cmdOutput_run.
  destruct (Output _) as [output [err|]]; cbn.
  - destruct (p_startErr _); cbn; eauto 6.
  - destruct (0 <? _); cbn; destruct (p_startErr _); cbn; eauto 6.
Qed.

Lemma getDefaultModel_run s :
  exists s' t model,
    getDefaultModel W cfg s = (s', t, Some model) /\ fetchTrace cfg t.
Proof.
  destruct (fetchAvailableModels_run s) as (s' & t & models & E & Ht).
  unfold getDefaultModel. mrun. rewrite E. simpl. rewrite app_nil_r. eauto 6.
Qed.

(** The validation stage either yields a command, having at most listed
    the models, or has answered with the one error -32602. *)
Lemma sseValidate_cases req s :
  match sseValidate W cfg req s with
  | (_, t1, Some _) => fetchTrace cfg t1
  | (_, t1, None) =>
      exists pre msg,
        t1 = pre ++ errorBody (req_ID req) (-32602) msg /\ fetchTrace cfg pre
  end.
Proof.
  unfold sseValidate, sseCommand, errorBody, fetchTrace.
  destruct (getDefaultModel_run s) as (s' & t & model & E & Ht).
  destruct (unmarshalParams (req_Params req)) as [params|];
    [| mrun; exists []; eauto].
  mrun.
  destruct (params_Name params =s toolExec).
  { destruct (unmarshalExecArgs _) as [args|]; [| mrun; exists []; eauto].
    destruct (_ =? 0); mrun; [exists []; eauto |].
    destruct (validateCwd _ _); mrun; [exists []; eauto | by left]. }
  destruct (params_Name params =s toolRun).
  { destruct (unmarshalRunArgs _) as [a|]; [| mrun; exists []; eauto].
    destruct (run_Message a =s EmptyString); mrun; [exists []; eauto |].
    destruct (run_Model a =s EmptyString).
    - rewrite E. simpl.
      destruct (validateCwd _ _); mrun; rewrite ?app_nil_r; [eauto | done].
    - mrun. destruct (validateCwd _ _); mrun; [exists []; eauto | by left]. }
  destruct (params_Name params =s toolModels).
  { mrun. destruct (validateCwd _ _); mrun; [exists []; eauto | by left]. }
  destruct (params_Name params =s toolSessionList).
  { mrun. destruct (validateCwd _ _); mrun; [exists []; eauto | by left]. }
  destruct (params_Name params =s toolAgentList).
  { mrun. destruct (validateCwd _ _); mrun; [exists []; eauto | by left]. }
  mrun. exists []. eauto.
Qed.

Lemma sseLaunch_ok id cmd s :
  launches W cmd = true ->
  sseLaunch W id cmd s = (s, Start cmd :: sseHeaders, Some (w_exec W cmd)).
Proof.
  unfold launches, sseLaunch.
  destruct (w_stdoutPipeErr W); [done |].
  destruct (w_stderrPipeErr W); [done |].
  destruct (p_startErr _); [done |]. intros ->. reflexivity.
Qed.

Lemma sseLaunch_fail id cmd s :
  launches W cmd = false ->
  exists pre msg,
    sseLaunch W id cmd s = (s, pre ++ errorBody id (-32000) msg, None)
    /\ responses pre = [] /\ resultFrames pre = [].
Proof.
  unfold launches, sseLaunch, errorBody.
  destruct (w_stdoutPipeErr W); [intros _; mrun; exists []; eauto |].
  destruct (w_stderrPipeErr W); [intros _; mrun; exists []; eauto |].
  destruct (p_startErr _); [intros _; mrun; exists []; eauto |].
  intros ->. mrun. exists (Start cmd :: sseHeaders). eauto.
Qed.

Lemma sseStream_run toolName id cmd p s :
  sseStream W toolName id cmd p s
  = (s,
     map (fun n => WriteFrame (Notification n))
         (streamLoop toolName id newCollector (scanLines (p_stdout p))).2
     ++ [ Wait cmd;
          WriteFrame (Response (finalResponse id
            (composeResult
               (streamLoop toolName id newCollector (scanLines (p_stdout p))).1
               (stderrBuf W p) (waitExitCode p))
            (waitExitCode p))) ],
     Some tt).
Proof.
  unfold sseStream.
  destruct (streamLoop _ _ _ _) as [st out]. mrun. by rewrite ?app_nil_r.
Qed.

Lemma responses_app t1 t2 : responses (t1 ++ t2) = responses t1 ++ responses t2.
Proof. unfold responses. apply omap_app. Qed.

Lemma resultFrames_app t1 t2 :
  resultFrames (t1 ++ t2) = resultFrames t1 ++ resultFrames t2.
Proof. unfold resultFrames. apply omap_app. Qed.

Lemma responses_notifications out :
  responses (map (fun n => WriteFrame (Notification n)) out) = [].
Proof. induction out; [done | exact IHout]. Qed.

(** The trace of a request that passed validation and whose process
    streams: what validation left, the start, the headers, one frame per
    notification, the wait, the result frame. *)
Lemma handleToolsCallSSE_streams req s s1 t1 toolName cmd :
  sseValidate W cfg req s = (s1, t1, Some (toolName, cmd)) ->
  launches W cmd = true ->
  trace (handleToolsCallSSE W cfg req) s
  = (t1 ++ Start cmd :: sseHeaders
        ++ map (fun n => WriteFrame (Notification n))
             (streamLoop toolName (req_ID req) newCollector
                (scanLines (p_stdout (w_exec W cmd)))).2)
    ++ [ Wait cmd;
         WriteFrame (Response (finalResponse (req_ID req)
           (composeResult
              (streamLoop toolName (req_ID req) newCollector
                 (scanLines (p_stdout (w_exec W cmd)))).1
              (stderrBuf W (w_exec W cmd)) (waitExitCode (w_exec W cmd)))
           (waitExitCode (w_exec W cmd)))) ].
Proof.
  intros Hv Hl. unfold handleToolsCallSSE. mrun. rewrite Hv.
  rewrite (sseLaunch_ok _ _ _ Hl), sseStream_run. simpl.
  by rewrite <- !app_assoc.
Qed.

Lemma handleToolsCallSSE_refused req s s1 t1 toolName cmd :
  sseValidate W cfg req s = (s1, t1, Some (toolName, cmd)) ->
  launches W cmd = false ->
  exists pre msg,
    trace (handleToolsCallSSE W cfg req) s
    = t1 ++ pre ++ errorBody (req_ID req) (-32000) msg
    /\ responses pre = [] /\ resultFrames pre = [].
Proof.
  intros Hv Hl. unfold handleToolsCallSSE. mrun. rewrite Hv.
  destruct (sseLaunch_fail (req_ID req) cmd s1 Hl) as (pre & msg & -> & ? & ?).
  simpl. eauto.
Qed.

Lemma validated req s toolName cmd :
  (sseValidate W cfg req s).2 = Some (toolName, cmd) ->
  exists s1 t1,
    sseValidate W cfg req s = (s1, t1, Some (toolName, cmd))
    /\ fetchTrace cfg t1.
Proof.
  pose proof (sseValidate_cases req s) as Hc.
  destruct (sseValidate W cfg req s) as [[s1 t1] r]. simpl. intros ->. eauto.
Qed.

(** C1, as amended. A request that passes validation gets exactly one
    JSON-RPC response. When the process starts and the response can be
    streamed, it is the result envelope of the last SSE frame, written
    right after the wait for the process has returned, and nothing before
    it is a response. When a pipe or the start fails, or the writer cannot
    flush, it is the one error -32000: no result frame is written. *)
Theorem terminal_response req s toolName cmd :
  (sseValidate W cfg req s).2 = Some (toolName, cmd) ->
  let t := trace (handleToolsCallSSE W cfg req) s in
  length (responses t) = 1%nat
  /\ if launches W cmd then
       exists pre text,
         t = pre ++ [ Wait cmd;
                      WriteFrame (Response (finalResponse (req_ID req) text
                                    (waitExitCode (w_exec W cmd)))) ]
         /\ responses pre = []
     else
       resultFrames t = []
       /\ exists msg,
           responses t
           = [McpResponse "2.0" (req_ID req) None (Some (McpError (-32000) msg))].
Proof.
  intros Hv. destruct (validated _ _ _ _ Hv) as (s1 & t1 & Hv1 & Ht1).
  cbv zeta. destruct (launches W cmd) eqn:Hl.
  - rewrite (handleToolsCallSSE_streams _ _ _ _ _ _ Hv1 Hl).
    assert (Hpre : responses
              (t1 ++ Start cmd :: sseHeaders
               ++ map (fun n => WriteFrame (Notification n))
                    (streamLoop toolName (req_ID req) newCollector
                       (scanLines (p_stdout (w_exec W cmd)))).2) = []).
    { rewrite responses_app, (responses_fetchTrace _ Ht1). simpl.
      apply responses_notifications. }
    split; [by rewrite responses_app, Hpre | eauto].
  - destruct (handleToolsCallSSE_refused _ _ _ _ _ _ Hv1 Hl)
      as (pre & msg & -> & Hp1 & Hp2).
    rewrite !responses_app, !resultFrames_app, Hp1, Hp2,
      (responses_fetchTrace _ Ht1), (resultFrames_fetchTrace _ Ht1).
    simpl. eauto.
Qed.

Lemma resultFrames_notifications out :
  resultFrames (map (fun n => WriteFrame (Notification n)) out) = [].
Proof. induction out; [done | exact IHout]. Qed.

(** The joined sections end with the last one. *)
Lemma joinSections_last a b last :
  exists body, joinSections [a; b; last] = body +:+ last.
Proof.
  unfold joinSections. simpl.
  destruct (String.eqb_spec last EmptyString) as [-> | _]; simpl;
    [eexists; by rewrite append_nil_r |].
  destruct (String.eqb_spec a EmptyString), (String.eqb_spec b EmptyString);
    simpl.
  - by exists EmptyString.
  - exists (b +:+ Str.nl +:+ Str.nl). by rewrite !append_assoc.
  - exists (a +:+ Str.nl +:+ Str.nl). by rewrite !append_assoc.
  - exists (a +:+ Str.nl +:+ Str.nl +:+ b +:+ Str.nl +:+ Str.nl).
    by rewrite !append_assoc.
Qed.

(** A process that exits with a status other than 0 is not answered by an
    error response: the one response of a validated, streaming request is
    the result frame, flagged [isError], written after the wait; its text
    ends with the section of the standard error captured by then (nothing
    when none was captured) and the marker of the exit code. *)
Theorem failing_command_folded req s toolName cmd status :
  (sseValidate W cfg req s).2 = Some (toolName, cmd) ->
  launches W cmd = true ->
  p_exit (w_exec W cmd) = Exited status -> status <> 0 ->
  exists pre body,
    trace (handleToolsCallSSE W cfg req) s
    = pre ++ [ Wait cmd;
               WriteFrame (Response (McpResponse "2.0" (req_ID req)
                 (Some (ResultCall (ToolCallResult
                    [ToolContent "text"
                       (body +:+ stderrSection (stderrBuf W (w_exec W cmd))
                        +:+ Str.nl +:+ "[exit code: " +:+ Str.itoa status
                        +:+ "]")]
                    true)))
                 None)) ]
    /\ responses pre = [].
Proof.
  intros Hv Hl Hexit Hne.
  destruct (validated _ _ _ _ Hv) as (s1 & t1 & Hv1 & Ht1).
  rewrite (handleToolsCallSSE_streams _ _ _ _ _ _ Hv1 Hl).
  assert (Hzero : (status =? 0) = false) by (by apply Z.eqb_neq).
  assert (Hcode : waitExitCode (w_exec W cmd) = status).
  { unfold waitExitCode, waitErr. by rewrite Hexit, Hzero. }
  rewrite Hcode, composeResult_composed. unfold composed, exitMarker, finalResponse.
  rewrite Hzero.
  destruct (joinSections_last
              (textCollector (streamLoop toolName (req_ID req) newCollector
                 (scanLines (p_stdout (w_exec W cmd)))).1)
              (toolSection (toolOutputs (streamLoop toolName (req_ID req)
                 newCollector (scanLines (p_stdout (w_exec W cmd)))).1))
              (stderrSection (stderrBuf W (w_exec W cmd)))) as [body ->].
  eexists. exists body. split.
  - rewrite append_assoc. reflexivity.
  - rewrite responses_app, (responses_fetchTrace _ Ht1). simpl.
    apply responses_notifications.
Qed.


(** A request that fails validation in [handleToolsCallSSE] is answered
    by the one error -32602, and the only process that can have been
    started before is the model listing of [getDefaultModel], never the
    command of the tool. *)
Theorem rejected_request req s :
  (sseValidate W cfg req s).2 = None ->
  exists pre msg,
    trace (handleToolsCallSSE W cfg req) s
    = pre ++ errorBody (req_ID req) (-32602) msg
    /\ fetchTrace cfg pre.
Proof.
  intros Hv. pose proof (sseValidate_cases req s) as Hc.
  unfold handleToolsCallSSE. mrun.
  destruct (sseValidate W cfg req s) as [[s1 t1] r]. simpl in Hv. subst r.
  exact Hc.
Qed.

Lemma runCommand_run target args stdin cwd s :
  exists t r, runCommand W target args stdin cwd s = (s, t, Some r).
Proof.
  unfold runCommand. mrun. rewrite cmdOutput_run.
  destruct (Output _) as [stdout [[code err|msg]|]]; cbn; eauto.
Qed.

(** [handleToolsCall] validates before it starts anything: a request it
    rejects is answered by the error -32602 alone, with no process started
    and the state unchanged. *)
Theorem aggregated_rejects_before_start req s :
  (handleToolsCall W cfg req s).2 = None ->
  exists msg,
    handleToolsCall W cfg req s
    = (s, errorBody (req_ID req) (-32602) msg, None).
Proof.
  unfold handleToolsCall, callCommand, errorBody.
  destruct (unmarshalParams (req_Params req)) as [params|]; [| mrun; eauto].
  mrun.
  assert (Hrun : forall target args stdin cwd s0 (k : _ -> M unit),
            (let (p, o) := runCommand W target args stdin cwd s0 in
             let (s1, t1) := p in
             match o with
             | Some a => let (p0, r) := k a s1 in
                         let (s2, t2) := p0 in (s2, t1 ++ t2, r)
             | None => (s1, t1, None)
             end).2 = None ->
            exists a s1, (k a s1).2 = None).
  { intros target args stdin cwd s0 k.
    destruct (runCommand_run target args stdin cwd s0) as (t & r & ->).
    destruct (k r s0) as [[s2 t2] o] eqn:E. simpl. intros ->.
    exists r, s0. by rewrite E. }
  destruct (params_Name params =s toolExec).
  { destruct (unmarshalExecArgs _) as [args|]; [| mrun; eauto].
    destruct (_ =? 0); mrun; [eauto |].
    destruct (validateCwd _ _); mrun; [eauto |].
    intros (a & s1 & Hk)%Hrun. by destruct a as [[[? ?] ?] ?]. }
  destruct (params_Name params =s toolRun).
  { destruct (unmarshalRunArgs _) as [a|]; [| mrun; eauto].
    destruct (run_Message a =s EmptyString); mrun; [eauto |].
    destruct (validateCwd _ _); mrun; [eauto |].
    destruct (run_Model a =s EmptyString).
    - destruct (getDefaultModel_run s) as (s' & t & model & -> & _). cbn.
      match goal with
      | |- context [runCommand W ?target ?args ?stdin ?cwd ?s0] =>
          destruct (runCommand_run target args stdin cwd s0) as (t' & r & ->)
      end.
      by destruct r as [[[? ?] ?] ?].
    - cbn.
      match goal with
      | |- context [runCommand W ?target ?args ?stdin ?cwd ?s0] =>
          destruct (runCommand_run target args stdin cwd s0) as (t' & r & ->)
      end.
      by destruct r as [[[? ?] ?] ?]. }
  destruct (params_Name params =s toolModels).
  { intros (a & s1 & Hk)%Hrun. by destruct a as [[[? ?] ?] ?]. }
  destruct (params_Name params =s toolSessionList).
  { intros (a & s1 & Hk)%Hrun. by destruct a as [[[? ?] ?] ?]. }
  destruct (params_Name params =s toolAgentList).
  { intros (a & s1 & Hk)%Hrun. by destruct a as [[[? ?] ?] ?]. }
  mrun. eauto.
Qed.

End Handler.

(** ** The theorems at concrete requests *)

Section Examples.

#[local] Existing Instance JSON.lib.

Lemma runCommand_stderr_witness :
  (runCommand (Ex.worldOf Ex.chatty) "opencode-cli" ["models"]
     EmptyString EmptyString Ex.fresh).2
  = Some ("done" +:+ Str.nl, EmptyString, 0, None).
Proof.
  apply (runCommand_stderr (Ex.worldOf Ex.chatty) "opencode-cli" ["models"]
           EmptyString EmptyString Ex.fresh); reflexivity.
Defined.

Lemma missing_and_unknown_method_witness :
  errorCodes (trace (mcpHandler (Ex.worldOf Ex.lister) Ex.cfg
                       (Ex.post "application/json" Ex.noMethod)) Ex.fresh)
    = [-32600]
  /\ errorCodes (trace (mcpHandler (Ex.worldOf Ex.lister) Ex.cfg
                          (Ex.post "application/json" Ex.unknown)) Ex.fresh)
    = [-32601].
Proof.
  pose proof (missing_and_unknown_method (Ex.worldOf Ex.lister) Ex.cfg
                (Ex.post "application/json" Ex.noMethod)
                (Ex.post "application/json" Ex.unknown)
                (McpRequest "2.0" EmptyString EmptyString (JNum "1") EmptyString)
                (McpRequest "2.0" "unknown/method" EmptyString (JNum "1") EmptyString)
                Ex.fresh Ex.fresh
                eq_refl eq_refl eq_refl eq_refl eq_refl eq_refl) as (R1 & R2 & _).
  unfold errorCodes. rewrite R1, R2. split; reflexivity.
Defined.

(** C2 as stated fails: a [tools/call] request that accepts
    [application/json] only is answered by an event stream, not by one
    JSON body. *)
Lemma accept_json_gets_stream :
  Str.Contains (HeaderGet (Ex.post "application/json" Ex.callModels) "Accept")
               "text/event-stream" = false
  /\ streams (trace (mcpHandler (Ex.worldOf Ex.lister) Ex.cfg
                       (Ex.post "application/json" Ex.callModels)) Ex.fresh)
     = true
  /\ modeFollowsAccept (Ex.post "application/json" Ex.callModels)
       (trace (mcpHandler (Ex.worldOf Ex.lister) Ex.cfg
                 (Ex.post "application/json" Ex.callModels)) Ex.fresh)
     = false.
Proof. repeat split; vm_compute; reflexivity. Qed.

Lemma tools_call_always_sse_witness :
  run (mcpHandler (Ex.worldOf Ex.lister) Ex.cfg
         (withAccept "text/event-stream"
            (Ex.post "application/json" Ex.callModels)))
      Ex.fresh
  = run (mcpHandler (Ex.worldOf Ex.lister) Ex.cfg
           (Ex.post "application/json" Ex.callModels)) Ex.fresh.
Proof.
  apply (tools_call_always_sse (Ex.worldOf Ex.lister) Ex.cfg
           (Ex.post "application/json" Ex.callModels)
           (McpRequest "2.0" "tools/call"
              (Str.dq "{'name':'opencode_models'}") (JNum "1") EmptyString)
           Ex.fresh); reflexivity.
Defined.

(** C1 as stated fails: the request is valid, the executable cannot be
    started, and the handler writes no result frame; its one response is
    the error -32000, and no wait precedes it. *)
Lemma launch_failure_no_result_frame :
  (sseValidate (Ex.worldOf Ex.missing) Ex.cfg Ex.listModels Ex.fresh).2
    = Some (toolModels, Ex.listModelsCommand)
  /\ resultFrames (trace (handleToolsCallSSE (Ex.worldOf Ex.missing) Ex.cfg
                            Ex.listModels) Ex.fresh) = []
  /\ trace (handleToolsCallSSE (Ex.worldOf Ex.missing) Ex.cfg Ex.listModels)
           Ex.fresh
     = errorBody (JNum "1") (-32000)
         "exec: opencode-cli: executable file not found in $PATH".
Proof. repeat split; vm_compute; reflexivity. Qed.

Lemma terminal_response_witness :
  length (responses (trace (handleToolsCallSSE (Ex.worldOf Ex.talker) Ex.cfg
                              Ex.runHi) Ex.fresh)) = 1%nat.
Proof.
  refine (proj1 (terminal_response (Ex.worldOf Ex.talker) Ex.cfg Ex.runHi
                   Ex.fresh toolRun Ex.runHiCommand _)).
  vm_compute. reflexivity.
Defined.





Lemma failing_command_folded_witness :
  exists pre body,
    trace (handleToolsCallSSE (Ex.worldOf Ex.failing) Ex.cfg Ex.runHi) Ex.fresh
    = pre ++ [ Wait Ex.runHiCommand;
               WriteFrame (Response (McpResponse "2.0" (JNum "1")
                 (Some (ResultCall (ToolCallResult
                    [ToolContent "text"
                       (body
                        +:+ stderrSection
                              (stderrBuf (Ex.worldOf Ex.failing) Ex.failing)
                        +:+ Str.nl +:+ "[exit code: " +:+ Str.itoa 2 +:+ "]")]
                    true)))
                 None)) ]
    /\ responses pre = [].
Proof.
  apply (failing_command_folded (Ex.worldOf Ex.failing) Ex.cfg Ex.runHi
           Ex.fresh toolRun Ex.runHiCommand 2);
    [vm_compute; reflexivity | vm_compute; reflexivity | reflexivity | done].
Defined.

(** C6 at the failing input: the process prints boom on standard error and
    exits with status 2. Nothing waits for the goroutine that copies the
    standard error pipe into [stderrBuf], and [cmd.Wait] closes the pipe.
    When the copy has not run by then, the result, flagged [isError], holds
    the exit code marker and no standard error section; only when the copy
    happens to be complete does the result hold boom. *)
Theorem stderr_lost_after_wait :
  p_stderr Ex.failing = "boom" /\ p_exit Ex.failing = Exited 2
  /\ resultFrames (trace (handleToolsCallSSE (Ex.racing Ex.failing) Ex.cfg
                            Ex.runHi) Ex.fresh)
     = [ McpResponse "2.0" (JNum "1")
           (Some (ResultCall (ToolCallResult
              [ToolContent "text" ("A" +:+ Str.nl +:+ "[exit code: 2]")]
              true)))
           None ]
  /\ resultFrames (trace (handleToolsCallSSE (Ex.worldOf Ex.failing) Ex.cfg
                            Ex.runHi) Ex.fresh)
     = [ McpResponse "2.0" (JNum "1")
           (Some (ResultCall (ToolCallResult
              [ToolContent "text"
                 ("A" +:+ Str.nl +:+ Str.nl +:+ "[stderr]" +:+ Str.nl
                  +:+ "boom" +:+ Str.nl +:+ "[exit code: 2]")]
              true)))
           None ].
Proof. repeat split; vm_compute; reflexivity. Qed.

(** C5 at the failing input: [opencode_run] without a model, in a
    directory that does not exist, on a server whose model cache is empty.
    [handleToolsCallSSE] answers with the error -32602 after it has started
    the model listing; [handleToolsCall], which validates the directory
    first, starts nothing on the same request. *)
Theorem invalid_cwd_after_model_listing :
  trace (mcpHandler (Ex.worldOf Ex.lister) Ex.cfg
           (Ex.post "text/event-stream" Ex.callRunNowhere)) Ex.fresh
  = [ Start (modelsCommand Ex.cfg); Wait (modelsCommand Ex.cfg) ]
    ++ errorBody (JNum "1") (-32602)
         "invalid cwd: stat /does/not/exist: no such file or directory"
  /\ started (trace (handleToolsCallSSE (Ex.worldOf Ex.lister) Ex.cfg
                       Ex.runNowhere) Ex.fresh)
     = [modelsCommand Ex.cfg]
  /\ trace (handleToolsCall (Ex.worldOf Ex.lister) Ex.cfg Ex.runNowhere)
           Ex.fresh
     = errorBody (JNum "1") (-32602)
         "invalid cwd: stat /does/not/exist: no such file or directory".
Proof. repeat split; vm_compute; reflexivity. Qed.

Lemma rejected_request_witness :
  exists pre msg,
    trace (handleToolsCallSSE (Ex.worldOf Ex.lister) Ex.cfg Ex.runNowhere)
          Ex.fresh
    = pre ++ errorBody (JNum "1") (-32602) msg
    /\ fetchTrace Ex.cfg pre.
Proof.
  apply (rejected_request (Ex.worldOf Ex.lister) Ex.cfg Ex.runNowhere Ex.fresh).
  vm_compute. reflexivity.
Defined.

Lemma aggregated_rejects_before_start_witness :
  exists msg,
    handleToolsCall (Ex.worldOf Ex.lister) Ex.cfg Ex.runNowhere Ex.fresh
    = (Ex.fresh, errorBody (JNum "1") (-32602) msg, None).
Proof.
  apply (aggregated_rejects_before_start (Ex.worldOf Ex.lister) Ex.cfg
           Ex.runNowhere Ex.fresh).
  vm_compute. reflexivity.
Defined.

End Examples.

(** * The rest of the program *)

(** ** [truncateForLog] *)

Lemma length_append (a b : string) :
  String.length (a +:+ b) = (String.length a + String.length b)%nat.
Proof.
  induction a as [|c a IH]; [done |].
  change (String c a +:+ b) with (String c (a +:+ b)). simpl. by rewrite IH.
Qed.

Lemma length_substring0 n s :
  (n <= String.length s)%nat -> String.length (substring 0 n s) = n.
Proof.
  revert s. induction n as [|n IH]; intros [|c s]; simpl; try lia.
  intros Hn. rewrite IH; lia.
Qed.

(** [truncateForLog] never returns more than [maxLen + 3] bytes when
    [maxLen] is not negative: a string that fits is returned as it is, a
    longer one is cut to its first [maxLen] bytes followed by three dots.
    With a negative [maxLen] no string fits and the slice panics. *)
Theorem truncateForLog_bound s maxLen :
  (maxLen < 0 -> truncateForLog s maxLen = None)
  /\ (0 <= maxLen ->
      exists r, truncateForLog s maxLen = Some r
        /\ Str.len r <= maxLen + 3
        /\ (Str.len s <= maxLen -> r = s)
        /\ (maxLen < Str.len s ->
            r = Str.prefix_n maxLen s +:+ "..." /\ Str.len r = maxLen + 3)).
Proof.
  unfold truncateForLog, Str.len, Str.prefix_n. split.
  - intros Hneg. destruct (Z.leb_spec (Z.of_nat (String.length s)) maxLen); [lia |].
    by destruct (Z.ltb_spec maxLen 0); [| lia].
  - intros Hpos.
    destruct (Z.leb_spec (Z.of_nat (String.length s)) maxLen) as [Hfit|Hlong].
    + exists s. repeat split; lia || done.
    + destruct (Z.ltb_spec maxLen 0); [lia |].
      eexists. split; [done |].
      rewrite length_append, length_substring0 by lia. simpl.
      repeat split; lia.
Qed.

(** ** [runCommand] and the endpoint [/exec] *)

Section Commands.

Context `{GoLib}.
Variable W : world.
Variable cfg : serverConfig.

Lemma runCommand_eq target args stdin cwd s :
  runCommand W target args stdin cwd s
  = (s, ran W (Command target args stdin cwd),
     Some match Output (w_exec W (Command target args stdin cwd)) with
          | (stdout, None) => (stdout, EmptyString, 0, None)
          | (stdout, Some (ExitError ExitCode Stderr)) =>
              (stdout, Stderr, ExitCode,
               Some ("command failed: " +:+ TrimSpace Stderr))
          | (_, Some (OtherError msg)) =>
              (EmptyString, EmptyString, -1, Some msg)
          end).
Proof.
  unfold runCommand, ran. mrun. rewrite cmdOutput_run.
  destruct (Output _) as [stdout [[code err|msg]|]]; cbn;
    by rewrite app_nil_r.
Qed.

(** What [runCommand] returns: the error is nil exactly when the exit
    code is 0, and then the standard error string is empty. *)
Lemma runCommand_codes target args stdin cwd s stdout stderr exitCode err :
  (runCommand W target args stdin cwd s).2 = Some (stdout, stderr, exitCode, err) ->
  (err = None <-> exitCode = 0) /\ (err = None -> stderr = EmptyString).
Proof.
  rewrite runCommand_eq. simpl. unfold Output, waitErr.
  destruct (p_startErr _); [by intros [= <- <- <- <-] |].
  destruct (p_exit _) as [status| |msg]; simpl.
  - destruct (Z.eqb_spec status 0); intros [= <- <- <- <-]; done.
  - by intros [= <- <- <- <-].
  - by intros [= <- <- <- <-].
Qed.

Variable decodeExecArgs : string -> option execArgs.

(** The endpoint [/exec] checks the request before it starts anything: a
    request it refuses gets one [http.Error] with status 405 or 400 and no
    process is started. A request it accepts runs the one command made of
    the configured target and the arguments, standard input and directory
    of the request; the response says ok exactly when the exit code is 0,
    and then carries neither standard error nor an error text. The server
    state is never touched. *)
Theorem exec_endpoint r s :
  match execHandler W cfg decodeExecArgs r s with
  | (s', t, Some resp) =>
      s' = s
      /\ (exists req,
            decodeExecArgs (http_Body r) = Some req
            /\ t = ran W (Command (Target cfg) (exec_Args req) (exec_Stdin req)
                                  (exec_Cwd req))
                   ++ [SetHeader "Content-Type" "application/json"])
      /\ (exec_OK resp = true <-> exec_ExitCode resp = 0)
      /\ (exec_OK resp = true ->
          exec_Stderr resp = EmptyString /\ exec_Error resp = EmptyString)
  | (s', t, None) =>
      s' = s
      /\ exists msg code,
           t = [HttpError msg code] /\ (code = 405 \/ code = 400)
  end.
Proof.
  unfold execHandler.
  destruct (http_Method r =s "POST"); mrun; [| eauto 6].
  destruct (decodeExecArgs (http_Body r)) as [req|]; mrun; [| eauto 6].
  destruct (_ =? 0); mrun; [eauto 6 |].
  destruct (validateCwd W (exec_Cwd req)); mrun; [eauto 6 |].
  pose proof (runCommand_codes (Target cfg) (exec_Args req) (exec_Stdin req)
                (exec_Cwd req) s) as Hc.
  rewrite runCommand_eq in Hc |- *. cbn in Hc |- *.
  destruct (match Output _ with (a, b) => _ end) as [[[stdout stderr] code] err].
  specialize (Hc _ _ _ _ eq_refl) as [Hcode Hstderr].
  split; [done |]. split; [eauto |].
  destruct err as [msg|]; cbn.
  - split; [| done]. split; [done |]. intros Hz. by apply Hcode in Hz.
  - split; [by split; [intros _; apply Hcode |] |]. intros _. by rewrite Hstderr.
Qed.

End Commands.

(** ** The model cache and [getDefaultModel] *)

Lemma firstPreferred_member test ps models a :
  firstPreferred test ps models = Some a -> a ∈ models.
Proof.
  induction ps as [|p ps IH]; simpl; [done |].
  destruct (find _ models) eqn:E; [| done].
  intros [= ->]. apply find_some in E as [Hin _]. by apply list_elem_of_In.
Qed.

Lemma firstPreferred_exact ps models a :
  firstPreferred String.eqb ps models = Some a ->
  exists j, ps !! j = Some a
    /\ forall i q, ps !! i = Some q -> q ∈ models -> (j <= i)%nat.
Proof.
  induction ps as [|p ps IH]; simpl; [done |].
  destruct (find _ models) eqn:E.
  - intros [= ->]. apply find_some in E as [_ ->%String.eqb_eq].
    exists 0%nat. split; [done |]. intros; lia.
  - intros (j & Hj & Hmin)%IH. exists (S j). split; [done |].
    intros [|i] q Hq Hin; simpl in Hq.
    + injection Hq as ->. apply list_elem_of_In in Hin.
      apply (find_none _ _ E) in Hin. by rewrite String.eqb_refl in Hin.
    + apply (Hmin _ _ Hq) in Hin. lia.
Qed.

Lemma firstPreferred_exact_none ps models q :
  firstPreferred String.eqb ps models = None -> q ∈ ps -> q ∉ models.
Proof.
  induction ps as [|p ps IH]; simpl; [by intros _ ?%elem_of_nil |].
  destruct (find _ models) eqn:E; [done |].
  intros Hrec [->|Hin]%elem_of_cons; [| by apply IH].
  intros Hm%list_elem_of_In. apply (find_none _ _ E) in Hm.
  by rewrite String.eqb_refl in Hm.
Qed.

Lemma fetchAvailableModels_eq `{GoLib} (W : world) target s :
  fetchAvailableModels W target s
  = if cacheFresh W (srv_models s)
    then (s, [], Some (availableModels (srv_models s)))
    else
      let cmd := Command target ["models"] EmptyString EmptyString in
      match Output (w_exec W cmd) with
      | (_, Some _) => (s, ran W cmd, Some [])
      | (output, None) =>
          let models := parseModels output in
          (if 0 <? Z.of_nat (length models)
           then Server (srv_sessions s) (ModelCache models (w_now W))
           else s,
           ran W cmd, Some models)
      end.
Proof.
  unfold fetchAvailableModels, ran. mrun.
  destruct (cacheFresh W (srv_models s)) eqn:E; [done |].
  cbn. rewrite E, cmdOutput_run.
  destruct (Output _) as [output [err|]]; cbn; [by rewrite app_nil_r |].
  destruct (0 <? _); cbn; by rewrite app_nil_r.
Qed.

Section Models.

Context `{GoLib}.
Variable W : world.
Variable cfg : serverConfig.

(** Once [fetchAvailableModels] has run the listing and got at least one
    model, a later call within the five minutes of [modelCacheTTL] starts
    no process and returns the same models, whatever target it is called
    with. *)
Theorem models_cached (W' : world) target target' s s1 t1 models :
  cacheFresh W (srv_models s) = false ->
  fetchAvailableModels W target s = (s1, t1, Some models) ->
  models <> [] ->
  w_now W' - w_now W < modelCacheTTL ->
  fetchAvailableModels W' target' s1 = (s1, [], Some models).
Proof.
  intros Hstale Hfetch Hne Hsoon.
  rewrite fetchAvailableModels_eq, Hstale in Hfetch. cbn in Hfetch.
  destruct (Output _) as [output [err|]]; [by injection Hfetch as <- <- <- |].
  injection Hfetch as <- <- <-.
  destruct (parseModels output) as [|m models] eqn:Em; [done |].
  assert (Hpos : (0 <? Z.of_nat (length (m :: models))) = true)
    by (apply Z.ltb_lt; simpl; lia).
  rewrite Hpos, (fetchAvailableModels_eq W'). unfold cacheFresh. cbn.
  by destruct (Z.ltb_spec (w_now W' - w_now W) modelCacheTTL); [| lia].
Qed.

(** A listing that fails, or lists nothing, is not cached and yields no
    model: an expired cache is left as it is and its models are not
    served. *)
Theorem failed_listing_not_cached target s s1 t1 models :
  cacheFresh W (srv_models s) = false ->
  fetchAvailableModels W target s = (s1, t1, Some models) ->
  (Output (w_exec W (Command target ["models"] EmptyString EmptyString))).2
    <> None
  \/ parseModels
       (Output (w_exec W (Command target ["models"] EmptyString EmptyString))).1
     = [] ->
  s1 = s /\ models = [].
Proof.
  intros Hstale Hfetch Hbad.
  rewrite fetchAvailableModels_eq, Hstale in Hfetch. cbn in Hfetch.
  destruct (Output _) as [output [err|]]; simpl in Hbad.
  - by injection Hfetch as <- <- <-.
  - destruct Hbad as [? | Hempty]; [done |].
    rewrite Hempty in Hfetch. by injection Hfetch as <- <- <-.
Qed.

(** [getDefaultModel] only ever picks a model of the list
    [fetchAvailableModels] returned, the empty string when that list is
    empty; and when the list holds one of the preferred models, it picks the
    one that comes first in the order of preference, wherever it stands in
    the list. *)
Theorem default_model_listed s :
  exists s' t models model,
    fetchAvailableModels W (Target cfg) s = (s', t, Some models)
    /\ getDefaultModel W cfg s = (s', t, Some model)
    /\ (models = [] -> model = EmptyString)
    /\ (models <> [] -> model ∈ models)
    /\ forall q, q ∈ preferredModels -> q ∈ models ->
         exists j, preferredModels !! j = Some model
           /\ forall i q', preferredModels !! i = Some q' -> q' ∈ models ->
                (j <= i)%nat.
Proof.
  destruct (fetchAvailableModels_run W cfg s) as (s' & t & models & E & _).
  eexists s', t, models, _. split; [exact E |].
  split; [unfold getDefaultModel, mbind, mret, M_bind, M_ret, bind, ret;
          rewrite E; cbv beta iota; by rewrite app_nil_r |].
  split; [by intros -> |].
  destruct (firstPreferred String.eqb preferredModels models) as [a|] eqn:E1;
    cbv beta iota.
  { split; [intros _; by eapply firstPreferred_member |].
    intros _ _ _. by apply firstPreferred_exact. }
  split.
  - intros Hne.
    destruct (firstPreferred Str.Contains _ _) as [a|] eqn:E2; cbv beta iota;
      [by eapply firstPreferred_member |].
    destruct (find _ models) as [a|] eqn:E3; cbv beta iota;
      [apply find_some in E3 as [Hin _]; by apply list_elem_of_In |].
    destruct models; [done | apply list_elem_of_here].
  - intros q Hq Hin. by destruct (firstPreferred_exact_none _ _ q E1).
Qed.

End Models.

(** ** The traces of [handleToolsCallSSE] and of the router *)

Lemma answersOf_app t1 t2 : answersOf (t1 ++ t2) = answersOf t1 ++ answersOf t2.
Proof. apply List.filter_app. Qed.

Lemma answersOf_notifications out :
  answersOf (map (fun n => WriteFrame (Notification n)) out) = [].
Proof. induction out; [done | exact IHout]. Qed.

Lemma answersOf_headers pre : forallb isHeader pre = true -> answersOf pre = [].
Proof.
  induction pre as [|e pre IH]; [done |].
  intros [He Hpre]%andb_prop. by destruct e; try done; apply IH.
Qed.

Lemma started_app t1 t2 : started (t1 ++ t2) = started t1 ++ started t2.
Proof. apply omap_app. Qed.

Lemma waited_app t1 t2 : waited (t1 ++ t2) = waited t1 ++ waited t2.
Proof. apply omap_app. Qed.

Lemma started_notifications out :
  started (map (fun n => WriteFrame (Notification n)) out) = [].
Proof. induction out; [done | exact IHout]. Qed.

Lemma waited_notifications out :
  waited (map (fun n => WriteFrame (Notification n)) out) = [].
Proof. induction out; [done | exact IHout]. Qed.

Lemma started_headers pre : forallb isHeader pre = true -> started pre = [].
Proof.
  induction pre as [|e pre IH]; [done |].
  intros [He Hpre]%andb_prop. by destruct e; try done; apply IH.
Qed.

Lemma waited_headers pre : forallb isHeader pre = true -> waited pre = [].
Proof.
  induction pre as [|e pre IH]; [done |].
  intros [He Hpre]%andb_prop. by destruct e; try done; apply IH.
Qed.

Lemma sessionEcho_headers r s : forallb isHeader (sessionEcho r s) = true.
Proof.
  unfold sessionEcho. destruct (_ =s _); [done |]. by destruct (get _ _).
Qed.

Lemma toolNames_elem name :
  name = toolExec \/ name = toolRun \/ name = toolModels
  \/ name = toolSessionList \/ name = toolAgentList <->
  name ∈ toolNames.
Proof.
  unfold toolNames. simpl. rewrite !elem_of_cons, elem_of_nil. tauto.
Qed.

Section Requests.

Context `{GoLib}.
Variable W : world.
Variable cfg : serverConfig.

Lemma getDefaultModel_state s :
  exists s' t model,
    getDefaultModel W cfg s = (s', t, Some model)
    /\ fetchTrace cfg t /\ srv_sessions s' = srv_sessions s.
Proof.
  unfold getDefaultModel, mbind, mret, M_bind, M_ret, bind, ret.
  rewrite fetchAvailableModels_eq.
  assert (Hran : fetchTrace cfg (ran W (Command (Target cfg) ["models"]
                                          EmptyString EmptyString))).
  { unfold fetchTrace, ran, modelsCommand. destruct (p_startErr _); eauto. }
  destruct (cacheFresh W (srv_models s)); cbv beta iota zeta.
  { eexists _, _, _. split; [done |]. split; [by left | done]. }
  destruct (Output _) as [output [err|]]; cbv beta iota.
  { eexists _, _, _. split; [done |]. by rewrite app_nil_r. }
  eexists _, _, _. split; [done |]. rewrite app_nil_r. split; [done |].
  by destruct (0 <? _).
Qed.

(** The validation stage in full: the state keeps its sessions; a
    command that passes is one of the five tools, runs the configured
    target and has a valid directory. *)
Lemma sseValidate_spec req s :
  match sseValidate W cfg req s with
  | (s1, t1, Some (name, cmd)) =>
      fetchTrace cfg t1 /\ srv_sessions s1 = srv_sessions s
      /\ cmd_Path cmd = Target cfg /\ name ∈ toolNames
      /\ validateCwd W (cmd_Dir cmd) = None
  | (s1, t1, None) =>
      srv_sessions s1 = srv_sessions s
      /\ exists pre msg,
           t1 = pre ++ errorBody (req_ID req) (-32602) msg
           /\ fetchTrace cfg pre
           /\ (match unmarshalParams (req_Params req) with
               | Some params =>
                   params_Name params ∈ toolNames
                   <-> msg <> "unknown tool: " +:+ params_Name params
               | None => True
               end)
  end.
Proof.
  unfold sseValidate, sseCommand, errorBody.
  destruct (getDefaultModel_state s) as (s' & t & model & E & Ht & Hs).
  destruct (unmarshalParams (req_Params req)) as [params|];
    [| mrun; split; [done |]; exists [], "invalid params"; split; [done |];
       split; [by left | done]].
  assert (Hin : forall name, name ∈ toolNames -> forall m : string,
            match m with String "u" _ => False | _ => True end ->
            name ∈ toolNames <-> m <> "unknown tool: " +:+ name).
  { intros name Hname m Hm. split; [| done]. intros _ ->. exact Hm. }
  assert (Hcwd : forall cwd msg, validateCwd W cwd = Some msg ->
            match msg with String "u" _ => False | _ => True end).
  { intros cwd msg. unfold validateCwd. destruct (_ =s EmptyString); [done |].
    by destruct (w_stat _ _); intros [= <-]. }
  assert (Hrej : forall name s1 pre msg,
            name = toolExec \/ name = toolRun \/ name = toolModels
            \/ name = toolSessionList \/ name = toolAgentList ->
            srv_sessions s1 = srv_sessions s -> fetchTrace cfg pre ->
            match msg with String "u" _ => False | _ => True end ->
            srv_sessions s1 = srv_sessions s
            /\ exists pre0 msg0,
                 pre ++ errorBody (req_ID req) (-32602) msg
                 = pre0 ++ errorBody (req_ID req) (-32602) msg0
                 /\ fetchTrace cfg pre0
                 /\ (name ∈ toolNames <-> msg0 <> "unknown tool: " +:+ name)).
  { intros name s1 pre msg Hname Hs1 Hpre Hmsg. split; [done |].
    exists pre, msg. split; [done |]. split; [done |].
    apply Hin; [by apply toolNames_elem | done]. }
  assert (Hnone : fetchTrace cfg []) by (by left).
  mrun.
  destruct (params_Name params =s toolExec) eqn:N1.
  { apply String.eqb_eq in N1.
    destruct (unmarshalExecArgs _) as [args|];
      [| mrun; apply (Hrej _ s [] "invalid arguments"); auto].
    destruct (_ =? 0); mrun;
      [apply (Hrej _ s [] "missing args"); auto |].
    destruct (validateCwd _ _) as [msg|] eqn:V; mrun.
    - apply (Hrej _ s [] msg); auto. exact (Hcwd _ _ V).
    - repeat split; auto. apply toolNames_elem. auto. }
  destruct (params_Name params =s toolRun) eqn:N2.
  { apply String.eqb_eq in N2.
    destruct (unmarshalRunArgs _) as [a|];
      [| mrun; apply (Hrej _ s [] "invalid arguments"); auto].
    destruct (run_Message a =s EmptyString); mrun;
      [apply (Hrej _ s [] "missing message"); auto |].
    destruct (run_Model a =s EmptyString).
    - rewrite E. cbn.
      destruct (validateCwd _ _) as [msg|] eqn:V; mrun; rewrite ?app_nil_r.
      + apply (Hrej _ s' t msg); auto. exact (Hcwd _ _ V).
      + repeat split; auto. apply toolNames_elem. auto.
    - mrun. destruct (validateCwd _ _) as [msg|] eqn:V; mrun.
      + apply (Hrej _ s [] msg); auto. exact (Hcwd _ _ V).
      + repeat split; auto. apply toolNames_elem. auto. }
  destruct (params_Name params =s toolModels) eqn:N3.
  { apply String.eqb_eq in N3. mrun.
    destruct (validateCwd _ _) as [msg|] eqn:V; mrun.
    - apply (Hrej _ s [] msg); [tauto | done | done | exact (Hcwd _ _ V)].
    - repeat split; auto. apply toolNames_elem. tauto. }
  destruct (params_Name params =s toolSessionList) eqn:N4.
  { apply String.eqb_eq in N4. mrun.
    destruct (validateCwd _ _) as [msg|] eqn:V; mrun.
    - apply (Hrej _ s [] msg); [tauto | done | done | exact (Hcwd _ _ V)].
    - repeat split; auto. apply toolNames_elem. tauto. }
  destruct (params_Name params =s toolAgentList) eqn:N5.
  { apply String.eqb_eq in N5. mrun.
    destruct (validateCwd _ _) as [msg|] eqn:V; mrun.
    - apply (Hrej _ s [] msg); [tauto | done | done | exact (Hcwd _ _ V)].
    - repeat split; auto. apply toolNames_elem. tauto. }
  mrun. split; [done |].
  exists [], ("unknown tool: " +:+ params_Name params).
  split; [done |]. split; [done |].
  split; [| done]. intros Hname%toolNames_elem.
  apply String.eqb_neq in N1, N2, N3, N4, N5. tauto.
Qed.

Lemma sseLaunch_cases id cmd s :
  (w_flusher W = true
   /\ sseLaunch W id cmd s = (s, Start cmd :: sseHeaders, Some (w_exec W cmd)))
  \/ (exists msg, sseLaunch W id cmd s = (s, errorBody id (-32000) msg, None))
  \/ (w_flusher W = false
      /\ sseLaunch W id cmd s
         = (s, Start cmd :: sseHeaders
                 ++ errorBody id (-32000) "streaming unsupported", None)).
Proof.
  unfold sseLaunch, errorBody.
  destruct (w_stdoutPipeErr W); [right; left; mrun; eauto |].
  destruct (w_stderrPipeErr W); [right; left; mrun; eauto |].
  destruct (p_startErr _); [right; left; mrun; eauto |].
  destruct (w_flusher W); mrun; auto.
Qed.

(** The four ways [handleToolsCallSSE] can go: refused by the validation,
    refused at the launch before or after the start, or streamed. *)
Lemma sse_shapes req s :
  exists s1 t r pre,
    handleToolsCallSSE W cfg req s = (s1, t, r)
    /\ srv_sessions s1 = srv_sessions s /\ fetchTrace cfg pre
    /\ ((exists msg,
           t = pre ++ errorBody (req_ID req) (-32602) msg
           /\ match unmarshalParams (req_Params req) with
              | Some params =>
                  params_Name params ∈ toolNames
                  <-> msg <> "unknown tool: " +:+ params_Name params
              | None => True
              end)
        \/ exists name cmd,
             (sseValidate W cfg req s).2 = Some (name, cmd)
             /\ name ∈ toolNames /\ cmd_Path cmd = Target cfg
             /\ validateCwd W (cmd_Dir cmd) = None
             /\ ((exists msg, t = pre ++ errorBody (req_ID req) (-32000) msg)
                 \/ (exists msg,
                       w_flusher W = false
                       /\ t = pre ++ Start cmd :: sseHeaders
                              ++ errorBody (req_ID req) (-32000) msg)
                 \/ (exists out text code,
                       w_flusher W = true
                       /\ t = pre ++ Start cmd :: sseHeaders
                              ++ map (fun n => WriteFrame (Notification n)) out
                              ++ [ Wait cmd;
                                   WriteFrame (Response
                                     (finalResponse (req_ID req) text code)) ]))).
Proof.
  pose proof (sseValidate_spec req s) as Hv.
  unfold handleToolsCallSSE. mrun.
  destruct (sseValidate W cfg req s) as [[s1 t1] [[name cmd]|]]; cbn.
  - destruct Hv as (Ht & Hs & Hp & Hn & Hcwd).
    destruct (sseLaunch_cases (req_ID req) cmd s1)
      as [[Hf ->] | [[msg ->] | [Hf ->]]]; cbn.
    + rewrite sseStream_run. cbn.
      eexists _, _, _, t1. split; [done |]. split; [done |]. split; [done |].
      right. exists name, cmd. repeat split; [done.. |].
      right; right. eexists _, _, _. by split.
    + eexists _, _, _, t1. split; [done |]. split; [done |]. split; [done |].
      right. exists name, cmd. repeat split; [done.. |]. left. by exists msg.
    + eexists _, _, _, t1. split; [done |]. split; [done |]. split; [done |].
      right. exists name, cmd. repeat split; [done.. |].
      right; left. eexists. by split.
  - destruct Hv as (Hs & pre & msg & -> & Hpre & Hmsg).
    eexists _, _, _, pre. split; [done |]. split; [done |]. split; [done |].
    left. by exists msg.
Qed.

Lemma answersOf_fetchTrace pre : fetchTrace cfg pre -> answersOf pre = [].
Proof. by intros [-> | ->]. Qed.

Lemma answeredLast_app pre t :
  answersOf pre = [] -> answeredLast t -> answeredLast (pre ++ t).
Proof.
  intros Hpre (pre' & e & -> & He & Hpre'). exists (pre ++ pre'), e.
  split; [by rewrite app_assoc |]. split; [done |].
  by rewrite answersOf_app, Hpre, Hpre'.
Qed.

Lemma sse_answered req s :
  answeredLast (trace (handleToolsCallSSE W cfg req) s).
Proof.
  destruct (sse_shapes req s) as (s1 & t & r & pre & E & _ & Hpre & Hshape).
  unfold trace, run. rewrite E. cbn.
  apply answersOf_fetchTrace in Hpre.
  assert (Herr : forall code msg,
            answeredLast (errorBody (req_ID req) code msg)).
  { intros code msg. by eexists [_], _. }
  destruct Hshape as [(msg & -> & _) | (name & cmd & _ & _ & _ & _ &
    [(msg & ->) | [(msg & _ & ->) | (out & text & code & _ & ->)]])];
    apply answeredLast_app; try done.
  - by apply (answeredLast_app (Start cmd :: sseHeaders)).
  - apply (answeredLast_app (Start cmd :: sseHeaders)); [done |].
    apply answeredLast_app; [apply answersOf_notifications |].
    by eexists [_], _.
Qed.

(** The router either hands the request to [handleToolsCallSSE], or sets
    headers and answers itself; only [initialize] touches the state. *)
Lemma mcpHandler_cases r s :
  (exists req,
     http_Method r = "POST" /\ decodeRequest (http_Body r) = Some req
     /\ req_Method req = "tools/call")
  \/ exists pre e s',
       run (mcpHandler W cfg r) s = (s', pre ++ [e])
       /\ forallb isHeader pre = true /\ isAnswer e = true
       /\ (s' = s
           \/ s' = Server (create (srv_sessions s) (w_rand W) (w_now W)).2
                          (srv_models s))
       /\ Forall (envelope (requestID r)) (responses [e]).
Proof.
  assert (Henv : forall id (res : option result) (err : option mcpError),
            (res = None <-> err <> None) ->
            Forall (envelope id) (responses [WriteJSON (McpResponse "2.0" id res err)])).
  { intros id res err Hone. cbn.
    constructor; [split; [done | split; [done | exact Hone]] | constructor]. }
  unfold mcpHandler, requestID.
  destruct (http_Method r =s "OPTIONS");
    [right; eexists [_; _], _, _; repeat split; eauto; constructor |].
  destruct (http_Method r =s "POST") eqn:Hp;
    [| right; eexists [], _, _; repeat split; eauto; constructor].
  apply String.eqb_eq in Hp.
  destruct (decodeRequest (http_Body r)) as [req|];
    [| right; eexists [_], _, _; repeat split; eauto; by apply Henv].
  destruct (req_Method req =s EmptyString);
    [right; eexists [_], _, _; repeat split; eauto; by apply Henv |].
  destruct (req_Method req =s "initialize");
    [right; eexists [_; _], _, _; repeat split; eauto; by apply Henv |].
  destruct (req_Method req =s "notifications/initialized");
    [right; eexists [], _, _; repeat split; eauto; constructor |].
  destruct (req_Method req =s "tools/call") eqn:Hcall;
    [left; apply String.eqb_eq in Hcall; eauto |].
  right. pose proof (sessionEcho_headers r s) as Hecho.
  unfold sessionEcho in Hecho.
  destruct (req_Method req =s "tools/list"); mrun.
  - destruct (HeaderGet r "Mcp-Session-Id" =s EmptyString); cbn;
      [eexists [_], _, _; repeat split; eauto; by apply Henv |].
    destruct (get _ _); cbn;
      [eexists [_; _], _, _; repeat split; eauto; by apply Henv |].
    eexists [_], _, _; repeat split; eauto; by apply Henv.
  - destruct (HeaderGet r "Mcp-Session-Id" =s EmptyString); cbn;
      [eexists [_], _, _; repeat split; eauto; by apply Henv |].
    destruct (get _ _); cbn;
      [eexists [_; _], _, _; repeat split; eauto; by apply Henv |].
    eexists [_], _, _; repeat split; eauto; by apply Henv.
Qed.

(** Every request to [/mcp] is answered exactly once, whatever it is and
    whatever the process does, and the answer is the last thing the
    handler writes: a status line, an [http.Error], a JSON body, or the
    frame with the result. *)
Theorem answered_once r s : answeredLast (trace (mcpHandler W cfg r) s).
Proof.
  destruct (mcpHandler_cases r s)
    as [(req & Hp & Hd & Hm) | (pre & e & s' & E & Hpre & He & _ & _)].
  - unfold trace. rewrite (mcpHandler_tools_call W cfg r req s Hp Hd Hm). cbn.
    apply answeredLast_app; [| apply sse_answered].
    apply answersOf_headers, sessionEcho_headers.
  - unfold trace. rewrite E. cbn. exists pre, e.
    split; [done |]. split; [done |]. by apply answersOf_headers.
Qed.

Lemma sse_processes req s :
  let t := trace (handleToolsCallSSE W cfg req) s in
  Forall (fun c => cmd_Path c = Target cfg
                   /\ validateCwd W (cmd_Dir c) = None) (started t)
  /\ (length (started t) <= 2)%nat
  /\ (w_flusher W = true -> waited t = started t).
Proof.
  destruct (sse_shapes req s) as (s1 & t & r & pre & E & _ & Hpre & Hshape).
  unfold trace, run. rewrite E. cbn.
  assert (Hp : Forall (fun c => cmd_Path c = Target cfg
                                /\ validateCwd W (cmd_Dir c) = None)
                      (started pre)
               /\ (length (started pre) <= 1)%nat
               /\ waited pre = started pre).
  { destruct Hpre as [-> | ->]; cbn; repeat split; auto. }
  destruct Hp as (Hall & Hlen & Hwait).
  destruct Hshape as [(msg & -> & _) | (name & cmd & _ & _ & Hpath & Hcwd &
    [(msg & ->) | [(msg & Hf & ->) | (out & text & code & Hf & ->)]])];
    rewrite started_app, waited_app, Hwait.
  - cbn. rewrite app_nil_r. repeat split; [done | lia].
  - cbn. rewrite app_nil_r. repeat split; [done | lia].
  - change (Start cmd :: sseHeaders ++ ?x) with ([Start cmd] ++ sseHeaders ++ x).
    rewrite !started_app, !waited_app. cbn.
    split; [apply Forall_app; by split; [| constructor] |].
    split; [rewrite length_app; simpl; lia | congruence].
  - change (Start cmd :: sseHeaders ++ ?x) with ([Start cmd] ++ sseHeaders ++ x).
    rewrite !started_app, !waited_app, started_notifications,
      waited_notifications. cbn.
    split; [apply Forall_app; by split; [| constructor] |].
    split; [rewrite length_app; simpl; lia | done].
Qed.

(** Whatever the request to [/mcp], the only executable the server starts
    is the configured target, in a directory [validateCwd] accepts, and at
    most twice (the listing of the models and the command of the tool);
    when the response writer can flush, every process that was started is
    waited for, in the order of the starts. *)
Theorem processes_of_a_request r s :
  let t := trace (mcpHandler W cfg r) s in
  Forall (fun c => cmd_Path c = Target cfg
                   /\ validateCwd W (cmd_Dir c) = None) (started t)
  /\ (length (started t) <= 2)%nat
  /\ (w_flusher W = true -> waited t = started t).
Proof.
  destruct (mcpHandler_cases r s)
    as [(req & Hp & Hd & Hm) | (pre & e & s' & E & Hpre & He & _ & _)].
  - unfold trace. rewrite (mcpHandler_tools_call W cfg r req s Hp Hd Hm). cbn.
    rewrite started_app, waited_app.
    rewrite (started_headers _ (sessionEcho_headers r s)),
      (waited_headers _ (sessionEcho_headers r s)).
    apply sse_processes.
  - unfold trace. rewrite E. cbn.
    rewrite started_app, waited_app, (started_headers _ Hpre),
      (waited_headers _ Hpre).
    destruct e as [| | | |[]| |]; try done; cbn; repeat split; auto.
Qed.

Lemma sseValidate_name req params s name cmd :
  unmarshalParams (req_Params req) = Some params ->
  (sseValidate W cfg req s).2 = Some (name, cmd) ->
  name = params_Name params.
Proof.
  intros Hparams.
  unfold sseValidate, mbind, mret, M_bind, M_ret, bind, ret. rewrite Hparams.
  destruct (sseCommand W cfg req params s) as [[s1 t1] [[[a b] c]|]];
    cbv beta iota; [| done].
  destruct (validateCwd _ _); mrun; [done |]. by intros [= <- _].
Qed.

(** The tools [tools/list] advertises are exactly the tools [tools/call]
    knows: a call is answered by the error "unknown tool" if and only if
    its name is not one of the advertised names. *)
Theorem unknown_tool_iff_not_listed req params s :
  unmarshalParams (req_Params req) = Some params ->
  params_Name params ∈ toolNames
  <-> responses (trace (handleToolsCallSSE W cfg req) s)
      <> [ McpResponse "2.0" (req_ID req) None
             (Some (McpError (-32602)
                      ("unknown tool: " +:+ params_Name params))) ].
Proof.
  intros Hparams.
  destruct (sse_shapes req s) as (s1 & t & r & pre & E & _ & Hpre & Hshape).
  unfold trace, run. rewrite E. cbn. rewrite Hparams in Hshape.
  apply (responses_fetchTrace cfg) in Hpre.
  destruct Hshape as [(msg & -> & Hmsg) | (name & cmd & Hv & Hname & _ & _ &
    [(msg & ->) | [(msg & _ & ->) | (out & text & code & _ & ->)]])];
    rewrite responses_app, Hpre; cbn.
  - rewrite Hmsg. split; [intros Hne [= ->]; done | intros Hne ->; done].
  - rewrite <- (sseValidate_name req params s name cmd Hparams Hv).
    split; [done | by intros _].
  - rewrite <- (sseValidate_name req params s name cmd Hparams Hv).
    split; [done | by intros _].
  - rewrite <- (sseValidate_name req params s name cmd Hparams Hv).
    change (responses (?a :: ?b :: ?c :: ?d :: ?x)) with (responses x).
    rewrite responses_app, responses_notifications. cbn.
    split; [done | by intros _].
Qed.

Lemma responses_headers pre : forallb isHeader pre = true -> responses pre = [].
Proof.
  induction pre as [|e pre IH]; [done |].
  intros [He Hpre]%andb_prop. by destruct e; try done; apply IH.
Qed.

Lemma sse_envelope req s :
  Forall (envelope (req_ID req))
         (responses (trace (handleToolsCallSSE W cfg req) s)).
Proof.
  destruct (sse_shapes req s) as (s1 & t & r & pre & E & _ & Hpre & Hshape).
  unfold trace, run. rewrite E. cbn.
  apply (responses_fetchTrace cfg) in Hpre.
  destruct Hshape as [(msg & -> & _) | (name & cmd & _ & _ & _ & _ &
    [(msg & ->) | [(msg & _ & ->) | (out & text & code & _ & ->)]])];
    rewrite responses_app, Hpre; cbn.
  - by repeat constructor.
  - by repeat constructor.
  - by repeat constructor.
  - change (responses (?a :: ?b :: ?c :: ?d :: ?x)) with (responses x).
    rewrite responses_app, responses_notifications. cbn.
    by repeat constructor.
Qed.

(** Every JSON-RPC response the server writes, as a body or in a frame,
    has the version 2.0, carries the identifier of the request it answers
    (nil when the body did not decode) and holds exactly one of a result
    and an error. *)
Theorem response_envelope r s :
  Forall (envelope (requestID r)) (responses (trace (mcpHandler W cfg r) s)).
Proof.
  destruct (mcpHandler_cases r s)
    as [(req & Hp & Hd & Hm) | (pre & e & s' & E & Hpre & He & _ & Henv)].
  - unfold trace. rewrite (mcpHandler_tools_call W cfg r req s Hp Hd Hm). cbn.
    rewrite responses_app, responses_sessionEcho. unfold requestID.
    rewrite Hd. apply sse_envelope.
  - unfold trace. rewrite E. cbn.
    by rewrite responses_app, (responses_headers _ Hpre).
Qed.

Lemma mcpHandler_bare r s :
  let r0 := HttpRequest (http_Method r) ∅ (http_Body r) in
  (run (mcpHandler W cfg r) s).1 = (run (mcpHandler W cfg r0) s).1
  /\ sansSession (trace (mcpHandler W cfg r) s)
     = sansSession (trace (mcpHandler W cfg r0) s).
Proof.
  intros r0.
  assert (H0 : HeaderGet r0 "Mcp-Session-Id" = EmptyString) by done.
  unfold trace, mcpHandler. rewrite H0. subst r0. cbn [http_Method http_Body].
  destruct (http_Method r =s "OPTIONS"); [done |].
  destruct (http_Method r =s "POST"); [| done].
  destruct (decodeRequest (http_Body r)) as [req|]; [| done].
  destruct (req_Method req =s EmptyString); [done |].
  destruct (req_Method req =s "initialize"); [done |].
  destruct (req_Method req =s "notifications/initialized"); [done |].
  destruct (HeaderGet r "Mcp-Session-Id" =s EmptyString); [done |].
  mrun. destruct (get _ _); cbn; [| done].
  destruct (req_Method req =s "tools/list"); cbn; [done |].
  destruct (req_Method req =s "tools/call"); cbn; [| done].
  by destruct (handleToolsCallSSE W cfg req s) as [[s1 t1] o].
Qed.

(** The headers of a request decide nothing but the echo of the session:
    two requests with the same method and body leave the same state and
    the same trace, the header [Mcp-Session-Id] aside. In particular a
    request is served in the same way with a session identifier the server
    never issued, or with none. *)
Theorem headers_do_not_matter r r' s :
  http_Method r = http_Method r' -> http_Body r = http_Body r' ->
  (run (mcpHandler W cfg r) s).1 = (run (mcpHandler W cfg r') s).1
  /\ sansSession (trace (mcpHandler W cfg r) s)
     = sansSession (trace (mcpHandler W cfg r') s).
Proof.
  intros Hm Hb.
  destruct (mcpHandler_bare r s) as [-> ->].
  destruct (mcpHandler_bare r' s) as [-> ->].
  by rewrite Hm, Hb.
Qed.

End Requests.

(** ** The session registry behind the router *)

Lemma generateSessionID_nonempty entropy :
  generateSessionID entropy <> EmptyString.
Proof.
  pose proof (generateSessionID_wellFormed entropy) as Hw.
  unfold wellFormedID in Hw. apply andb_prop in Hw as [Hlen _].
  intros Heq. by rewrite Heq in Hlen.
Qed.

Section Sessions.

Context `{GoLib}.
Variable cfg : serverConfig.

(** A request leaves the registry as it is, or, for [initialize], adds the
    session [create] makes. *)
Lemma mcpHandler_sessions W r s :
  srv_sessions (run (mcpHandler W cfg r) s).1 = srv_sessions s
  \/ srv_sessions (run (mcpHandler W cfg r) s).1
     = (create (srv_sessions s) (w_rand W) (w_now W)).2.
Proof.
  destruct (mcpHandler_cases W cfg r s)
    as [(req & Hp & Hd & Hm) | (pre & e & s' & E & _ & _ & [-> | ->] & _)].
  - rewrite (mcpHandler_tools_call W cfg r req s Hp Hd Hm). cbn.
    destruct (sse_shapes W cfg req s) as (s1 & t & o & pre & E & Hs & _).
    unfold run. rewrite E. by left.
  - rewrite E. by left.
  - rewrite E. by right.
Qed.

Lemma keyed_step W r s id :
  keyed id s -> keyed id (run (mcpHandler W cfg r) s).1.
Proof.
  intros (sess & Hget & Hid).
  destruct (mcpHandler_sessions W r s) as [E | E]; unfold keyed; rewrite E;
    [by exists sess |].
  unfold create, get in *. cbn.
  destruct (decide (generateSessionID (w_rand W) = id)) as [<- | Hne].
  - rewrite lookup_insert_eq. by eexists.
  - rewrite lookup_insert_ne by done. by exists sess.
Qed.

Lemma keyed_serve reqs s id : keyed id s -> keyed id (serve cfg s reqs).
Proof.
  revert s. induction reqs as [|[W r] reqs IH]; intros s Hk; [done |].
  apply IH. by apply keyed_step.
Qed.

(** One request changes the registry only when it is an [initialize],
    and then by the one call of [create]. *)
Lemma mcpHandler_registry W r s :
  srv_sessions (run (mcpHandler W cfg r) s).1
  = if isInitialize r
    then (create (srv_sessions s) (w_rand W) (w_now W)).2
    else srv_sessions s.
Proof.
  unfold mcpHandler, isInitialize.
  destruct (String.eqb_spec (http_Method r) "OPTIONS") as [-> | _]; [done |].
  destruct (http_Method r =s "POST"); [| done]. simpl.
  destruct (decodeRequest (http_Body r)) as [req|]; [| done].
  destruct (String.eqb_spec (req_Method req) EmptyString) as [-> | _]; [done |].
  destruct (req_Method req =s "initialize"); [done |].
  destruct (req_Method req =s "notifications/initialized"); [done |].
  assert (Hcall : srv_sessions (run (handleToolsCallSSE W cfg req) s).1
                  = srv_sessions s).
  { destruct (sse_shapes W cfg req s) as (s1 & t & o & pre & E & Hs & _).
    unfold run. by rewrite E. }
  unfold run in Hcall.
  destruct (HeaderGet r "Mcp-Session-Id" =s EmptyString); mrun.
  - destruct (req_Method req =s "tools/list"); cbn; [done |].
    destruct (req_Method req =s "tools/call"); cbn; [| done].
    by destruct (handleToolsCallSSE W cfg req s) as [[s1 t1] o].
  - destruct (get _ _); cbn;
      (destruct (req_Method req =s "tools/list"); cbn; [done |];
       destruct (req_Method req =s "tools/call"); cbn; [| done];
       by destruct (handleToolsCallSSE W cfg req s) as [[s1 t1] o]).
Qed.

Lemma serve_registry s reqs :
  srv_sessions (serve cfg s reqs)
  = fold_left (fun st call => (create st call.1 call.2).2)
              (initializations reqs) (srv_sessions s).
Proof.
  revert s. induction reqs as [|[W r] reqs IH]; intros s; [done |].
  unfold serve, initializations in *. cbn [fold_left List.filter fst snd].
  rewrite IH, mcpHandler_registry. by destruct (isInitialize r).
Qed.

(** Only [initialize] changes the registry. Whatever requests the server
    has answered since it started, its registry is the one the calls of
    [create] for the [initialize] requests among them build, in their
    order, and nothing else; hence every session of the registry is stored
    under its own identifier, and that identifier is 32 lowercase
    hexadecimal digits. *)
Theorem served_sessions_wellformed c reqs :
  srv_sessions (serve cfg (Server newSessionStore c) reqs)
  = registryAfter (initializations reqs)
  /\ forall id sess,
       get (srv_sessions (serve cfg (Server newSessionStore c) reqs)) id
       = Some sess ->
       session_id sess = id /\ wellFormedID id = true.
Proof.
  assert (Hreg : srv_sessions (serve cfg (Server newSessionStore c) reqs)
                 = registryAfter (initializations reqs))
    by apply serve_registry.
  split; [exact Hreg |]. intros id sess. rewrite Hreg. intros Hget.
  destruct (registry_keys _ _ _ Hget) as [Hid Hgen]. split; [done |].
  by eapply generatedIDs_wellFormed.
Qed.

(** The handshake round trip. [initialize] answers with the identifier of
    the session it created in the header [Mcp-Session-Id]; from then on,
    whatever requests come in between, a request for a method other than
    the two of the handshake that carries this identifier gets it back in
    the same header, before anything else is written. Sessions never
    expire. *)
Theorem handshake_roundtrip W r req s reqs W' r' req' :
  http_Method r = "POST" -> decodeRequest (http_Body r) = Some req ->
  req_Method req = "initialize" ->
  http_Method r' = "POST" -> decodeRequest (http_Body r') = Some req' ->
  afterHandshake (req_Method req') = true ->
  HeaderGet r' "Mcp-Session-Id" = generateSessionID (w_rand W) ->
  let id := generateSessionID (w_rand W) in
  let s1 := (run (mcpHandler W cfg r) s).1 in
  (exists rest,
     trace (mcpHandler W cfg r) s = SetHeader "Mcp-Session-Id" id :: rest)
  /\ exists rest,
       trace (mcpHandler W' cfg r') (serve cfg s1 reqs)
       = SetHeader "Mcp-Session-Id" id :: rest.
Proof.
  intros Hp Hd Hm Hp' Hd' Hm' Hid id s1.
  assert (E1 : run (mcpHandler W cfg r) s
               = (Server (create (srv_sessions s) (w_rand W) (w_now W)).2
                         (srv_models s),
                  SetHeader "Mcp-Session-Id" id
                    :: trace (handleInitialize req) s)).
  { unfold mcpHandler. by rewrite Hp, Hd, Hm. }
  split; [unfold trace; rewrite E1; eauto |].
  assert (Hk : keyed id (serve cfg s1 reqs)).
  { apply keyed_serve. subst s1. rewrite E1. unfold keyed, create, get. cbn.
    rewrite lookup_insert_eq. by eexists. }
  destruct Hk as (sess & Hget & Hsess).
  remember (serve cfg s1 reqs) as s2 eqn:Es2. clear Es2.
  unfold afterHandshake in Hm'.
  apply andb_prop in Hm' as [[Hm1 Hm2]%andb_prop Hm3].
  apply negb_true_iff in Hm1, Hm2, Hm3.
  assert (Hne : (id =s EmptyString) = false)
    by apply String.eqb_neq, generateSessionID_nonempty.
  fold id in Hid. clearbody id.
  unfold mcpHandler. rewrite Hp', Hd', Hm1, Hm2, Hm3, Hid, Hne.
  mrun. rewrite Hget, Hsess. cbn.
  destruct (req_Method req' =s "tools/list"); cbn; [eauto |].
  destruct (req_Method req' =s "tools/call"); cbn; [| eauto].
  destruct (handleToolsCallSSE _ _ _ _) as [[s3 t3] o]. eauto.
Qed.

End Sessions.

(** ** The progress numbers of a stream *)

Section Progress.

Context `{GoLib}.

Lemma onLine_progress toolName id st line :
  (progressValues (onLine toolName id st line).2 = []
   \/ (progressValues (onLine toolName id st line).2 = [eventCount st + 1]
       /\ eventCount (onLine toolName id st line).1 = eventCount st + 1))
  /\ eventCount st <= eventCount (onLine toolName id st line).1.
Proof.
  unfold onLine.
  destruct (line =s EmptyString); [simpl; split; [by left | lia] |].
  destruct (toolName =s toolRun); [| simpl; split; [by left | lia]].
  destruct (unmarshalMap line) as [event|]; [| simpl; split; [by left | lia]].
  destruct st as [text outs n].
  split_cases; simpl; (split; [auto | lia]).
Qed.

(** The progress notifications of a stream carry strictly increasing
    progress numbers, each the number of lines counted so far: above the
    count the loop started with and at most the count it ends with. *)
Theorem progress_increases toolName id st lines :
  let out := (streamLoop toolName id st lines).2 in
  let st' := (streamLoop toolName id st lines).1 in
  StronglySorted Z.lt (progressValues out)
  /\ Forall (fun p => eventCount st < p <= eventCount st') (progressValues out)
  /\ eventCount st <= eventCount st'.
Proof.
  revert st. induction lines as [|line rest IH]; intros st.
  - simpl. repeat split; [constructor | constructor | lia].
  - cbv zeta. rewrite streamLoop_cons. simpl fst. simpl snd.
    destruct (IH (onLine toolName id st line).1) as (Hsorted & Hbound & Hle).
    destruct (onLine_progress toolName id st line) as [Hone Hstep].
    unfold progressValues in *. rewrite omap_app.
    destruct Hone as [-> | [-> Hcount]]; simpl.
    + split; [done |]. split; [| lia].
      eapply Forall_impl; [exact Hbound |]. simpl. intros p Hp. lia.
    + rewrite Hcount in Hbound, Hle. split; [| split; [| lia]].
      * constructor; [done |].
        eapply Forall_impl; [exact Hbound |]. simpl. intros p Hp. lia.
      * constructor; [lia |].
        eapply Forall_impl; [exact Hbound |]. simpl. intros p Hp. lia.
Qed.

End Progress.

(** ** [parseJSONEventStream] *)

Lemma split_go_app sep cur a b :
  Str.split_go sep cur (a +:+ String sep b)
  = Str.split_go sep cur a ++ Str.split_go sep EmptyString b.
Proof.
  revert cur. induction a as [|c a IH]; intros cur.
  - change (EmptyString +:+ String sep b) with (String sep b). simpl.
    by rewrite Ascii.eqb_refl.
  - change (String c a +:+ String sep b) with (String c (a +:+ String sep b)).
    simpl. destruct (Ascii.eqb c sep); [by rewrite IH | apply IH].
Qed.

Lemma Join_cons e r :
  Str.Join (e :: r) EmptyString = e +:+ Str.Join r EmptyString.
Proof. destruct r; simpl; [by rewrite append_nil_r | done]. Qed.

Lemma Join_app l1 l2 :
  Str.Join (l1 ++ l2) EmptyString
  = Str.Join l1 EmptyString +:+ Str.Join l2 EmptyString.
Proof.
  induction l1 as [|e l1 IH]; [done |].
  change ((e :: l1) ++ l2) with (e :: (l1 ++ l2)).
  by rewrite !Join_cons, IH, append_assoc.
Qed.

Section Aggregated.

Context `{GoLib}.

(** [parseJSONEventStream] works line by line: the text of two streams
    joined by a newline is the text of the first followed by the text of
    the second, and the empty stream has no text. In particular a stretch
    of lines that decodes to nothing leaves no trace in the result. *)
Theorem parseJSONEventStream_app a b :
  parseJSONEventStream (a +:+ Str.nl +:+ b)
  = parseJSONEventStream a +:+ parseJSONEventStream b
  /\ (TrimSpace EmptyString = EmptyString ->
      parseJSONEventStream EmptyString = EmptyString)
  /\ forall bad,
       parseJSONEventStream bad = EmptyString ->
       parseJSONEventStream (a +:+ Str.nl +:+ bad +:+ Str.nl +:+ b)
       = parseJSONEventStream a +:+ parseJSONEventStream b.
Proof.
  assert (Happ : forall x y,
            parseJSONEventStream (x +:+ Str.nl +:+ y)
            = parseJSONEventStream x +:+ parseJSONEventStream y).
  { intros x y. unfold parseJSONEventStream, Str.SplitLines.
    change (Str.nl +:+ y) with (String "010" y).
    by rewrite split_go_app, flat_map_app, Join_app. }
  split; [apply Happ |]. split.
  - intros Htrim. unfold parseJSONEventStream, parseEventLine. simpl.
    change (String.rev EmptyString) with EmptyString. by rewrite Htrim.
  - intros bad Hbad. by rewrite Happ, Happ, Hbad.
Qed.

End Aggregated.

(** ** [handleToolsCall] *)

Section Call.

Context `{GoLib}.
Variable W : world.
Variable cfg : serverConfig.

(** The command stage of [handleToolsCall]: a request is refused before
    anything is started, or one command of the configured target is run,
    after the listing of the models at most. *)
Lemma callCommand_spec req params s :
  match callCommand W cfg req params s with
  | (s1, t, Some out) =>
      srv_sessions s1 = srv_sessions s
      /\ exists pre cmd,
           fetchTrace cfg pre /\ t = pre ++ ran W cmd
           /\ cmd_Path cmd = Target cfg
           /\ (runCommand W (cmd_Path cmd) (cmd_Args cmd) (cmd_Stdin cmd)
                 (cmd_Dir cmd) s1).2 = Some out
  | (s1, t, None) =>
      s1 = s /\ exists msg, t = errorBody (req_ID req) (-32602) msg
  end.
Proof.
  unfold callCommand, errorBody.
  destruct (getDefaultModel_state W cfg s) as (s' & t & model & E & Ht & Hs).
  assert (Hnone : fetchTrace cfg []) by (by left).
  destruct (params_Name params =s toolExec).
  { destruct (unmarshalExecArgs _) as [args|]; [| mrun; eauto].
    destruct (_ =? 0); mrun; [eauto |].
    destruct (validateCwd _ _); mrun; [eauto |].
    rewrite runCommand_eq. split; [done |]. eexists [], _.
    split; [done |]. split; [reflexivity |]. split; [reflexivity |].
    by rewrite runCommand_eq. }
  destruct (params_Name params =s toolRun).
  { destruct (unmarshalRunArgs _) as [a|]; [| mrun; eauto].
    destruct (run_Message a =s EmptyString); mrun; [eauto |].
    destruct (validateCwd _ _); mrun; [eauto |].
    destruct (run_Model a =s EmptyString).
    - rewrite E. cbn. rewrite runCommand_eq. split; [done |]. eexists t, _.
      split; [done |]. split; [reflexivity |]. split; [reflexivity |].
      by rewrite runCommand_eq.
    - cbn. rewrite runCommand_eq. split; [done |]. eexists [], _.
      split; [done |]. split; [reflexivity |]. split; [reflexivity |].
      by rewrite runCommand_eq. }
  destruct (params_Name params =s toolModels).
  { rewrite runCommand_eq. split; [done |]. eexists [], _.
    split; [done |]. split; [reflexivity |]. split; [reflexivity |].
    by rewrite runCommand_eq. }
  destruct (params_Name params =s toolSessionList).
  { rewrite runCommand_eq. split; [done |]. eexists [], _.
    split; [done |]. split; [reflexivity |]. split; [reflexivity |].
    by rewrite runCommand_eq. }
  destruct (params_Name params =s toolAgentList).
  { rewrite runCommand_eq. split; [done |]. eexists [], _.
    split; [done |]. split; [reflexivity |]. split; [reflexivity |].
    by rewrite runCommand_eq. }
  mrun. eauto.
Qed.

(** [handleToolsCall] answers a request it accepts with one JSON body
    after running one command of the configured target. The result is
    flagged as an error exactly when the process did not start or did not
    exit with status 0; its text then ends with the marker of a non-zero
    exit code, and is that marker alone, with code -1, when the process
    could not be started. When the process succeeds the text is its
    standard output, or what [parseJSONEventStream] makes of it. A request
    it refuses gets the error -32602 and nothing else happens. *)
Theorem aggregated_result req s :
  match handleToolsCall W cfg req s with
  | (s1, t, Some _) =>
      srv_sessions s1 = srv_sessions s
      /\ exists pre cmd text,
           fetchTrace cfg pre /\ cmd_Path cmd = Target cfg
           /\ t = pre ++ ran W cmd
                  ++ [ SetHeader "Content-Type" "application/json";
                       WriteJSON (McpResponse "2.0" (req_ID req)
                         (Some (ResultCall
                            (ToolCallResult [ToolContent "text" text]
                               (negb (succeeds (w_exec W cmd))))))
                         None) ]
           /\ (succeeds (w_exec W cmd) = false ->
               exists body code,
                 code <> 0
                 /\ text = body +:+ Str.nl +:+ "[exit code: "
                           +:+ Str.itoa code +:+ "]")
           /\ (p_startErr (w_exec W cmd) <> None ->
               text = Str.nl +:+ "[exit code: -1]")
           /\ (succeeds (w_exec W cmd) = true ->
               text = p_stdout (w_exec W cmd)
               \/ text = parseJSONEventStream (p_stdout (w_exec W cmd)))
  | (s1, t, None) =>
      s1 = s /\ exists msg, t = errorBody (req_ID req) (-32602) msg
  end.
Proof.
  unfold handleToolsCall, mbind, mret, M_bind, M_ret, bind, ret, emit, return_,
    writeMCPError, errorBody.
  destruct (unmarshalParams (req_Params req)) as [params|]; [| mrun; eauto].
  pose proof (callCommand_spec req params s) as Hc.
  destruct (callCommand W cfg req params s)
    as [[s1 t] [[[[stdout stderr] code] err]|]]; [| exact Hc].
  destruct Hc as (Hs & pre & cmd & Hpre & -> & Hp & Hrun).
  split; [done |]. exists pre, cmd. destruct cmd as [path args stdin dir].
  rewrite runCommand_eq in Hrun. cbn in Hrun, Hp. subst path.
  unfold Output, waitErr in Hrun. unfold succeeds, aggregateResult.
  set (cmd := Command (Target cfg) args stdin dir) in *.
  destruct (p_startErr (w_exec W cmd)) as [msg|].
  { injection Hrun as <- <- <- <-. eexists. split; [done |]. split; [done |].
    split; [by rewrite <- app_assoc |].
    rewrite andb_false_r. split; [| split; [done | done]].
    intros _. exists EmptyString, (-1). by split. }
  destruct (p_exit (w_exec W cmd)) as [status| |msg] eqn:Hexit.
  - destruct (Z.eqb_spec status 0) as [-> | Hne];
      injection Hrun as <- <- <- <-; cbn.
    + eexists. split; [done |]. split; [done |].
      split; [by rewrite <- app_assoc |].
      split; [done |]. split; [done |]. intros _.
      destruct (_ && _); [| by left]. destruct (negb _); [by right | by left].
    + apply Z.eqb_neq in Hne as Hne'. rewrite Hne'.
      eexists. split; [done |]. split; [done |].
      split; [by rewrite <- app_assoc |].
      split; [| split; [done | done]]. intros _.
      eexists _, status. split; [done | reflexivity].
  - injection Hrun as <- <- <- <-. cbn.
    eexists. split; [done |]. split; [done |].
    split; [by rewrite <- app_assoc |].
    split; [| split; [done | done]]. intros _.
    eexists _, (-1). split; [done | reflexivity].
  - injection Hrun as <- <- <- <-. cbn.
    eexists. split; [done |]. split; [done |].
    split; [by rewrite <- app_assoc |].
    rewrite andb_false_r. split; [| split; [done | done]].
    intros _. exists EmptyString, (-1). by split.
Qed.

End Call.

(** ** [extractEventData] *)

(** The data [extractEventData] makes of a [tool_use] event with a part
    is a map that always holds the name of the tool and a status, both
    strings: the status of the state, or "unknown" when the part has no
    state. The output is the one of the state, untouched, and an error is
    only ever present as a non-empty string. *)
Theorem tool_use_data event part :
  jstring (jindex event "type") = "tool_use" ->
  jindex event "part" = Some (JObj part) ->
  exists m status,
    extractEventData event = JObj m
    /\ jlookup "tool" m = Some (JStr (jstring (jlookup "tool" part)))
    /\ jlookup "status" m = Some (JStr status)
    /\ match jlookup "state" part with
       | Some (JObj state) =>
           status = jstring (jlookup "status" state)
           /\ jlookup "output" m = jlookup "output" state
       | _ => status = "unknown" /\ jlookup "output" m = None
       end
    /\ (jlookup "error" m = None
        \/ exists errMsg,
             errMsg <> EmptyString /\ jlookup "error" m = Some (JStr errMsg)).
Proof.
  intros Htype Hpart. unfold extractEventData. rewrite Hpart, Htype. simpl.
  destruct (jlookup "state" part) as [[| | | | |state]|];
    try (exists [("tool", JStr (jstring (jlookup "tool" part)));
                 ("status", JStr "unknown")], "unknown";
         repeat split; by left).
  eexists _, (jstring (jlookup "status" state)). split; [reflexivity |].
  destruct (jlookup "input" state) as [[| | | | |input]|];
    destruct (jlookup "output" state) as [output|];
    destruct (jlookup "error" state) as [[| | |errMsg| |]|];
    try destruct (String.eqb_spec errMsg EmptyString) as [-> | Hne];
    simpl; repeat split; eauto.
Qed.

(** ** The theorems above at concrete requests *)

Section MoreExamples.

#[local] Existing Instance JSON.lib.

Lemma models_cached_witness :
  fetchAvailableModels (Ex.worldOf Ex.lister) "another-target"
    (Server newSessionStore (ModelCache ["modelA"; "modelB"] 1000))
  = (Server newSessionStore (ModelCache ["modelA"; "modelB"] 1000), [],
     Some ["modelA"; "modelB"]).
Proof.
  apply (models_cached (Ex.worldOf Ex.lister) (Ex.worldOf Ex.lister)
           "opencode-cli" "another-target" Ex.fresh _
           [Start Ex.listModelsCommand; Wait Ex.listModelsCommand]).
  - vm_compute. reflexivity.
  - vm_compute. reflexivity.
  - done.
  - vm_compute. reflexivity.
Defined.

Lemma failed_listing_not_cached_witness :
  Ex.stale = Ex.stale /\ @nil string = [].
Proof.
  apply (failed_listing_not_cached (Ex.laterWorld Ex.missing) "opencode-cli"
           Ex.stale Ex.stale [] []).
  - vm_compute. reflexivity.
  - vm_compute. reflexivity.
  - left. vm_compute. done.
Defined.

Lemma unknown_tool_iff_not_listed_witness :
  toolModels ∈ toolNames
  <-> responses (trace (handleToolsCallSSE (Ex.worldOf Ex.lister) Ex.cfg
                          Ex.listModels) Ex.fresh)
      <> [ McpResponse "2.0" (JNum "1") None
             (Some (McpError (-32602) ("unknown tool: " +:+ toolModels))) ].
Proof.
  eapply (unknown_tool_iff_not_listed (Ex.worldOf Ex.lister) Ex.cfg
            Ex.listModels (ToolCallParams toolModels _) Ex.fresh).
  vm_compute. reflexivity.
Defined.

Lemma served_sessions_wellformed_witness :
  session_id (Session (generateSessionID [x01; xab; xff]) 1000)
  = generateSessionID [x01; xab; xff]
  /\ wellFormedID (generateSessionID [x01; xab; xff]) = true.
Proof.
  apply (proj2 (served_sessions_wellformed Ex.cfg (ModelCache [] 0)
                  [(Ex.worldOf Ex.lister,
                    Ex.post "application/json" Ex.initialize)])).
  vm_compute. reflexivity.
Defined.

Lemma handshake_roundtrip_witness :
  (exists rest,
     trace (mcpHandler (Ex.worldOf Ex.lister) Ex.cfg
              (Ex.post "application/json" Ex.initialize)) Ex.fresh
     = SetHeader "Mcp-Session-Id" (generateSessionID [x01; xab; xff]) :: rest)
  /\ exists rest,
       trace (mcpHandler (Ex.worldOf Ex.lister) Ex.cfg
                (Ex.withSession (generateSessionID [x01; xab; xff])
                   Ex.listTools))
             (serve Ex.cfg
                (run (mcpHandler (Ex.worldOf Ex.lister) Ex.cfg
                        (Ex.post "application/json" Ex.initialize))
                     Ex.fresh).1
                [(Ex.worldOf Ex.lister, Ex.post "application/json" Ex.unknown)])
       = SetHeader "Mcp-Session-Id" (generateSessionID [x01; xab; xff]) :: rest.
Proof.
  eapply (handshake_roundtrip Ex.cfg (Ex.worldOf Ex.lister)
            (Ex.post "application/json" Ex.initialize) _ Ex.fresh
            [(Ex.worldOf Ex.lister, Ex.post "application/json" Ex.unknown)]
            (Ex.worldOf Ex.lister)
            (Ex.withSession (generateSessionID [x01; xab; xff]) Ex.listTools)
            _).
  - reflexivity.
  - vm_compute. reflexivity.
  - reflexivity.
  - reflexivity.
  - vm_compute. reflexivity.
  - reflexivity.
  - vm_compute. reflexivity.
Defined.

Lemma tool_use_data_witness :
  exists m status,
    extractEventData Ex.toolBEvent = JObj m
    /\ jlookup "tool" m = Some (JStr (jstring (jlookup "tool" Ex.toolBPart)))
    /\ jlookup "status" m = Some (JStr status)
    /\ match jlookup "state" Ex.toolBPart with
       | Some (JObj state) =>
           status = jstring (jlookup "status" state)
           /\ jlookup "output" m = jlookup "output" state
       | _ => status = "unknown" /\ jlookup "output" m = None
       end
    /\ (jlookup "error" m = None
        \/ exists errMsg,
             errMsg <> EmptyString /\ jlookup "error" m = Some (JStr errMsg)).
Proof. apply (tool_use_data Ex.toolBEvent Ex.toolBPart); reflexivity. Defined.

End MoreExamples.

(** ** The scanner and the tools whose output is passed through *)

Lemma scan_go_full cur rest :
  maxTokenSize <= Str.len cur -> scan_go cur rest = [].
Proof.
  revert cur. induction rest as [|c rest IH]; intros cur Hfull; simpl.
  - destruct cur; [done |].
    by destruct (Z.ltb_spec (Str.len (String a cur)) maxTokenSize); [lia |].
  - destruct (Ascii.eqb c "010").
    + by destruct (Z.ltb_spec (Str.len cur) maxTokenSize); [lia |].
    + apply IH. unfold Str.len in *. simpl. lia.
Qed.

Lemma scan_go_long cur long rest :
  noNewline long = true ->
  maxTokenSize <= Str.len cur + Str.len long ->
  scan_go cur (long +:+ rest) = [].
Proof.
  revert cur. induction long as [|c long IH]; intros cur Hnl Hlen.
  - apply scan_go_full. unfold Str.len in *. simpl in Hlen. lia.
  - simpl in Hnl. apply andb_prop in Hnl as [Hc Hnl].
    apply negb_true_iff in Hc.
    change (String c long +:+ rest) with (String c (long +:+ rest)).
    simpl. rewrite Hc. apply IH; [done |].
    unfold Str.len in *. simpl in *. lia.
Qed.

(** The scanner stops for good at a line that does not fit its buffer of
    1 MiB: the lines before it are delivered, the long line and everything
    the process prints after it are not. *)
Theorem long_line_ends_stream ls long rest :
  forallb plainLine ls = true ->
  noNewline long = true ->
  maxTokenSize <= Str.len long ->
  scanLines (unlines ls +:+ long +:+ rest) = ls.
Proof.
  intros Hls Hnl Hlen. unfold scanLines.
  induction ls as [|l ls IH].
  - change (unlines [] +:+ long +:+ rest) with (long +:+ rest).
    apply scan_go_long; [done |]. unfold Str.len in *. simpl. lia.
  - simpl in Hls. apply andb_prop in Hls as [Hl Hls].
    rewrite unlines_cons, append_assoc.
    change (String "010" (unlines ls) +:+ long +:+ rest)
      with (String "010" (unlines ls +:+ long +:+ rest)).
    pose proof Hl as Hplain. unfold plainLine in Hl.
    apply andb_prop in Hl as [[Hnl' Hlen']%andb_prop _].
    rewrite scan_go_line by done. fold (String.rev l).
    assert (Hrev : Str.len (String.rev l) = Str.len l).
    { unfold Str.len, String.rev. rewrite length_rev_app. simpl. lia. }
    by rewrite Hrev, Hlen', scanToken_plain, IH.
Qed.

Section PassThrough.

Context `{GoLib}.
Variable W : world.
Variable cfg : serverConfig.

Lemma streamLoop_raw toolName id st lines :
  (toolName =s toolRun) = false ->
  streamLoop toolName id st lines
  = (Collector (textCollector st +:+ unlines (List.filter nonEmpty lines))
               (toolOutputs st)
               (eventCount st
                + Z.of_nat (length (List.filter nonEmpty lines))),
     map RawLine (List.filter nonEmpty lines)).
Proof.
  intros Hname. revert st. induction lines as [|line rest IH]; intros st.
  - destruct st. simpl. rewrite append_nil_r. do 2 f_equal. lia.
  - rewrite streamLoop_cons, IH. unfold onLine, nonEmpty. simpl. rewrite Hname.
    destruct (line =s EmptyString); simpl; [done |].
    rewrite !append_assoc. do 2 f_equal. lia.
Qed.

Lemma notified_app t1 t2 : notified (t1 ++ t2) = notified t1 ++ notified t2.
Proof. apply omap_app. Qed.

Lemma notified_notifications out :
  notified (map (fun n => WriteFrame (Notification n)) out) = out.
Proof. induction out as [|n out IH]; [done |]. simpl. by rewrite IH. Qed.

(** The tools other than [opencode_run] pass the output of the process
    through. Each line the scanner delivers that is not empty is relayed as
    one raw notification, nothing else is notified, and the text of the
    result is these lines, each followed by a newline, composed with the
    captured standard error and the exit code. When the output consists of plain
    lines, the text is the standard output itself. *)
Theorem passthrough_result req s toolName cmd :
  (sseValidate W cfg req s).2 = Some (toolName, cmd) ->
  toolName <> toolRun ->
  launches W cmd = true ->
  let p := w_exec W cmd in
  let lines := List.filter nonEmpty (scanLines (p_stdout p)) in
  let t := trace (handleToolsCallSSE W cfg req) s in
  notified t = map RawLine lines
  /\ resultFrames t
     = [ finalResponse (req_ID req)
           (composed (unlines lines) [] (stderrBuf W p) (waitExitCode p))
           (waitExitCode p) ]
  /\ forall ls,
       forallb plainLine ls = true -> forallb nonEmpty ls = true ->
       p_stdout p = unlines ls ->
       unlines lines = p_stdout p.
Proof.
  intros Hv Hname Hl p lines t.
  destruct (validated W cfg req s toolName cmd Hv) as (s1 & t1 & Hv' & Ht1).
  subst t. rewrite (handleToolsCallSSE_streams W cfg req s s1 t1 toolName cmd Hv' Hl).
  apply String.eqb_neq in Hname.
  rewrite (streamLoop_raw _ _ _ _ Hname). cbn [fst snd].
  rewrite composeResult_composed. cbn [textCollector toolOutputs newCollector].
  fold p. fold lines.
  change (EmptyString +:+ unlines lines) with (unlines lines).
  split; [| split].
  - rewrite !notified_app.
    change (Start cmd :: sseHeaders ++ ?x) with ((Start cmd :: sseHeaders) ++ x).
    rewrite !notified_app, notified_notifications.
    assert (Hpre : notified t1 = []) by (by destruct Ht1 as [-> | ->]).
    rewrite Hpre. cbn. by rewrite app_nil_r.
  - rewrite !resultFrames_app.
    change (Start cmd :: sseHeaders ++ ?x) with ((Start cmd :: sseHeaders) ++ x).
    rewrite !resultFrames_app, resultFrames_notifications,
      (resultFrames_fetchTrace cfg t1 Ht1).
    reflexivity.
  - intros ls Hplain Hne Hout. subst lines. rewrite Hout.
    rewrite scanLines_unlines by done.
    f_equal. clear Hout. induction ls as [|l ls IH]; [done |].
    simpl in Hne, Hplain |- *.
    apply andb_prop in Hne as [-> Hne]. apply andb_prop in Hplain as [_ Hplain].
    by rewrite IH.
Qed.

End PassThrough.

(** ** What the configuration does not decide *)

(** The address and the default model of the configuration play no part
    in how a request is handled: with the same target and timeout, the
    router responds in the same way whatever they are. *)
Theorem default_model_setting_unused `{GoLib} W cfg addr model r s :
  mcpHandler W (ServerConfig addr (Target cfg) (DefaultTimeout cfg) model) r s
  = mcpHandler W cfg r s.
Proof. destruct cfg. reflexivity. Qed.

Section ScannerExamples.

#[local] Existing Instance JSON.lib.

Lemma long_line_ends_stream_witness :
  scanLines (unlines ["ok"] +:+ Ex.megabyte +:+ "tail") = ["ok"].
Proof.
  apply (long_line_ends_stream ["ok"] Ex.megabyte "tail").
  - vm_compute. reflexivity.
  - vm_compute. reflexivity.
  - vm_compute. discriminate.
Defined.

Lemma passthrough_result_witness :
  notified (trace (handleToolsCallSSE (Ex.worldOf Ex.lister) Ex.cfg
                     Ex.listModels) Ex.fresh)
  = map RawLine ["modelA"; "modelB"].
Proof.
  refine (proj1 (passthrough_result (Ex.worldOf Ex.lister) Ex.cfg
                   Ex.listModels Ex.fresh toolModels Ex.listModelsCommand
                   _ _ _)).
  - vm_compute. reflexivity.
  - done.
  - vm_compute. reflexivity.
Defined.

End ScannerExamples.

(** ** Identifiers do not collide *)

(** The hexadecimal encoding loses nothing, so two sessions only share an
    identifier when the random source delivered the same 16 bytes twice:
    otherwise creating a session leaves the sessions created before in the
    registry, each under its identifier. *)
Theorem sessions_do_not_collide s entropy1 now1 entropy2 now2 :
  randRead entropy1 (repeat x00 16) <> randRead entropy2 (repeat x00 16) ->
  let s1 := (create s entropy1 now1).2 in
  let s2 := (create s1 entropy2 now2).2 in
  generateSessionID entropy1 <> generateSessionID entropy2
  /\ get s2 (generateSessionID entropy1)
     = Some (Session (generateSessionID entropy1) now1)
  /\ get s2 (generateSessionID entropy2)
     = Some (Session (generateSessionID entropy2) now2).
Proof.
  intros Hne s1 s2.
  assert (Hid : generateSessionID entropy1 <> generateSessionID entropy2).
  { unfold generateSessionID. intros Heq. apply Hne.
    apply (f_equal hexDecode) in Heq.
    rewrite !hexDecode_EncodeToString in Heq. by injection Heq. }
  split; [done |]. subst s1 s2. unfold create, get. cbn [sessions snd].
  split; [| by rewrite lookup_insert_eq].
  rewrite lookup_insert_ne by done. by rewrite lookup_insert_eq.
Qed.

Lemma sessions_do_not_collide_witness :
  generateSessionID Ex.draw1 <> generateSessionID Ex.draw2
  /\ get (create (create newSessionStore Ex.draw1 1).2 Ex.draw2 2).2
         (generateSessionID Ex.draw1)
     = Some (Session (generateSessionID Ex.draw1) 1)
  /\ get (create (create newSessionStore Ex.draw1 1).2 Ex.draw2 2).2
         (generateSessionID Ex.draw2)
     = Some (Session (generateSessionID Ex.draw2) 2).
Proof.
  apply (sessions_do_not_collide newSessionStore Ex.draw1 1 Ex.draw2 2).
  vm_compute. discriminate.
Defined.

(** ** The two handlers on a stream of text events *)

Lemma split_go_plain cur l :
  noNewline l = true ->
  Str.split_go "010" cur l = [String.rev (String.rev_app l cur)].
Proof.
  revert cur. induction l as [|c l IH]; intros cur Hl; [done |].
  simpl in Hl. apply andb_prop in Hl as [Hc Hl]. apply negb_true_iff in Hc.
  simpl. rewrite Hc. by apply IH.
Qed.

Lemma SplitLines_unlines ls :
  forallb noNewline ls = true ->
  Str.SplitLines (unlines ls) = ls ++ [EmptyString].
Proof.
  unfold Str.SplitLines. induction ls as [|l ls IH]; [done |].
  intros [Hl Hls]%andb_prop.
  rewrite unlines_cons, split_go_app, split_go_plain by done.
  fold (String.rev l). by rewrite rev_rev, IH.
Qed.

Lemma Join_nonempty texts :
  Str.Join (flat_map (fun text => if negb (text =s EmptyString) then [text]
                                  else []) texts) EmptyString
  = Str.Join texts EmptyString.
Proof.
  induction texts as [|text texts IH]; [done |].
  simpl flat_map. rewrite Join_app, Join_cons, IH.
  by destruct (String.eqb_spec text EmptyString) as [-> | Hne].
Qed.

Section TextStreams.

Context `{GoLib}.

Lemma parseEventLine_text line text :
  textOfLine line = Some text -> TrimSpace line = line ->
  parseEventLine line = if negb (text =s EmptyString) then [text] else [].
Proof.
  unfold textOfLine, parseEventLine. intros Htext ->.
  destruct (String.eqb_spec line EmptyString) as [-> | _];
    [by rewrite unmarshalMap_empty in Htext |].
  destruct (unmarshalMap line) as [[| | | | |fields]|]; try done. simpl.
  destruct (jstring (jlookup "type" fields) =s "text"); [| done].
  destruct (jlookup "part" fields) as [[| | | | |part]|]; try done.
  destruct (jlookup "text" part) as [[| | |text'| |]|]; try done.
  by injection Htext as ->.
Qed.

Lemma onLine_text id st line text :
  textOfLine line = Some text ->
  textCollector (onLine toolRun id st line).1 = textCollector st +:+ text.
Proof.
  unfold textOfLine, onLine. intros Htext.
  destruct (String.eqb_spec line EmptyString) as [-> | _];
    [by rewrite unmarshalMap_empty in Htext |].
  simpl. unfold extractEventData.
  destruct (unmarshalMap line) as [[| | | | |fields]|]; try done. simpl.
  destruct (jstring (jlookup "type" fields) =s "text"); [| done].
  destruct (jlookup "part" fields) as [[| | | | |part]|]; try done.
  destruct (jlookup "text" part) as [[| | |text'| |]|]; try done.
  by injection Htext as ->.
Qed.

Lemma streamLoop_text id st lines texts :
  map textOfLine lines = map Some texts ->
  textCollector (streamLoop toolRun id st lines).1
  = textCollector st +:+ Str.Join texts EmptyString.
Proof.
  revert st texts. induction lines as [|line lines IH]; intros st texts Hmap.
  - destruct texts; [| done]. simpl. by rewrite append_nil_r.
  - destruct texts as [|text texts]; [done |].
    injection Hmap as Hline Hmap.
    rewrite streamLoop_cons. cbn [fst].
    by rewrite (IH _ _ Hmap), (onLine_text _ _ _ _ Hline), Join_cons,
      append_assoc.
Qed.

(** On a stream of text events the two handlers collect the same text:
    when every line of the output is a plain line that decodes to a text
    event, and [strings.TrimSpace] leaves these lines and the empty string
    as they are, [parseJSONEventStream] on the output and the loop of
    [handleToolsCallSSE] on the lines of the scanner both yield the texts
    of the events, concatenated in order. *)
Theorem text_streams_agree id lines texts :
  map textOfLine lines = map Some texts ->
  map TrimSpace (EmptyString :: lines) = EmptyString :: lines ->
  forallb plainLine lines = true ->
  parseJSONEventStream (unlines lines) = Str.Join texts EmptyString
  /\ textCollector
       (streamLoop toolRun id newCollector (scanLines (unlines lines))).1
     = Str.Join texts EmptyString.
Proof.
  intros Hmap Htrim Hplain. injection Htrim as Hempty Htrim. split.
  - unfold parseJSONEventStream. rewrite SplitLines_unlines.
    2:{ clear -Hplain. induction lines as [|l ls IH]; [done |].
        simpl in Hplain |- *. apply andb_prop in Hplain as [Hl Hls].
        unfold plainLine in Hl.
        apply andb_prop in Hl as [[-> _]%andb_prop _]. by apply IH. }
    rewrite flat_map_app. simpl.
    assert (Hlast : parseEventLine EmptyString = []).
    { unfold parseEventLine. by rewrite Hempty. }
    rewrite Hlast, !app_nil_r, <- (Join_nonempty texts). f_equal.
    clear Hplain Hlast. revert texts Hmap Htrim.
    induction lines as [|line lines IH]; intros texts Hmap Htrim.
    + by destruct texts.
    + destruct texts as [|text texts]; [done |].
      injection Hmap as Hline Hmap. injection Htrim as Hl Htrim.
      simpl. by rewrite (parseEventLine_text _ _ Hline Hl), (IH _ Hmap Htrim).
  - rewrite scanLines_unlines by done. by rewrite (streamLoop_text _ _ _ _ Hmap).
Qed.

End TextStreams.

Section StreamExamples.

#[local] Existing Instance JSON.lib.

Lemma text_streams_agree_witness :
  parseJSONEventStream (unlines [Ex.textA; Ex.textC]) = Str.Join ["A"; "C"] EmptyString
  /\ textCollector
       (streamLoop toolRun (JNum "1") newCollector
          (scanLines (unlines [Ex.textA; Ex.textC]))).1
     = Str.Join ["A"; "C"] EmptyString.
Proof.
  apply (text_streams_agree (JNum "1") [Ex.textA; Ex.textC] ["A"; "C"]).
  - vm_compute. reflexivity.
  - vm_compute. reflexivity.
  - vm_compute. reflexivity.
Defined.

Lemma headers_do_not_matter_witness :
  (run (mcpHandler (Ex.worldOf Ex.lister) Ex.cfg
          (Ex.post "application/json" Ex.callModels)) Ex.fresh).1
  = (run (mcpHandler (Ex.worldOf Ex.lister) Ex.cfg
            (Ex.withSession "0123456789abcdef0123456789abcdef" Ex.callModels))
         Ex.fresh).1
  /\ sansSession (trace (mcpHandler (Ex.worldOf Ex.lister) Ex.cfg
                           (Ex.post "application/json" Ex.callModels)) Ex.fresh)
     = sansSession (trace (mcpHandler (Ex.worldOf Ex.lister) Ex.cfg
                             (Ex.withSession "0123456789abcdef0123456789abcdef"
                                Ex.callModels)) Ex.fresh).
Proof.
  apply (headers_do_not_matter (Ex.worldOf Ex.lister) Ex.cfg
           (Ex.post "application/json" Ex.callModels)
           (Ex.withSession "0123456789abcdef0123456789abcdef" Ex.callModels)
           Ex.fresh); reflexivity.
Defined.

End StreamExamples.
